(** * Raw-layer ingestion (extract_ingest.py): embedding and properties

    The development follows the layout of [src/extract_ingest.py]:
    string utilities and the normaliser first, then the values and datasets,
    then the effectful part (object store, scratch directory, manifest,
    retrying readers, atomic writer, the three ingestion flows).

    Python [str] values are modelled by [string]; a character is read as
    the code point of the same number, so the model covers the code points
    U+0000 to U+00FF. *)

From Stdlib Require Import ZArith Ascii String List Bool Lia.
From stdpp Require Import base decidable list strings gmap sorting.

Local Open Scope string_scope.
Local Open Scope list_scope.

(* ===================================================================== *)
(** ** Python string primitives *)
(* ===================================================================== *)

Module PyStr.

Definition code (c : ascii) : nat := nat_of_ascii c.

Definition in_range (lo hi : nat) (c : ascii) : bool :=
  (lo <=? code c)%nat && (code c <=? hi)%nat.

(** [str.isspace] on one character, for code points below 256: the
    ASCII controls 9 to 13, the separators 28 to 31, the space, NEL (133)
    and the no-break space (160).  [re]'s [\s] on [str] patterns is the
    same set, and so is what [str.strip()] removes. *)
Definition isspace (c : ascii) : bool :=
  in_range 9 13 c || in_range 28 32 c ||
  (code c =? 133)%nat || (code c =? 160)%nat.

Definition is_upper_az (c : ascii) : bool := in_range 65 90 c.
Definition is_lower_az (c : ascii) : bool := in_range 97 122 c.
Definition is_digit (c : ascii) : bool := in_range 48 57 c.

(** [str.lower] on one character: A to Z, and the Latin-1 capitals 192 to
    222 except the multiplication sign 215. *)
Definition lower_char (c : ascii) : ascii :=
  if is_upper_az c || (in_range 192 222 c && negb (code c =? 215)%nat)
  then ascii_of_nat (code c + 32) else c.

Fixpoint lower (s : string) : string :=
  match s with
  | EmptyString => EmptyString
  | String c r => String (lower_char c) (lower r)
  end.

Fixpoint lstrip (s : string) : string :=
  match s with
  | EmptyString => EmptyString
  | String c r => if isspace c then lstrip r else s
  end.

Fixpoint rstrip (s : string) : string :=
  match s with
  | EmptyString => EmptyString
  | String c r =>
      match rstrip r with
      | EmptyString => if isspace c then EmptyString else String c EmptyString
      | r' => String c r'
      end
  end.

(** [s.strip()] *)
Definition strip (s : string) : string := rstrip (lstrip s).

(** [s.replace(old, new)] for a non-empty [old]: leftmost, non-overlapping
    occurrences, scanned from the left.  [skip] counts the characters of
    an occurrence that is being consumed. *)
Fixpoint replace_from (old new s : string) (skip : nat) : string :=
  match s with
  | EmptyString => EmptyString
  | String c r =>
      match skip with
      | S k => replace_from old new r k
      | O =>
          if String.prefix old s
          then new ++ replace_from old new r (String.length old - 1)
          else String c (replace_from old new r 0)
      end
  end.

Definition replace (old new s : string) : string := replace_from old new s 0.

Definition startswith (p s : string) : bool := String.prefix p s.

(** [re.sub("[cls]+", repl, s)]: every maximal run of characters of the
    class is replaced by [repl].  [inrun] tells that the previous
    character belonged to the run being replaced. *)
Fixpoint sub_runs (cls : ascii -> bool) (repl s : string) (inrun : bool) : string :=
  match s with
  | EmptyString => EmptyString
  | String c r =>
      if cls c
      then (if inrun then sub_runs cls repl r true
            else repl ++ sub_runs cls repl r true)
      else String c (sub_runs cls repl r false)
  end.

Definition re_sub_class (cls : ascii -> bool) (repl s : string) : string :=
  sub_runs cls repl s false.

(** [s.split(sep)] on a one-character separator. *)
Fixpoint split (sep : ascii) (s : string) : list string :=
  match s with
  | EmptyString => [EmptyString]
  | String c r =>
      if Ascii.eqb c sep then EmptyString :: split sep r
      else match split sep r with
           | [] => [String c EmptyString]
           | h :: t => String c h :: t
           end
  end.

(** [s.split(sep, 1)] *)
Fixpoint split1 (sep : ascii) (s : string) : list string :=
  match s with
  | EmptyString => [EmptyString]
  | String c r =>
      if Ascii.eqb c sep then [EmptyString; r]
      else match split1 sep r with
           | [] => [String c EmptyString]
           | h :: t => String c h :: t
           end
  end.

(** [l[-1]] and [l[0]] of a non-empty list of strings *)
Definition last_item (l : list string) : string := List.last l EmptyString.
Definition first_item (l : list string) : string := List.hd EmptyString l.

(** [os.path.basename]: what follows the last slash. *)
Definition basename (p : string) : string := last_item (split "/" p).

Fixpoint all_chars (p : ascii -> bool) (s : string) : bool :=
  match s with
  | EmptyString => true
  | String c r => p c && all_chars p r
  end.

Fixpoint contains (needle s : string) : bool :=
  String.prefix needle s ||
  match s with
  | EmptyString => false
  | String _ r => contains needle r
  end.

(** [str(n)] of a natural number: its decimal digits. *)
Fixpoint decimal_digits (fuel n : nat) (acc : string) : string :=
  match fuel with
  | O => acc
  | S fuel' =>
      let acc' := String (ascii_of_nat (48 + n mod 10)) acc in
      if (n <? 10)%nat then acc' else decimal_digits fuel' (n / 10) acc'
  end.

Definition str_of_nat (n : nat) : string := decimal_digits (S n) n EmptyString.

(** [str(z)] of an [int] *)
Definition str_of_Z (z : Z) : string :=
  if (z <? 0)%Z then String "-" (str_of_nat (Z.abs_nat z)) else str_of_nat (Z.abs_nat z).

(** [str.isprintable] on one character, for code points below 256. *)
Definition isprintable (c : ascii) : bool :=
  (32 <=? code c)%nat && negb (in_range 127 160 c) && negb (code c =? 173)%nat.

Definition hex_digit (n : nat) : ascii :=
  if (n <? 10)%nat then ascii_of_nat (48 + n) else ascii_of_nat (87 + n).

(** One character inside the [repr] of a [str] quoted with [quote]. *)
Definition repr_char (quote c : ascii) : string :=
  if Ascii.eqb c "\"%char then "\\"
  else if Ascii.eqb c quote then String "\" (String c EmptyString)
  else if (code c =? 9)%nat then "\t"
  else if (code c =? 10)%nat then "\n"
  else if (code c =? 13)%nat then "\r"
  else if isprintable c then String c EmptyString
  else String "\" (String "x" (String (hex_digit (code c / 16))
                                 (String (hex_digit (code c mod 16)) EmptyString))).

Fixpoint repr_chars (quote : ascii) (s : string) : string :=
  match s with
  | EmptyString => EmptyString
  | String c r => repr_char quote c +:+ repr_chars quote r
  end.

(** [repr(s)] of a [str]: single quotes, unless the text has a single
    quote and no double quote. *)
Definition repr_str (s : string) : string :=
  let quote :=
    if contains "'" s && negb (contains (String "034" EmptyString) s)
    then "034"%char else "'"%char in
  String quote (repr_chars quote s +:+ String quote EmptyString).

End PyStr.

(* ===================================================================== *)
(** ** Regular expressions, as far as [EMAIL_REGEX] needs them *)
(* ===================================================================== *)

Module Re.

Inductive regex : Type :=
  | Rnone
  | Reps
  | Rset (cls : ascii -> bool)
  | Rcat (r1 r2 : regex)
  | Ralt (r1 r2 : regex)
  | Rstar (r : regex).

Fixpoint nullable (r : regex) : bool :=
  match r with
  | Rnone => false
  | Reps => true
  | Rset _ => false
  | Rcat r1 r2 => nullable r1 && nullable r2
  | Ralt r1 r2 => nullable r1 || nullable r2
  | Rstar _ => true
  end.

Fixpoint deriv (c : ascii) (r : regex) : regex :=
  match r with
  | Rnone => Rnone
  | Reps => Rnone
  | Rset cls => if cls c then Reps else Rnone
  | Rcat r1 r2 =>
      if nullable r1
      then Ralt (Rcat (deriv c r1) r2) (deriv c r2)
      else Rcat (deriv c r1) r2
  | Ralt r1 r2 => Ralt (deriv c r1) (deriv c r2)
  | Rstar r1 => Rcat (deriv c r1) (Rstar r1)
  end.

(** The whole of [s] is in the language of [r]. *)
Fixpoint fullmatch (r : regex) (s : string) : bool :=
  match s with
  | EmptyString => nullable r
  | String c t => fullmatch (deriv c r) t
  end.

(** The language of a pattern. *)
Inductive matches : regex -> string -> Prop :=
  | MEps : matches Reps ""
  | MSet cls c : cls c = true -> matches (Rset cls) (String c "")
  | MCat r1 r2 s1 s2 :
      matches r1 s1 -> matches r2 s2 -> matches (Rcat r1 r2) (s1 +:+ s2)
  | MAltL r1 r2 s : matches r1 s -> matches (Ralt r1 r2) s
  | MAltR r1 r2 s : matches r2 s -> matches (Ralt r1 r2) s
  | MStarNil r : matches (Rstar r) ""
  | MStarApp r s1 s2 :
      matches r s1 -> matches (Rstar r) s2 -> matches (Rstar r) (s1 +:+ s2).

Definition Rplus (r : regex) : regex := Rcat r (Rstar r).
Definition Rchar (c : ascii) : regex := Rset (Ascii.eqb c).

(** [$] without [re.MULTILINE]: the end of the string, or just before a
    newline that ends the string.  As the last item of a pattern that
    [match] anchors at the start, it accepts an optional final newline. *)
Definition Rdollar : regex := Ralt Reps (Rchar "010").

End Re.

(* ===================================================================== *)
(** ** Normaliser: column names and e-mail hygiene *)
(* ===================================================================== *)

Import PyStr.

(** [[\s/\\.-]] *)
Definition sep_class (c : ascii) : bool :=
  isspace c || Ascii.eqb c "/" || Ascii.eqb c "\" || Ascii.eqb c "." || Ascii.eqb c "-".

(** [[0-9a-zA-Z_]] *)
Definition word_class (c : ascii) : bool :=
  is_digit c || is_lower_az c || is_upper_az c || Ascii.eqb c "_".

(** [[^0-9a-zA-Z_]] *)
Definition nonword_class (c : ascii) : bool := negb (word_class c).

Definition underscore_class (c : ascii) : bool := Ascii.eqb c "_".

Definition newline : string := String "010" EmptyString.

Definition normalize_column_name (col : string) : string :=
  let col := strip col in
  let col := replace newline " " col in
  let col := re_sub_class sep_class "_" col in
  let col := re_sub_class nonword_class "" col in
  let col := lower col in
  let col := re_sub_class underscore_class "_" col in
  col.

(** [[A-Za-z0-9._%+-]] *)
Definition local_class (c : ascii) : bool :=
  is_upper_az c || is_lower_az c || is_digit c ||
  Ascii.eqb c "." || Ascii.eqb c "_" || Ascii.eqb c "%" || Ascii.eqb c "+" || Ascii.eqb c "-".

(** [[A-Za-z0-9.-]] *)
Definition domain_class (c : ascii) : bool :=
  is_upper_az c || is_lower_az c || is_digit c || Ascii.eqb c "." || Ascii.eqb c "-".

(** [[A-Za-z]] *)
Definition alpha_class (c : ascii) : bool := is_upper_az c || is_lower_az c.

(** [^[A-Za-z0-9._%+-]+@[A-Za-z0-9.-]+\.[A-Za-z]{2,}$] *)
Definition EMAIL_REGEX : Re.regex :=
  Re.Rcat (Re.Rplus (Re.Rset local_class))
  (Re.Rcat (Re.Rchar "@")
  (Re.Rcat (Re.Rplus (Re.Rset domain_class))
  (Re.Rcat (Re.Rchar ".")
  (Re.Rcat (Re.Rcat (Re.Rset alpha_class) (Re.Rplus (Re.Rset alpha_class)))
   Re.Rdollar)))).

(** [EMAIL_REGEX.match(s)] is truthy *)
Definition email_regex_match (s : string) : bool := Re.fullmatch EMAIL_REGEX s.

(** Cell values of a dataset, as far as the code tells them apart. *)
Inductive pyval : Type :=
  | VNone
  | VNaN
  | VBool (b : bool)
  | VInt (z : Z)
  | VStr (s : string).

Definition is_str (v : pyval) : bool :=
  match v with VStr _ => true | _ => false end.

(** The three heuristic substitutions of [clean_email]. *)
Definition at_substitutions (s : string) : string :=
  replace " at " "@" (replace "[at]" "@" (replace "(at)" "@" s)).

(** The text [\s+] that the fourth [replace] looks for: [str.replace]
    takes it literally (a backslash, an s, a plus). *)
Definition backslash_s_plus : string := "\s+".

Definition clean_email (email : pyval) : pyval :=
  match email with
  | VStr email =>
      let email := lower (strip email) in
      let email := at_substitutions email in
      let email := replace backslash_s_plus "" email in
      if email_regex_match email then VStr email else VNone
  | _ => VNone
  end.

(* ===================================================================== *)
(** ** Datasets *)
(* ===================================================================== *)

(** A pandas column: its label, the name of its dtype and its cells. *)
Record Column : Type := mkColumn {
  col_name : string;
  col_dtype : string;
  col_values : list pyval
}.

(** A pandas DataFrame: the length of its index and its columns in order.
    Labels may repeat, as pandas allows. *)
Record DataFrame : Type := mkDataFrame {
  df_rows : nat;
  df_columns : list Column
}.

(** [df.empty]: some axis has length zero. *)
Definition df_empty (df : DataFrame) : bool :=
  (df_rows df =? 0)%nat || (length (df_columns df) =? 0)%nat.

(** [pd.DataFrame()] *)
Definition empty_frame : DataFrame := mkDataFrame 0 [].

Definition rename_column (f : string -> string) (c : Column) : Column :=
  mkColumn (f (col_name c)) (col_dtype c) (col_values c).

Definition normalize_columns (df : DataFrame) : DataFrame :=
  mkDataFrame (df_rows df) (map (rename_column normalize_column_name) (df_columns df)).

Definition named (name : string) (c : Column) : bool := String.eqb (col_name c) name.

(** [name in df.columns] *)
Definition has_column (name : string) (df : DataFrame) : bool :=
  existsb (named name) (df_columns df).

Definition columns_named (name : string) (df : DataFrame) : list Column :=
  List.filter (named name) (df_columns df).

(** [df[name] = series]: an existing label keeps its place (every column
    of that label receives the cells), a new label is appended. *)
Definition set_column (name dtype : string) (vals : list pyval) (df : DataFrame) : DataFrame :=
  if has_column name df
  then mkDataFrame (df_rows df)
         (map (fun c => if named name c then mkColumn name dtype vals else c) (df_columns df))
  else mkDataFrame (df_rows df) (df_columns df ++ [mkColumn name dtype vals]).

(** [df[name] = scalar] *)
Definition set_scalar (name : string) (v : pyval) (df : DataFrame) : DataFrame :=
  set_column name "object" (List.repeat v (df_rows df)) df.

(* ===================================================================== *)
(** ** Clock readings *)
(* ===================================================================== *)

Module DT.

Record datetime : Type := mk {
  year : nat; month : nat; day : nat;
  hour : nat; minute : nat; second : nat;
  microsecond : nat
}.

Definition digit (n : nat) : ascii := ascii_of_nat (48 + n mod 10).

Definition pad2 (n : nat) : string :=
  String (digit (n / 10)) (String (digit n) EmptyString).

Definition pad4 (n : nat) : string := pad2 (n / 100) ++ pad2 n.
Definition pad6 (n : nat) : string := pad2 (n / 100 / 100) ++ pad4 n.

(** [strftime('%Y-%m-%d')] *)
Definition strftime_date (d : datetime) : string :=
  pad4 (year d) ++ "-" ++ pad2 (month d) ++ "-" ++ pad2 (day d).

(** [strftime('%Y%m%d%H%M%S')] *)
Definition strftime_stamp (d : datetime) : string :=
  pad4 (year d) ++ pad2 (month d) ++ pad2 (day d) ++
  pad2 (hour d) ++ pad2 (minute d) ++ pad2 (second d).

(** [isoformat()]: the fraction is printed unless it is zero. *)
Definition isoformat (d : datetime) : string :=
  strftime_date d ++ "T" ++ pad2 (hour d) ++ ":" ++ pad2 (minute d) ++ ":" ++ pad2 (second d) ++
  (if (microsecond d =? 0)%nat then "" else "." ++ pad6 (microsecond d)).

End DT.

(* ===================================================================== *)
(** ** JSON documents *)
(* ===================================================================== *)

(** What [json.load] returns: None, a bool, an int, a float (by the text
    Python prints for it), a str, a list, or a dict with its items in
    insertion order.  The keys of a dict are distinct in every value the
    program builds or loads; [dict_get] and [dict_set] look at the first
    item of a key. *)
#[local] Set Warnings "-register-all".
Inductive json : Type :=
  | JNull
  | JBool (b : bool)
  | JInt (z : Z)
  | JFloat (text : string)
  | JStr (s : string)
  | JArr (items : list json)
  | JObj (items : list (string * json)).
#[local] Set Warnings "register-all".

(** [d.get(key)] on the items of a dict *)
Fixpoint dict_get (key : string) (d : list (string * json)) : option json :=
  match d with
  | [] => None
  | (k, v) :: rest => if String.eqb k key then Some v else dict_get key rest
  end.

(** [d[key] = value]: a key that is there keeps its place, a new one goes
    to the end. *)
Fixpoint dict_set (key : string) (value : json) (d : list (string * json))
    : list (string * json) :=
  match d with
  | [] => [(key, value)]
  | (k, v) :: rest =>
      if String.eqb k key then (k, value) :: rest else (k, v) :: dict_set key value rest
  end.

(** [type(v).__name__] *)
Definition type_name (v : json) : string :=
  match v with
  | JNull => "NoneType"
  | JBool _ => "bool"
  | JInt _ => "int"
  | JFloat _ => "float"
  | JStr _ => "str"
  | JArr _ => "list"
  | JObj _ => "dict"
  end.

(** [repr(v)] *)
Fixpoint py_repr (v : json) : string :=
  match v with
  | JNull => "None"
  | JBool b => if b then "True" else "False"
  | JInt z => str_of_Z z
  | JFloat text => text
  | JStr s => repr_str s
  | JArr items => "[" +:+ String.concat ", " (map py_repr items) +:+ "]"
  | JObj items =>
      "{" +:+ String.concat ", "
               (map (fun kv => let '(k, v') := kv in repr_str k +:+ ": " +:+ py_repr v') items)
          +:+ "}"
  end.

(** [str(v)], which is what an f-string puts in place of [{v}]. *)
Definition py_str (v : json) : string :=
  match v with JStr s => s | _ => py_repr v end.

(* ===================================================================== *)
(** ** Configuration, commit records, stored objects *)
(* ===================================================================== *)

Record Config : Type := mkConfig {
  S3_RAW_BUCKET : string;
  S3_RAW_PREFIX : string;
  LOCAL_TMP : string;
  CUSTOMERS_S3_PREFIX : string;
  CALL_LOGS_PREFIX : string;
  SOCIAL_PREFIX : string;
  GOOGLE_SERVICE_ACCOUNT : string;
  GOOGLE_SHEET_ID : string;
  GOOGLE_SHEET_RANGE : string;
  POSTGRES_SSM_PARAM : string;
  POSTGRES_SCHEMA : string;
  METADATA_PREFIX : string;
  POSTGRES_TABLES : string
}.

(** The values the module takes when the environment sets none. *)
Definition default_config : Config := {|
  S3_RAW_BUCKET := "my-raw-bucket";
  S3_RAW_PREFIX := "raw";
  LOCAL_TMP := "/tmp/data_ingest_tmp";
  CUSTOMERS_S3_PREFIX := "s3://your-bucket/customers/";
  CALL_LOGS_PREFIX := "s3://your-bucket/call_center_logs/";
  SOCIAL_PREFIX := "s3://your-bucket/social_media/";
  GOOGLE_SERVICE_ACCOUNT := "/secrets/gcp-sa.json";
  GOOGLE_SHEET_ID := "YOUR_SHEET_ID";
  GOOGLE_SHEET_RANGE := "Agents!A1:Z999";
  POSTGRES_SSM_PARAM := "/customer_complaints/db_credentials";
  POSTGRES_SCHEMA := "customer_complaints";
  METADATA_PREFIX := "raw/_metadata";
  POSTGRES_TABLES := ""
|}.

Definition PROCESSED_MANIFEST (cfg : Config) : string :=
  METADATA_PREFIX cfg ++ "/processed_files.json".

(** The [metadata] dict built for every committed dataset. *)
Record Metadata : Type := mkMetadata {
  source : string;
  source_path : string;
  load_time_utc : string;
  record_count : nat;
  schema_hash : string
}.

(** That dict as a value: its five items in the order the code writes
    them. *)
Definition metadata_json (md : Metadata) : json :=
  JObj [("source", JStr (source md));
        ("source_path", JStr (source_path md));
        ("load_time_utc", JStr (load_time_utc md));
        ("record_count", JInt (Z.of_nat (record_count md)));
        ("schema_hash", JStr (schema_hash md))].

(** What an object of the store, a scratch file or a parameter holds:
    text that is no JSON document, a columnar file (by the dataset it
    encodes), a JSON document (by the value [json.load] gives for it),
    or the empty file [NamedTemporaryFile] creates. *)
Inductive Blob : Type :=
  | Bytes (content : string)
  | Parquet (df : DataFrame)
  | Json (doc : json)
  | EmptyFile.

(** The sidecar of an artifact: [json.dumps(metadata)], with the empty
    dict for [None]. *)
Definition JsonMetadata (metadata : option Metadata) : Blob :=
  Json (match metadata with Some md => metadata_json md | None => JObj [] end).

(* ===================================================================== *)
(** ** Exceptions, the outside world, and the monad of the module *)
(* ===================================================================== *)

(** A raised exception, an instance of [Exception]: the name of its class
    followed by the names of the classes it derives from (below
    [Exception]), and the text of [str(e)].  What [json] raises on content
    that is no JSON document is kept with that content: it is a
    [JSONDecodeError] or a [UnicodeDecodeError], both of them
    [ValueError]s, and its text depends on the content.  tenacity's
    [RetryError] keeps the failure of the last attempt. *)
Inductive exn : Type :=
  | Exn (classes : list string) (msg : string)
  | DecodeError (content : Blob)
  | RetryError (last : exn).

(** [except ValueError] catches it. *)
Definition is_ValueError (e : exn) : bool :=
  match e with
  | Exn classes _ => existsb (String.eqb "ValueError") classes
  | DecodeError _ => true
  | RetryError _ => false
  end.

Inductive result (A : Type) : Type :=
  | Ok (a : A)
  | Raise (e : exn).
Arguments Ok {A} a.
Arguments Raise {A} e.

(** [json.load] on the content of an object *)
Definition json_load (b : Blob) : result json :=
  match b with
  | Json doc => Ok doc
  | _ => Raise (DecodeError b)
  end.

(** [key in doc] for a [str] key: a key of a dict, an item of a list, a
    substring of a str; the other values are no containers. *)
Definition py_contains (key : string) (doc : json) : result bool :=
  match doc with
  | JObj d => Ok (match dict_get key d with Some _ => true | None => false end)
  | JArr items =>
      Ok (existsb (fun v => match v with JStr s => String.eqb s key | _ => false end) items)
  | JStr s => Ok (contains key s)
  | _ => Raise (Exn ["TypeError"]
                  ("argument of type '" +:+ type_name doc +:+ "' is not iterable"))
  end.

(** [doc[key]] for a [str] key *)
Definition py_getitem (doc : json) (key : string) : result json :=
  match doc with
  | JObj d =>
      match dict_get key d with
      | Some v => Ok v
      | None => Raise (Exn ["KeyError"; "LookupError"] (repr_str key))
      end
  | JArr _ => Raise (Exn ["TypeError"] "list indices must be integers or slices, not str")
  | JStr _ => Raise (Exn ["TypeError"] "string indices must be integers, not 'str'")
  | _ => Raise (Exn ["TypeError"] ("'" +:+ type_name doc +:+ "' object is not subscriptable"))
  end.

(** [doc[key] = value] for a [str] key *)
Definition py_setitem (doc : json) (key : string) (value : json) : result json :=
  match doc with
  | JObj d => Ok (JObj (dict_set key value d))
  | JArr _ => Raise (Exn ["TypeError"] "list indices must be integers or slices, not str")
  | _ => Raise (Exn ["TypeError"]
                  ("'" +:+ type_name doc +:+ "' object does not support item assignment"))
  end.

(** Calls that leave the process.  The world records them in the order
    they are issued, whether they succeed or raise.  [OpLogExc] is a line
    of [logger.exception] whose format has a [%s] for the exception: the
    line reads the format with [str(e)] in that place. *)
Inductive Op : Type :=
  | OpLog (level msg : string)
  | OpLogExc (format : string) (e : exn)
  | OpSleep (seconds : nat)
  | OpMakedirs (path : string)
  | OpList (bucket prefix : string)
  | OpGetObject (bucket key : string)
  | OpUploadFile (file bucket key : string)
  | OpPutObject (bucket key : string)
  | OpFsExists (path : string)
  | OpFsRead (path : string)
  | OpFsWrite (path : string)
  | OpMkstemp
  | OpWriteTable (file : string)
  | OpRemove (file : string)
  | OpSsmGet (name : string)
  | OpPgConnect (host : json)
  | OpPgQuery (sql : string)
  | OpPgClose
  | OpSheetsGet (sheet_id range_name : string).

(** What the module runs against: the object store, the scratch
    directory, the three sources, the clock, and which of the calls to
    come fail.  [faults] and [clock] are indexed by the number of calls
    and readings made so far, so they range over every schedule of
    failures and every sequence of readings. *)
Record World : Type := mkWorld {
  s3 : gmap (string * string) Blob;          (* (bucket, key) to object *)
  scratch : gmap string Blob;                (* files of LOCAL_TMP *)
  ssm : gmap string Blob;                    (* parameter store: name to value *)
  pg : gmap string (list DataFrame);         (* query text to chunks read *)
  sheets : gmap (string * string) (list (list string));
  clock : nat -> DT.datetime;                (* successive utcnow() readings *)
  clock_reads : nat;
  faults : nat -> option exn;                (* outcome of the n-th fallible call *)
  calls : nat;
  trace : list Op
}.

Definition M (A : Type) : Type := World -> result A * World.

Definition ret {A} (a : A) : M A := fun w => (Ok a, w).
Definition raise {A} (e : exn) : M A := fun w => (Raise e, w).
Definition bind {A B} (m : M A) (k : A -> M B) : M B :=
  fun w => match m w with
           | (Ok a, w') => k a w'
           | (Raise e, w') => (Raise e, w')
           end.

(** [try: body  except Exception as e: handler e] *)
Definition try_except {A} (body : M A) (handler : exn -> M A) : M A :=
  fun w => match body w with
           | (Ok a, w') => (Ok a, w')
           | (Raise e, w') => handler e w'
           end.

(** [try: body  finally: cleanup] *)
Definition try_finally {A} (body : M A) (cleanup : M unit) : M A :=
  fun w => match body w with
           | (Ok a, w') =>
               match cleanup w' with
               | (Ok _, w'') => (Ok a, w'')
               | (Raise e, w'') => (Raise e, w'')
               end
           | (Raise e, w') =>
               match cleanup w' with
               | (Ok _, w'') => (Raise e, w'')
               | (Raise e', w'') => (Raise e', w'')
               end
           end.

Declare Scope py_scope.
Delimit Scope py_scope with py.
Notation "x <- m ;; k" := (bind m (fun x => k))
  (at level 100, m at next level, right associativity) : py_scope.
Notation "m ;;; k" := (bind m (fun _ => k))
  (at level 100, right associativity) : py_scope.
Local Open Scope py_scope.

Definition append_trace (op : Op) (w : World) : World :=
  mkWorld (s3 w) (scratch w) (ssm w) (pg w) (sheets w)
          (clock w) (clock_reads w) (faults w) (calls w) (trace w ++ [op]).

(** A call that cannot fail (logging, sleeping): it is only recorded. *)
Definition emit (op : Op) : M unit := fun w => (Ok tt, append_trace op w).

(** A call to the outside that may raise: it is recorded, and the world
    decides whether this call, the [calls w]-th, fails. *)
Definition call (op : Op) : M unit :=
  fun w =>
    let w' := mkWorld (s3 w) (scratch w) (ssm w) (pg w) (sheets w)
                      (clock w) (clock_reads w) (faults w) (S (calls w)) (trace w ++ [op]) in
    match faults w (calls w) with
    | Some e => (Raise e, w')
    | None => (Ok tt, w')
    end.

Definition get {A} (f : World -> A) : M A := fun w => (Ok (f w), w).

Definition set_s3 (f : gmap (string * string) Blob -> gmap (string * string) Blob) : M unit :=
  fun w => (Ok tt, mkWorld (f (s3 w)) (scratch w) (ssm w) (pg w) (sheets w)
                           (clock w) (clock_reads w) (faults w) (calls w) (trace w)).

Definition set_scratch (f : gmap string Blob -> gmap string Blob) : M unit :=
  fun w => (Ok tt, mkWorld (s3 w) (f (scratch w)) (ssm w) (pg w) (sheets w)
                           (clock w) (clock_reads w) (faults w) (calls w) (trace w)).

(** [datetime.datetime.utcnow()] *)
Definition utcnow : M DT.datetime :=
  fun w => (Ok (clock w (clock_reads w)),
            mkWorld (s3 w) (scratch w) (ssm w) (pg w) (sheets w)
                    (clock w) (S (clock_reads w)) (faults w) (calls w) (trace w)).

Definition log_info (msg : string) : M unit := emit (OpLog "INFO" msg).
Definition log_warning (msg : string) : M unit := emit (OpLog "WARNING" msg).
(** [logger.exception]: level ERROR, with the traceback. *)
Definition log_exception (msg : string) : M unit := emit (OpLog "ERROR" msg).
(** [logger.exception(format, e)] *)
Definition log_exception_of (format : string) (e : exn) : M unit := emit (OpLogExc format e).

Definition lift {A} (r : result A) : M A := fun w => (r, w).

(** [for x in xs: st = body st x] *)
Fixpoint for_each {S X} (body : S -> X -> M S) (xs : list X) (st : S) : M S :=
  match xs with
  | [] => ret st
  | x :: rest => st' <- body st x ;; for_each body rest st'
  end.

(* ===================================================================== *)
(** ** tenacity's [retry] as the module configures it *)
(* ===================================================================== *)

(** [stop_after_attempt(5)] *)
Definition stop_after_attempt : nat := 5.

(** [wait_exponential(min=1, max=30)] after the attempt of that number
    (multiplier 1, base 2): 1, 2, 4, 8, ... seconds, kept within 1 and 30. *)
Definition wait_exponential (attempt_number : nat) : nat :=
  Nat.max 1 (Nat.min (2 ^ (attempt_number - 1)) 30).

(** One attempt and what follows it.  [retry_if_exception_type(Exception)]
    retries whatever was raised; [left] attempts remain after this one. *)
Fixpoint attempts {A} (left attempt_number : nat) (f : M A) : M A :=
  try_except f (fun e =>
    match left with
    | O => raise (RetryError e)
    | S left' =>
        emit (OpSleep (wait_exponential attempt_number)) ;;;
        attempts left' (S attempt_number) f
    end).

Definition retry {A} (f : M A) : M A := attempts (stop_after_attempt - 1) 1 f.

(* ===================================================================== *)
(** ** The module's functions *)
(* ===================================================================== *)

(** An entry of the listing; its [Size] is never read. *)
Record S3Object : Type := mkS3Object {
  Bucket : string;
  Key : string
}.

(** The path an s3fs call is given, as bucket and key: the protocol is
    dropped and the first component is the bucket. *)
Definition s3fs_split (path : string) : string * string :=
  let p := if startswith "s3://" path then String.substring 5 (String.length path - 5) path else path in
  match split1 "/" p with
  | [b; k] => (b, k)
  | _ => (p, EmptyString)
  end.

(** Keys of a bucket under a prefix, in the order the store lists them. *)
Definition listing (store : gmap (string * string) Blob) (bucket prefix : string) : list S3Object :=
  let keys := omap (fun e : (string * string) * Blob =>
                      if String.eqb (fst (fst e)) bucket && startswith prefix (snd (fst e))
                      then Some (snd (fst e)) else None)
                   (map_to_list store) in
  map (mkS3Object bucket) (merge_sort String.le keys).

(** Rows of the chunks of one query, one after the other; the chunks
    have the columns of the first. *)
Definition pd_concat (dfs : list DataFrame) : DataFrame :=
  match dfs with
  | [] => empty_frame
  | d :: _ =>
      mkDataFrame (list_sum (map df_rows dfs))
        (imap (fun i c =>
                 mkColumn (col_name c) (col_dtype c)
                   (concat (map (fun df => match df_columns df !! i with
                                           | Some c' => col_values c'
                                           | None => []
                                           end) dfs)))
              (df_columns d))
  end.

(** [pd.DataFrame(rows, columns=header)] on lists of cell texts: short rows
    are filled with None; a width of the data other than the header's is
    refused, with both counts in the message. *)
Definition frame_of_rows (header : list string) (rows : list (list string)) : result DataFrame :=
  let width := foldr Nat.max 0 (map (@length string) rows) in
  match rows with
  | [] => Ok (mkDataFrame 0 (map (fun h => mkColumn h "object" []) header))
  | _ =>
      if (width =? length header)%nat
      then Ok (mkDataFrame (length rows)
                 (imap (fun j h =>
                          mkColumn h "object"
                            (map (fun r : list string =>
                                    match r !! j with Some x => VStr x | None => VNone end) rows))
                       header))
      else Raise (Exn ["ValueError"]
                    (str_of_nat (length header) +:+ " columns passed, passed data had "
                     +:+ str_of_nat width +:+ " columns"))
  end.

Section Ingest.

Variable cfg : Config.

(** pandas' parsers and hashlib's digest, used as given. *)
Variable pd_read_csv : Blob -> result DataFrame.
Variable pd_read_json : bool -> Blob -> result DataFrame.
Variable md5_hexdigest : string -> string.

Definition ensure_local_tmp : M unit := call (OpMakedirs (LOCAL_TMP cfg)).

Definition hash_df_schema (df : DataFrame) : string :=
  let items := map (fun c => col_name c +:+ ":" +:+ col_dtype c) (df_columns df) in
  md5_hexdigest (String.concat "|" items).

(** What [json.load] gives is returned as it is, whatever kind of value
    it is. *)
Definition read_processed_manifest : M json :=
  try_except
    (call (OpFsExists (PROCESSED_MANIFEST cfg)) ;;;
     found <- get (fun w => s3 w !! s3fs_split (PROCESSED_MANIFEST cfg)) ;;
     match found with
     | None => ret (JObj [])
     | Some blob =>
         call (OpFsRead (PROCESSED_MANIFEST cfg)) ;;;
         lift (json_load blob)
     end)
    (fun e => log_exception_of "Failed to read processed manifest: %s" e ;;; ret (JObj [])).

Definition write_processed_manifest (manifest : json) : M unit :=
  try_except
    (call (OpFsWrite (PROCESSED_MANIFEST cfg)) ;;;
     set_s3 (insert (s3fs_split (PROCESSED_MANIFEST cfg)) (Json manifest)) ;;;
     log_info ("Wrote processed manifest to " +:+ PROCESSED_MANIFEST cfg))
    (fun _ => log_exception "Failed to write processed manifest").

Definition list_s3_objects (prefix_s3 : string) : M (list S3Object) :=
  if negb (startswith "s3://" prefix_s3)
  then raise (Exn ["AssertionError"] "prefix must be s3://...")
  else
    let bucket_key := replace "s3://" "" prefix_s3 in
    match split1 "/" bucket_key with
    | [bucket; prefix] =>
        call (OpList bucket prefix) ;;;
        store <- get s3 ;;
        ret (listing store bucket prefix)
    | _ => raise (Exn ["ValueError"] "not enough values to unpack (expected 2, got 1)")
    end.

(** The body of [download_s3_to_dataframe], one attempt. *)
Definition download_s3_to_dataframe_once (s3_path : string) : M DataFrame :=
  log_info ("Reading " +:+ s3_path) ;;;
  if negb (startswith "s3://" s3_path)
  then raise (Exn ["ValueError"] "s3_path must start with s3://")
  else
    let bucket_key := replace "s3://" "" s3_path in
    match split1 "/" bucket_key with
    | [bucket; key] =>
        let ext := lower (last_item (split "." key)) in
        call (OpGetObject bucket key) ;;;
        obj <- get (fun w => s3 w !! (bucket, key)) ;;
        match obj with
        | None => raise (Exn ["ClientError"] "NoSuchKey")
        | Some body =>
            if String.eqb ext "csv" || String.eqb ext "txt"
            then lift (pd_read_csv body)
            else if String.eqb ext "json"
            then match pd_read_json true body with
                 | Ok df => ret df
                 | Raise e =>
                     if is_ValueError e then lift (pd_read_json false body)
                     else raise e
                 end
            else raise (Exn ["ValueError"] ("Unsupported extension: " +:+ ext))
        end
    | _ => raise (Exn ["ValueError"] "not enough values to unpack (expected 2, got 1)")
    end.

Definition download_s3_to_dataframe (s3_path : string) : M DataFrame :=
  retry (download_s3_to_dataframe_once s3_path).

(** [json.loads] of the value of the parameter: any JSON document. *)
Definition get_ssm_param_json (name : string) : M json :=
  call (OpSsmGet name) ;;;
  found <- get (fun w => ssm w !! name) ;;
  match found with
  | Some value => lift (json_load value)
  | None => raise (Exn ["ClientError"] "ParameterNotFound")
  end.

(** The body of [extract_postgres_table_to_df], one attempt.  The
    arguments of [connect] are read off the credentials in the order they
    are written; [credentials.get('port', 5432)] comes after
    [credentials['host']], which only a dict survives, and a dict has
    [get]. *)
Definition extract_postgres_table_to_df_once (table_name : string) (credentials : json)
    (schema : string) : M DataFrame :=
  log_info ("Extracting Postgres table " +:+ table_name) ;;;
  host <- lift (py_getitem credentials "host") ;;
  lift (py_getitem credentials "dbname") ;;;
  lift (py_getitem credentials "username") ;;;
  lift (py_getitem credentials "password") ;;;
  call (OpPgConnect host) ;;;
  try_finally
    (let sql := "SELECT * FROM " +:+ schema +:+ "." +:+ table_name in
     call (OpPgQuery sql) ;;;
     found <- get (fun w => pg w !! sql) ;;
     match found with
     | None => raise (Exn ["DatabaseError"] "relation does not exist")
     | Some dfs =>
         match dfs with
         | [] => ret empty_frame
         | _ => ret (pd_concat dfs)
         end
     end)
    (call OpPgClose).

Definition extract_postgres_table_to_df (table_name : string) (credentials : json) : M DataFrame :=
  retry (extract_postgres_table_to_df_once table_name credentials (POSTGRES_SCHEMA cfg)).

Definition extract_google_sheet_to_df (sheet_id range_name service_account_json : string) : M DataFrame :=
  call (OpSheetsGet sheet_id range_name) ;;;
  found <- get (fun w => sheets w !! (sheet_id, range_name)) ;;
  match default [] found with
  | [] => ret empty_frame
  | header :: rows => lift (frame_of_rows header rows)
  end.

(** [tempfile.NamedTemporaryFile(delete=False, ...)]: a file of LOCAL_TMP
    that did not exist. *)
Definition named_temporary_file : M string :=
  call OpMkstemp ;;;
  existing <- get (fun w => map fst (map_to_list (scratch w))) ;;
  let name := fresh existing in
  set_scratch (insert name EmptyFile) ;;;
  ret name.

Definition write_parquet_to_s3_atomic (df : DataFrame) (s3_output_path : string)
    (metadata : option Metadata) : M string :=
  ensure_local_tmp ;;;
  tmp_file <- named_temporary_file ;;
  call (OpWriteTable tmp_file) ;;;
  set_scratch (insert tmp_file (Parquet df)) ;;;
  let bucket_key := replace "s3://" "" s3_output_path in
  match split1 "/" bucket_key with
  | [bucket; key] =>
      call (OpUploadFile tmp_file bucket key) ;;;
      content <- get (fun w => default EmptyFile (scratch w !! tmp_file)) ;;
      set_s3 (insert (bucket, key) content) ;;;
      log_info ("Uploaded parquet to s3://" +:+ bucket +:+ "/" +:+ key) ;;;
      let metadata_key := key +:+ ".metadata.json" in
      call (OpPutObject bucket metadata_key) ;;;
      set_s3 (insert (bucket, metadata_key) (JsonMetadata metadata)) ;;;
      log_info ("Wrote metadata sidecar s3://" +:+ bucket +:+ "/" +:+ metadata_key) ;;;
      call (OpRemove tmp_file) ;;;
      set_scratch (delete tmp_file) ;;;
      ret ("s3://" +:+ bucket +:+ "/" +:+ key)
  | _ => raise (Exn ["ValueError"] "not enough values to unpack (expected 2, got 1)")
  end.

(** [if 'email' in df.columns: df['email_raw'] = df['email'];
    df['email'] = df['email'].apply(clean_email)].  With the label
    repeated, [df['email']] is a frame and the assignment to the single
    column is refused. *)
Definition email_hygiene (df : DataFrame) : M DataFrame :=
  if has_column "email" df
  then match columns_named "email" df with
       | [c] =>
           let df := set_column "email_raw" (col_dtype c) (col_values c) df in
           ret (set_column "email" "object" (map clean_email (col_values c)) df)
       | _ => raise (Exn ["ValueError"] "Cannot set a DataFrame with multiple columns to the single column email_raw")
       end
  else ret df.

(** The output key of all three flows. *)
Definition out_key_of (source_name base : string) (date_part stamp : string) : string :=
  S3_RAW_PREFIX cfg +:+ "/" +:+ source_name +:+ "/date=" +:+ date_part +:+ "/" +:+ base +:+ "_" +:+ stamp +:+ ".parquet".

Definition ext_filtered_out (file_ext_filter : option (list string)) (key : string) : bool :=
  match file_ext_filter with
  | None | Some [] => false
  | Some exts => negb (existsb (String.eqb (lower (last_item (split "." key)))) exts)
  end.

(** One turn of the loop of [process_s3_prefix]; the state is the
    [processed] value and the [new_processed] flag.  The membership test
    comes before the [try], the assignment to [processed] is inside it. *)
Definition process_s3_object (source_name : string) (file_ext_filter : option (list string))
    (st : json * bool) (obj : S3Object) : M (json * bool) :=
  let processed := fst st in
  let s3_path := "s3://" +:+ Bucket obj +:+ "/" +:+ Key obj in
  if ext_filtered_out file_ext_filter (Key obj) then ret st
  else
    seen <- lift (py_contains s3_path processed) ;;
    if (seen : bool)
    then log_info ("Skipping already processed file " +:+ s3_path) ;;; ret st
    else
      try_except
        (df <- download_s3_to_dataframe s3_path ;;
         if df_empty df
         then log_warning ("Empty dataframe for " +:+ s3_path +:+ ", skipping") ;;; ret st
         else
           let df := normalize_columns df in
           df <- email_hygiene df ;;
           now1 <- utcnow ;;
           let load_time := DT.isoformat now1 in
           let df := set_scalar "_ingest_load_time" (VStr load_time) df in
           let df := set_scalar "_source_path" (VStr s3_path) df in
           now2 <- utcnow ;;
           let date_part := DT.strftime_date now2 in
           let filename := first_item (split "." (basename (Key obj))) in
           now3 <- utcnow ;;
           let out_key := out_key_of source_name filename date_part (DT.strftime_stamp now3) in
           let s3_out := "s3://" +:+ S3_RAW_BUCKET cfg +:+ "/" +:+ out_key in
           let metadata := mkMetadata source_name s3_path load_time (df_rows df) (hash_df_schema df) in
           write_parquet_to_s3_atomic df s3_out (Some metadata) ;;;
           processed' <- lift (py_setitem processed s3_path (metadata_json metadata)) ;;
           ret (processed', true))
        (fun _ => log_exception ("Failed to process " +:+ s3_path) ;;; ret st).

Definition process_s3_prefix (prefix_s3 source_name : string)
    (file_ext_filter : option (list string)) : M unit :=
  log_info ("Processing prefix " +:+ prefix_s3) ;;;
  objects <- list_s3_objects prefix_s3 ;;
  processed <- read_processed_manifest ;;
  st <- for_each (process_s3_object source_name file_ext_filter) objects (processed, false) ;;
  if snd st then write_processed_manifest (fst st) else ret tt.

Definition process_google_sheet (sheet_id range_name source_name sa_path : string) : M unit :=
  processed <- read_processed_manifest ;;
  let identifier := "google_sheets://" +:+ sheet_id +:+ "/" +:+ range_name in
  seen <- lift (py_contains identifier processed) ;;
  if (seen : bool)
  then log_info ("Skipping already processed google sheet " +:+ identifier)
  else
    df <- extract_google_sheet_to_df sheet_id range_name sa_path ;;
    if df_empty df
    then log_warning ("Empty google sheet " +:+ identifier)
    else
      let df := normalize_columns df in
      df <- email_hygiene df ;;
      now1 <- utcnow ;;
      let load_time := DT.isoformat now1 in
      let df := set_scalar "_ingest_load_time" (VStr load_time) df in
      let df := set_scalar "_source_path" (VStr identifier) df in
      now2 <- utcnow ;;
      let date_part := DT.strftime_date now2 in
      now3 <- utcnow ;;
      let out_key := out_key_of source_name "agents" date_part (DT.strftime_stamp now3) in
      let s3_out := "s3://" +:+ S3_RAW_BUCKET cfg +:+ "/" +:+ out_key in
      let metadata := mkMetadata source_name identifier load_time (df_rows df) (hash_df_schema df) in
      write_parquet_to_s3_atomic df s3_out (Some metadata) ;;;
      processed' <- lift (py_setitem processed identifier (metadata_json metadata)) ;;
      write_processed_manifest processed'.

(** [f"postgres://{creds['host']}/{creds['dbname']}/{table}"] *)
Definition postgres_identifier (creds : json) (table : string) : result string :=
  match py_getitem creds "host" with
  | Raise e => Raise e
  | Ok host =>
      match py_getitem creds "dbname" with
      | Raise e => Raise e
      | Ok dbname =>
          Ok ("postgres://" +:+ py_str host +:+ "/" +:+ py_str dbname +:+ "/" +:+ table)
      end
  end.

(** One turn of the loop of [process_postgres_tables]; the state is the
    [processed] value.  The identifier and the membership test come
    before the [try], the assignment to [processed] is inside it. *)
Definition process_postgres_table (creds : json) (source_name : string)
    (processed : json) (table : string) : M json :=
  identifier <- lift (postgres_identifier creds table) ;;
  seen <- lift (py_contains identifier processed) ;;
  if (seen : bool)
  then log_info ("Skipping already processed table " +:+ identifier) ;;; ret processed
  else
    try_except
      (df <- extract_postgres_table_to_df table creds ;;
       if df_empty df
       then log_warning ("Empty table " +:+ table +:+ ", skipping") ;;; ret processed
       else
         let df := normalize_columns df in
         df <- email_hygiene df ;;
         now1 <- utcnow ;;
         let load_time := DT.isoformat now1 in
         let df := set_scalar "_ingest_load_time" (VStr load_time) df in
         let df := set_scalar "_source_path" (VStr identifier) df in
         now2 <- utcnow ;;
         let date_part := DT.strftime_date now2 in
         now3 <- utcnow ;;
         let out_key := out_key_of source_name table date_part (DT.strftime_stamp now3) in
         let s3_out := "s3://" +:+ S3_RAW_BUCKET cfg +:+ "/" +:+ out_key in
         let metadata := mkMetadata source_name identifier load_time (df_rows df) (hash_df_schema df) in
         write_parquet_to_s3_atomic df s3_out (Some metadata) ;;;
         lift (py_setitem processed identifier (metadata_json metadata)))
      (fun _ => log_exception ("Failed to extract table " +:+ table) ;;; ret processed).

Definition process_postgres_tables (table_names : list string) (ssm_param source_name : string) : M unit :=
  processed <- read_processed_manifest ;;
  creds <- get_ssm_param_json ssm_param ;;
  processed <- for_each (process_postgres_table creds source_name) table_names processed ;;
  write_processed_manifest processed.

(** [[t.strip() for t in raw.split(',') if t.strip()]] *)
Definition parse_table_names (raw_tables_env : string) : list string :=
  if String.eqb raw_tables_env "" then []
  else List.filter (fun t => negb (String.eqb t "")) (map strip (split "," raw_tables_env)).

Definition run_full_ingest : M unit :=
  ensure_local_tmp ;;;
  process_s3_prefix (CUSTOMERS_S3_PREFIX cfg) "customers" (Some ["csv"]) ;;;
  process_s3_prefix (CALL_LOGS_PREFIX cfg) "call_center_logs" (Some ["csv"]) ;;;
  process_s3_prefix (SOCIAL_PREFIX cfg) "social_media" (Some ["json"]) ;;;
  process_google_sheet (GOOGLE_SHEET_ID cfg) (GOOGLE_SHEET_RANGE cfg) "agents" (GOOGLE_SERVICE_ACCOUNT cfg) ;;;
  let table_names := parse_table_names (POSTGRES_TABLES cfg) in
  match table_names with
  | [] => log_info "No Postgres tables configured (set POSTGRES_TABLES env var)"
  | _ => process_postgres_tables table_names (POSTGRES_SSM_PARAM cfg) "web_forms"
  end.

End Ingest.

(* ===================================================================== *)
(** ** Vocabulary of the statements *)
(* ===================================================================== *)

(** Characters of a normalised name. *)
Definition slug_class (c : ascii) : bool :=
  is_digit c || is_lower_az c || Ascii.eqb c "_".

(** No underscore is followed by another. *)
Fixpoint single_underscores (s : string) : bool :=
  match s with
  | String a ((String b _) as r) =>
      negb (underscore_class a && underscore_class b) && single_underscores r
  | _ => true
  end.

Definition starts_with_underscore (s : string) : bool :=
  match s with String a _ => underscore_class a | EmptyString => false end.





(** E-mail cleaning in the words of the specification: trim, lower-case,
    replace the at-patterns, then keep the text if the pattern matches it. *)
Definition clean_email_as_specified (s : string) : pyval :=
  let cleaned := at_substitutions (lower (strip s)) in
  if email_regex_match cleaned then VStr cleaned else VNone.

(** Calls that change the object store or the scratch directory. *)
Definition is_write (op : Op) : bool :=
  match op with
  | OpUploadFile _ _ _ | OpPutObject _ _ | OpFsWrite _
  | OpMakedirs _ | OpMkstemp | OpWriteTable _ | OpRemove _ => true
  | _ => false
  end.

Definition is_read (op : Op) : bool := negb (is_write op).

(** The calls recorded between two worlds of one execution. *)
Definition since (w w' : World) : list Op := drop (length (trace w)) (trace w').

(** [w'] follows [w], the calls in between all satisfy [P]. *)
Definition trace_grows (P : Op -> bool) (w w' : World) : Prop :=
  exists ops, trace w' = trace w ++ ops /\ forallb P ops = true.

Definition store_kept (w w' : World) : Prop :=
  s3 w' = s3 w /\ scratch w' = scratch w.

(** Nothing was written between [w] and [w']. *)
Definition reads_only (w w' : World) : Prop :=
  store_kept w w' /\ trace_grows is_read w w'.

(** Every execution of [m] relates the world it starts in to the world it
    ends in, whether it returns or raises. *)
Definition respects (R : World -> World -> Prop) {A} (m : M A) : Prop :=
  forall w, R w (snd (m w)).

(** The stable identifiers of the three kinds of source item. *)
Definition s3_path_of (obj : S3Object) : string :=
  "s3://" +:+ Bucket obj +:+ "/" +:+ Key obj.

(** The identifier of a table, when the credentials give one. *)
Definition table_identifier (creds : json) (table : string) : string :=
  match postgres_identifier creds table with Ok identifier => identifier | Raise _ => "" end.

Definition sheet_identifier (sheet_id range_name : string) : string :=
  "google_sheets://" +:+ sheet_id +:+ "/" +:+ range_name.

Definition append_ops (ops : list Op) (w : World) : World :=
  mkWorld (s3 w) (scratch w) (ssm w) (pg w) (sheets w)
          (clock w) (clock_reads w) (faults w) (calls w) (trace w ++ ops).

(** A value on which [in] works: a dict, a list or a str. *)
Definition container (doc : json) : bool :=
  match doc with JObj _ | JArr _ | JStr _ => true | _ => false end.

(** The record a manifest holds under a key, when it is a dict. *)
Definition record_of (doc : json) (key : string) : option json :=
  match doc with JObj d => dict_get key d | _ => None end.

(** The world after [n] more calls that recorded [ops]. *)
Definition advance (n : nat) (ops : list Op) (w : World) : World :=
  mkWorld (s3 w) (scratch w) (ssm w) (pg w) (sheets w)
          (clock w) (clock_reads w) (faults w) (n + calls w) (trace w ++ ops).

(** The host [psycopg2.connect] is called with, or what reading its
    arguments off the credentials raises: [host], [dbname], [username]
    and [password] are subscripted in this order. *)
Definition connect_host (credentials : json) : result json :=
  match py_getitem credentials "host" with
  | Raise e => Raise e
  | Ok host =>
      match py_getitem credentials "dbname" with
      | Raise e => Raise e
      | Ok _ =>
          match py_getitem credentials "username" with
          | Raise e => Raise e
          | Ok _ =>
              match py_getitem credentials "password" with
              | Raise e => Raise e
              | Ok _ => Ok host
              end
          end
      end
  end.

(** What the loop of [process_s3_prefix] logs when it skips every item. *)
Definition skip_logs (file_ext_filter : option (list string)) (objs : list S3Object) : list Op :=
  omap (fun obj =>
          if ext_filtered_out file_ext_filter (Key obj) then None
          else Some (OpLog "INFO" ("Skipping already processed file " +:+ s3_path_of obj)))
       objs.

Definition is_remove (op : Op) : bool :=
  match op with OpRemove _ => true | _ => false end.

(** The name [NamedTemporaryFile] picks in a given world. *)
Definition next_tmp_file (w : World) : string :=
  fresh (map fst (map_to_list (scratch w))).

(** [ext in ['csv', 'txt']] or [ext in ['json']] *)
Definition supported_extension (ext : string) : bool :=
  String.eqb ext "csv" || String.eqb ext "txt" || String.eqb ext "json".

(** The extension [download_s3_to_dataframe] sees in a key. *)
Definition extension_of (key : string) : string := lower (last_item (split "." key)).

(** What one attempt on an object records. *)
Definition read_attempt (s3_path bucket key : string) : list Op :=
  [OpLog "INFO" ("Reading " +:+ s3_path); OpGetObject bucket key].

Definition is_get_object (op : Op) : bool :=
  match op with OpGetObject _ _ => true | _ => false end.

(** The failure of one attempt on an object of unsupported extension. *)
Definition unsupported_failure (bucket key : string) (w : World) : exn :=
  match faults w (calls w) with
  | Some e => e
  | None =>
      match s3 w !! (bucket, key) with
      | None => Exn ["ClientError"] "NoSuchKey"
      | Some _ => Exn ["ValueError"] ("Unsupported extension: " +:+ extension_of key)
      end
  end.

Definition after_call (ops : list Op) (w : World) : World :=
  mkWorld (s3 w) (scratch w) (ssm w) (pg w) (sheets w)
          (clock w) (clock_reads w) (faults w) (S (calls w)) (trace w ++ ops).

Definition is_flush (op : Op) : bool :=
  match op with OpFsWrite _ => true | _ => false end.

Definition table_skip_logs (creds : json) (tables : list string) : list Op :=
  map (fun t => OpLog "INFO" ("Skipping already processed table " +:+ table_identifier creds t))
      tables.

Definition not_flush (op : Op) : bool := negb (is_flush op).

(** What a call of the writer records when nothing fails. *)
Definition writer_calls (cfg : Config) (tmp_file bucket key : string) : list Op :=
  [OpMakedirs (LOCAL_TMP cfg); OpMkstemp; OpWriteTable tmp_file;
   OpUploadFile tmp_file bucket key;
   OpLog "INFO" ("Uploaded parquet to s3://" +:+ bucket +:+ "/" +:+ key);
   OpPutObject bucket (key +:+ ".metadata.json");
   OpLog "INFO" ("Wrote metadata sidecar s3://" +:+ bucket +:+ "/" +:+ key +:+ ".metadata.json");
   OpRemove tmp_file].

(** The ranges of the fields of a [datetime]. *)
Definition calendar (d : DT.datetime) : Prop :=
  DT.year d < 100 * 100 /\ DT.month d <= 12 /\ DT.day d <= 31 /\
  DT.hour d <= 23 /\ DT.minute d <= 59 /\ DT.second d <= 59.

(** Two readings of the clock fall in the same second. *)
Definition same_second (d1 d2 : DT.datetime) : Prop :=
  DT.year d1 = DT.year d2 /\ DT.month d1 = DT.month d2 /\ DT.day d1 = DT.day d2 /\
  DT.hour d1 = DT.hour d2 /\ DT.minute d1 = DT.minute d2 /\ DT.second d1 = DT.second d2.

(* ===================================================================== *)
(** ** A small deployment, for concrete runs *)
(* ===================================================================== *)

Module Demo.

(** Stand-ins for the parsers: delimited text with one data row per
    non-empty body, and a JSON reader that accepts nothing. *)
Definition read_csv (b : Blob) : result DataFrame :=
  match b with
  | Bytes content =>
      if String.eqb content "" then Ok (mkDataFrame 0 [mkColumn "Email" "object" []])
      else Ok (mkDataFrame 1 [mkColumn "Customer ID" "int64" [VInt 7];
                              mkColumn "Email" "object" [VStr content]])
  | _ => Raise (Exn ["ParserError"] "not delimited text")
  end.

Definition read_json (lines : bool) (b : Blob) : result DataFrame :=
  Raise (Exn ["ValueError"] "Expected object or value").

(** Stand-in for the digest. *)
Definition md5 (s : string) : string := s.

Definition config : Config := {|
  S3_RAW_BUCKET := "my-raw-bucket";
  S3_RAW_PREFIX := "raw";
  LOCAL_TMP := "/tmp/data_ingest_tmp";
  CUSTOMERS_S3_PREFIX := "s3://src/customers/";
  CALL_LOGS_PREFIX := "s3://src/call_center_logs/";
  SOCIAL_PREFIX := "s3://src/social_media/";
  GOOGLE_SERVICE_ACCOUNT := "/secrets/gcp-sa.json";
  GOOGLE_SHEET_ID := "sheet1";
  GOOGLE_SHEET_RANGE := "Agents!A1:Z999";
  POSTGRES_SSM_PARAM := "/customer_complaints/db_credentials";
  POSTGRES_SCHEMA := "customer_complaints";
  METADATA_PREFIX := "raw/_metadata";
  POSTGRES_TABLES := "web_form_request_2025_11_20"
|}.

(** 2025-11-26 12:00:00 UTC, the n-th reading n microseconds in. *)
Definition noon (n : nat) : DT.datetime := DT.mk 2025 11 26 12 0 0 n.

(** The credentials document of the parameter store. *)
Definition credentials : json :=
  JObj [("host", JStr "db.internal"); ("dbname", JStr "complaints");
        ("username", JStr "ingest"); ("password", JStr "secret")].

Definition no_faults (n : nat) : option exn := None.
Definition fault_at (k : nat) (n : nat) : option exn :=
  if (n =? k)%nat then Some (Exn ["ClientError"] "RequestTimeout") else None.

Definition world (store : gmap (string * string) Blob) (flt : nat -> option exn) : World := {|
  s3 := store;
  scratch := ∅;
  ssm := {[ "/customer_complaints/db_credentials" := Json credentials ]};
  pg := {[ "SELECT * FROM customer_complaints.web_form_request_2025_11_20" :=
             [mkDataFrame 0 [mkColumn "email" "object" []]] ]};
  sheets := {[ ("sheet1", "Agents!A1:Z999") := [["Name"; "Email"]] ]};
  clock := noon;
  clock_reads := 0;
  faults := flt;
  calls := 0;
  trace := []
|}.

Definition one_customer : gmap (string * string) Blob :=
  {[ ("src", "customers/a.csv") := Bytes " Bob@Example.org " ]}.

Definition customers : gmap (string * string) Blob :=
  <[("src", "customers/a.csv") := Bytes " Bob@Example.org "]>
  (<[("src", "customers/b.csv") := Bytes ""]>
  (<[("src", "customers/c.xml") := Bytes "<x/>"]> ∅)).

Definition ingest_customers : M unit :=
  process_s3_prefix config read_csv read_json md5 "s3://src/customers/" "customers" (Some ["csv"]).

Definition is_upload (op : Op) : bool :=
  match op with OpUploadFile _ _ _ => true | _ => false end.

Definition is_parquet (b : Blob) : bool :=
  match b with Parquet _ => true | _ => false end.

Definition artifacts (w : World) : list (string * string) :=
  map fst (List.filter (fun e => is_parquet (snd e)) (map_to_list (s3 w))).

(** The world after a first pass over one customer file. *)
Definition after_first_run : World := snd (ingest_customers (world one_customer no_faults)).

(** The same pass when the manifest flush, its tenth call, fails. *)
Definition after_lost_flush : World := snd (ingest_customers (world one_customer (fault_at 9))).
Definition after_rerun : World := snd (ingest_customers after_lost_flush).

Definition web_form_table : string := "web_form_request_2025_11_20".

(** The frames the stand-in readers give for an empty file, an empty
    table and a sheet that has only its header row. *)
Definition empty_csv_frame : DataFrame := mkDataFrame 0 [mkColumn "Email" "object" []].
Definition empty_table_frame : DataFrame := mkDataFrame 0 [mkColumn "email" "object" []].
Definition header_only_frame : DataFrame :=
  mkDataFrame 0 [mkColumn "Name" "object" []; mkColumn "Email" "object" []].

Definition empty_item : S3Object := mkS3Object "src" "customers/b.csv".
Definition xml_item_path : string := "s3://src/customers/c.xml".

(** A manifest that already holds the one configured table. *)
Definition table_record : Metadata :=
  mkMetadata "web_forms" "postgres://db.internal/complaints/web_form_request_2025_11_20"
             "2025-11-25T12:00:00" 3 "email:object".
Definition table_manifest : json :=
  JObj [("postgres://db.internal/complaints/web_form_request_2025_11_20",
         metadata_json table_record)].
Definition with_table_manifest : gmap (string * string) Blob :=
  {[ ("raw", "_metadata/processed_files.json") := Json table_manifest ]}.

(** The record of the first pass over the one customer file. *)
Definition customer_record : Metadata :=
  mkMetadata "customers" "s3://src/customers/a.csv" "2025-11-26T12:00:00" 1
    "customer_id:int64|email:object|email_raw:object|_ingest_load_time:object|_source_path:object".

(** Two objects of one prefix whose file names agree up to the first dot. *)
Definition namesakes : gmap (string * string) Blob :=
  <[("src", "customers/a.csv") := Bytes "ann@example.org"]>
  (<[("src", "customers/a.old.csv") := Bytes "old@example.org"]> ∅).
Definition after_namesakes : World := snd (ingest_customers (world namesakes no_faults)).

Definition one_email_frame : DataFrame :=
  mkDataFrame 2 [mkColumn "id" "int64" [VInt 1; VInt 2];
                 mkColumn "email" "object" [VStr " Bob@Example.org "; VNaN]].

Definition prefixes_of_run : M unit :=
  (ensure_local_tmp config ;;;
   process_s3_prefix config read_csv read_json md5 (CUSTOMERS_S3_PREFIX config) "customers" (Some ["csv"]) ;;;
   process_s3_prefix config read_csv read_json md5 (CALL_LOGS_PREFIX config) "call_center_logs" (Some ["csv"]) ;;;
   process_s3_prefix config read_csv read_json md5 (SOCIAL_PREFIX config) "social_media" (Some ["json"]))%py.

(** A sheet whose only data row lacks its last cell, as the Sheets API
    returns rows with trailing empty cells. *)
Definition ragged_sheet_world : World :=
  mkWorld ∅ ∅ (ssm (world ∅ no_faults)) (pg (world ∅ no_faults))
          {[ ("sheet1", "Agents!A1:Z999") := [["Name"; "Email"]; ["Ann"]] ]}
          noon 0 no_faults 0 [].

Definition is_sleep (op : Op) : bool :=
  match op with OpSleep _ => true | _ => false end.

Definition is_postgres_call (op : Op) : bool :=
  match op with OpPgConnect _ | OpPgQuery _ | OpPgClose | OpSsmGet _ => true | _ => false end.

End Demo.

(* ===================================================================== *)
(** ** Vocabulary for manifests, paths, retries and readers *)
(* ===================================================================== *)

(** Where s3fs puts the manifest document. *)
Definition manifest_key (cfg : Config) : string * string := s3fs_split (PROCESSED_MANIFEST cfg).

(** A line of [logger.exception]. *)
Definition is_error_log (op : Op) : bool :=
  match op with
  | OpLog level _ => String.eqb level "ERROR"
  | OpLogExc _ _ => true
  | _ => false
  end.

(** Any character but the separator of bucket and key. *)
Definition not_slash (c : ascii) : bool := negb (Ascii.eqb c "/").

(** The calls of a reader that fails [n] times and then succeeds: each
    failed attempt is followed by the wait of its number. *)
Fixpoint retry_trace (attempt : list Op) (n attempt_number : nat) : list Op :=
  match n with
  | O => attempt
  | S n' => attempt ++ OpSleep (wait_exponential attempt_number)
                    :: retry_trace attempt n' (S attempt_number)
  end.

(** The calls a retry bound counts. *)
Definition is_connect (op : Op) : bool :=
  match op with OpPgConnect _ => true | _ => false end.
Definition is_wait (op : Op) : bool :=
  match op with OpSleep _ => true | _ => false end.

(** The SQL text of the full-table scan. *)
Definition scan_sql (schema table_name : string) : string :=
  "SELECT * FROM " +:+ schema +:+ "." +:+ table_name.

(** Between [w] and [w'] at most [n] calls satisfy [P] and at most [m]
    are waits. *)
Definition at_most (P : Op -> bool) (n m : nat) (w w' : World) : Prop :=
  exists ops, trace w' = trace w ++ ops /\
              length (List.filter P ops) <= n /\ length (List.filter is_wait ops) <= m.

(** What the scan returns once the rows are read. *)
Definition scan_result (found : option (list DataFrame)) : result DataFrame :=
  match found with
  | None => Raise (Exn ["DatabaseError"] "relation does not exist")
  | Some [] => Ok empty_frame
  | Some dfs => Ok (pd_concat dfs)
  end.

(** The cell of a row under column [j], as the frame holds it. *)
Definition sheet_cell (row : list string) (j : nat) : pyval :=
  match row !! j with Some x => VStr x | None => VNone end.

(** The length of the longest data row. *)
Definition widest (rows : list (list string)) : nat :=
  foldr Nat.max 0 (map (@length string) rows).

(** Calls to the parameter store and to Postgres. *)
Definition touches_postgres (op : Op) : bool :=
  match op with OpPgConnect _ | OpPgQuery _ | OpPgClose | OpSsmGet _ => true | _ => false end.
Definition leaves_postgres_alone (op : Op) : bool := negb (touches_postgres op).

(** Names and dtypes of the columns, in order. *)
Definition schema_of (df : DataFrame) : list (string * string) :=
  map (fun c => (col_name c, col_dtype c)) (df_columns df).

(** Free of the two separators of the schema text. *)
Definition plain_char (c : ascii) : bool := negb (Ascii.eqb c ":") && negb (Ascii.eqb c "|").
Definition plain_schema (df : DataFrame) : bool :=
  forallb (fun p => all_chars plain_char (fst p) && all_chars plain_char (snd p)) (schema_of df).

(** The text of one column in the schema line. *)
Definition schema_item (p : string * string) : string := fst p +:+ ":" +:+ snd p.

(** The line [hash_df_schema] digests. *)
Definition schema_text (df : DataFrame) : string :=
  String.concat "|" (map schema_item (schema_of df)).

(** Unchanged by [str.lower]. *)
Definition lowered (c : ascii) : bool := Ascii.eqb (lower_char c) c.

(** No space character of [str.strip]. *)
Definition solid (c : ascii) : bool := negb (isspace c).

(** The characters an accepted address is made of, the final newline apart. *)
Definition address_char (c : ascii) : bool := local_class c || Ascii.eqb c "@".

(** Any character but the separator of [POSTGRES_TABLES]. *)
Definition not_comma (c : ascii) : bool := negb (Ascii.eqb c ",").

(** [identifier in doc] holds. *)
Definition holds (doc : json) (identifier : string) : bool :=
  match py_contains identifier doc with Ok seen => seen | Raise _ => false end.

(** The prefix can be listed and every item under it that its filter
    lets through is in [doc]. *)
Definition prefix_done (store : gmap (string * string) Blob) (doc : json)
    (prefix_s3 : string) (file_ext_filter : option (list string)) : bool :=
  startswith "s3://" prefix_s3 &&
  match split1 "/" (replace "s3://" "" prefix_s3) with
  | [bucket; prefix] =>
      forallb (fun obj => ext_filtered_out file_ext_filter (Key obj) || holds doc (s3_path_of obj))
              (listing store bucket prefix)
  | _ => false
  end.

(** Every table has an identifier and it is in [doc]. *)
Definition tables_done (creds doc : json) (tables : list string) : bool :=
  forallb (fun t => match postgres_identifier creds t with
                    | Ok identifier => holds doc identifier
                    | Raise _ => false
                    end) tables.

(** What a pass over a prefix records when it skips every item. *)
Definition skipped_pass (cfg : Config) (store : gmap (string * string) Blob)
    (prefix_s3 : string) (file_ext_filter : option (list string)) : list Op :=
  match split1 "/" (replace "s3://" "" prefix_s3) with
  | [bucket; prefix] =>
      [OpLog "INFO" ("Processing prefix " +:+ prefix_s3); OpList bucket prefix;
       OpFsExists (PROCESSED_MANIFEST cfg); OpFsRead (PROCESSED_MANIFEST cfg)]
      ++ skip_logs file_ext_filter (listing store bucket prefix)
  | _ => []
  end.

(* ===================================================================== *)
(** ** More concrete inputs *)
(* ===================================================================== *)

Module Cases.

(** A JSON reader for a document that is one array: read line by line it
    fails with ValueError, read whole it gives one row. *)
Definition read_json_array (lines : bool) (b : Blob) : result DataFrame :=
  if lines then Raise (Exn ["ValueError"] "Trailing data")
  else Ok (mkDataFrame 1 [mkColumn "text" "object" [VStr "hello"]]).

Definition posts : gmap (string * string) Blob :=
  {[ ("src", "social_media/posts.json") := Json (JArr [JObj [("text", JStr "hello")]]) ]}.

Definition posts_frame : DataFrame := mkDataFrame 1 [mkColumn "text" "object" [VStr "hello"]].

(** The first [n] calls fail. *)
Definition failing_first (n k : nat) : option exn :=
  if (k <? n)%nat then Some (Exn ["ClientError"] "SlowDown") else None.

Definition customer_item : S3Object := mkS3Object "src" "customers/a.csv".

Definition customer_frame : DataFrame :=
  mkDataFrame 1 [mkColumn "Customer ID" "int64" [VInt 7];
                 mkColumn "Email" "object" [VStr " Bob@Example.org "]].

(** The deployment of [Demo] with no table configured. *)
Definition config_without_tables : Config := {|
  S3_RAW_BUCKET := "my-raw-bucket";
  S3_RAW_PREFIX := "raw";
  LOCAL_TMP := "/tmp/data_ingest_tmp";
  CUSTOMERS_S3_PREFIX := "s3://src/customers/";
  CALL_LOGS_PREFIX := "s3://src/call_center_logs/";
  SOCIAL_PREFIX := "s3://src/social_media/";
  GOOGLE_SERVICE_ACCOUNT := "/secrets/gcp-sa.json";
  GOOGLE_SHEET_ID := "sheet1";
  GOOGLE_SHEET_RANGE := "Agents!A1:Z999";
  POSTGRES_SSM_PARAM := "/customer_complaints/db_credentials";
  POSTGRES_SCHEMA := "customer_complaints";
  METADATA_PREFIX := "raw/_metadata";
  POSTGRES_TABLES := ""
|}.

(** A manifest that already holds the configured sheet. *)
Definition sheet_record : Metadata :=
  mkMetadata "agents" "google_sheets://sheet1/Agents!A1:Z999" "2025-11-25T12:00:00" 4
             "name:object|email:object".
Definition sheet_manifest : json :=
  JObj [("google_sheets://sheet1/Agents!A1:Z999", metadata_json sheet_record)].
Definition with_sheet_manifest : gmap (string * string) Blob :=
  {[ ("raw", "_metadata/processed_files.json") := Json sheet_manifest ]}.

(** Two frames with different columns and one schema line,
    [a:int64|b:object]: a column named [a:int64|b], and the columns [a]
    and [b]. *)
Definition joined_column_frame : DataFrame := mkDataFrame 0 [mkColumn "a:int64|b" "object" []].
Definition two_column_frame : DataFrame :=
  mkDataFrame 0 [mkColumn "a" "int64" []; mkColumn "b" "object" []].

(** Sources with one item of each kind that has rows: a customer file, a
    sheet with one agent, a table with one request. *)
Definition full_sources : World :=
  mkWorld Demo.one_customer ∅ (ssm (Demo.world ∅ Demo.no_faults))
          {[ "SELECT * FROM customer_complaints.web_form_request_2025_11_20" :=
               [mkDataFrame 1 [mkColumn "email" "object" [VStr "ann@example.org"]]] ]}
          {[ ("sheet1", "Agents!A1:Z999") := [["Name"; "Email"]; ["Ann"; "ann@example.org"]] ]}
          Demo.noon 0 Demo.no_faults 0 [].

(** The world a first run of [run_full_ingest] leaves. *)
Definition after_full_run : World :=
  snd (run_full_ingest Demo.config Demo.read_csv Demo.read_json Demo.md5 full_sources).

(** The manifest of that run: one record per item. *)
Definition agent_record : Metadata :=
  mkMetadata "agents" "google_sheets://sheet1/Agents!A1:Z999" "2025-11-26T12:00:00.000003" 1
    "name:object|email:object|email_raw:object|_ingest_load_time:object|_source_path:object".
Definition request_record : Metadata :=
  mkMetadata "web_forms" "postgres://db.internal/complaints/web_form_request_2025_11_20"
    "2025-11-26T12:00:00.000006" 1
    "email:object|email_raw:object|_ingest_load_time:object|_source_path:object".
Definition full_run_manifest : json :=
  JObj [("s3://src/customers/a.csv", metadata_json Demo.customer_record);
        ("google_sheets://sheet1/Agents!A1:Z999", metadata_json agent_record);
        ("postgres://db.internal/complaints/web_form_request_2025_11_20",
         metadata_json request_record)].

End Cases.

(* ===================================================================== *)
(** ** Properties *)
(* ===================================================================== *)

(* --------------------------------------------------------------------- *)
(** *** Column names *)

Ltac ascii_cases c :=
  destruct c as [[] [] [] [] [] [] [] []]; vm_compute; try reflexivity; try discriminate; auto.

Lemma single_underscores_cons a b r :
  single_underscores (String a (String b r)) =
  negb (underscore_class a && underscore_class b) && single_underscores (String b r).
Proof. reflexivity. Qed.

Lemma slug_not_space c : slug_class c = true -> isspace c = false.
Proof. ascii_cases c. Qed.
Lemma slug_not_sep c : slug_class c = true -> sep_class c = false.
Proof. ascii_cases c. Qed.
Lemma slug_is_word c : slug_class c = true -> nonword_class c = false.
Proof. ascii_cases c. Qed.
Lemma slug_lower c : slug_class c = true -> lower_char c = c.
Proof. ascii_cases c. Qed.
Lemma slug_not_newline c : slug_class c = true -> Ascii.eqb "010" c = false.
Proof. ascii_cases c. Qed.
Lemma word_lower_slug c : nonword_class c = false -> slug_class (lower_char c) = true.
Proof. ascii_cases c. Qed.

Lemma all_chars_impl (p q : ascii -> bool) s :
  (forall c, p c = true -> q c = true) -> all_chars p s = true -> all_chars q s = true.
Proof.
  intros Hpq. induction s as [|c r IH]; simpl; [done|].
  intros [Hc Hr]%andb_true_iff. rewrite (Hpq _ Hc), IH; done.
Qed.

Lemma lstrip_fixed s : all_chars (fun c => negb (isspace c)) s = true -> lstrip s = s.
Proof.
  destruct s as [|c r]; simpl; [done|].
  intros [Hc _]%andb_true_iff. apply negb_true_iff in Hc. by rewrite Hc.
Qed.

Lemma rstrip_fixed s : all_chars (fun c => negb (isspace c)) s = true -> rstrip s = s.
Proof.
  induction s as [|c r IH]; simpl; [done|].
  intros [Hc Hr]%andb_true_iff. apply negb_true_iff in Hc.
  rewrite (IH Hr), Hc. by destruct r.
Qed.

Lemma strip_fixed s : all_chars (fun c => negb (isspace c)) s = true -> strip s = s.
Proof. intros H. unfold strip. rewrite (lstrip_fixed _ H). by apply rstrip_fixed. Qed.

Lemma replace_absent old new s : contains old s = false -> replace old new s = s.
Proof.
  unfold replace. induction s as [|c r IH]; [done|].
  cbn [contains replace_from]. intros [Hp Hr]%orb_false_iff.
  rewrite Hp. f_equal. by apply IH.
Qed.

Lemma sub_runs_fixed cls repl s :
  all_chars (fun c => negb (cls c)) s = true -> sub_runs cls repl s false = s.
Proof.
  induction s as [|c r IH]; simpl; [done|].
  intros [Hc Hr]%andb_true_iff. apply negb_true_iff in Hc.
  rewrite Hc. f_equal. by apply IH.
Qed.

Lemma lower_fixed s : all_chars slug_class s = true -> lower s = s.
Proof.
  induction s as [|c r IH]; simpl; [done|].
  intros [Hc Hr]%andb_true_iff. by rewrite (slug_lower _ Hc), IH.
Qed.

Lemma collapse_fixed s b :
  single_underscores s = true ->
  (b = true -> starts_with_underscore s = false) ->
  sub_runs underscore_class "_" s b = s.
Proof.
  revert b. induction s as [|c r IH]; intros b Hs Hb; [done|].
  cbn [sub_runs]. destruct (underscore_class c) eqn:Hc.
  - destruct b; [specialize (Hb eq_refl); simpl in Hb; congruence|].
    assert (c = "_"%char) as -> by (by apply Ascii.eqb_eq in Hc).
    change ("_" +:+ sub_runs underscore_class "_" r true) with
      (String "_" (sub_runs underscore_class "_" r true)).
    f_equal. apply IH.
    + destruct r; [done|]. rewrite single_underscores_cons in Hs.
      by apply andb_true_iff in Hs as [_ ?].
    + intros _. destruct r as [|d r']; [done|].
      rewrite single_underscores_cons in Hs. cbn [starts_with_underscore].
      apply andb_true_iff in Hs as [Hs _].
      destruct (underscore_class d); [|done].
      by vm_compute in Hs.
  - f_equal. apply IH; [|done].
    destruct r; [done|]. rewrite single_underscores_cons in Hs.
    by apply andb_true_iff in Hs as [_ ?].
Qed.

Lemma strip_nonword_word s b :
  all_chars (fun c => negb (nonword_class c)) (sub_runs nonword_class "" s b) = true.
Proof.
  revert b. induction s as [|c r IH]; intros b; [done|].
  cbn [sub_runs]. destruct (nonword_class c) eqn:Hc.
  - destruct b; [apply IH|]. change ("" +:+ ?x) with x. apply IH.
  - simpl. by rewrite Hc, IH.
Qed.

Lemma lower_slug s :
  all_chars (fun c => negb (nonword_class c)) s = true -> all_chars slug_class (lower s) = true.
Proof.
  induction s as [|c r IH]; simpl; [done|].
  intros [Hc Hr]%andb_true_iff. apply negb_true_iff in Hc.
  by rewrite (word_lower_slug _ Hc), IH.
Qed.

Lemma collapse_slug s b :
  all_chars slug_class s = true ->
  all_chars slug_class (sub_runs underscore_class "_" s b) = true.
Proof.
  revert b. induction s as [|c r IH]; intros b; [done|].
  cbn [sub_runs all_chars]. intros [Hc Hr]%andb_true_iff.
  destruct (underscore_class c).
  - destruct b; [by apply IH|].
    change ("_" +:+ ?x) with (String "_" x). simpl. by apply IH.
  - simpl. by rewrite Hc, IH.
Qed.

Lemma collapse_single s b :
  single_underscores (sub_runs underscore_class "_" s b) = true /\
  (b = true -> starts_with_underscore (sub_runs underscore_class "_" s b) = false).
Proof.
  revert b. induction s as [|c r IH]; intros b; [done|].
  cbn [sub_runs]. destruct (underscore_class c) eqn:Hc.
  - destruct b; [apply IH|].
    change ("_" +:+ ?x) with (String "_" x).
    destruct (IH true) as [H1 H2]. specialize (H2 eq_refl). split; [|done].
    destruct (sub_runs underscore_class "_" r true) as [|d t] eqn:E; [done|].
    rewrite single_underscores_cons. simpl in H2. rewrite H2, andb_false_r. exact H1.
  - destruct (IH false) as [H1 _]. split.
    + destruct (sub_runs underscore_class "_" r false) as [|d t] eqn:E; [done|].
      rewrite single_underscores_cons, Hc. exact H1.
    + intros _. simpl. done.
Qed.

Lemma slug_no_newline s : all_chars slug_class s = true -> contains newline s = false.
Proof.
  induction s as [|c r IH]; [done|].
  cbn [contains all_chars]. intros [Hc Hr]%andb_true_iff.
  rewrite (IH Hr), orb_false_r. unfold newline. cbn [String.prefix].
  destruct (ascii_dec "010" c) as [<-|Hne]; [by vm_compute in Hc|done].
Qed.

Lemma normalize_column_name_slug col :
  all_chars slug_class (normalize_column_name col) = true /\
  single_underscores (normalize_column_name col) = true.
Proof.
  unfold normalize_column_name, re_sub_class. split.
  - apply collapse_slug, lower_slug, strip_nonword_word.
  - apply collapse_single.
Qed.

Lemma normalize_column_name_fixed s :
  all_chars slug_class s = true -> single_underscores s = true ->
  normalize_column_name s = s.
Proof.
  intros Hs Hu. unfold normalize_column_name, re_sub_class.
  rewrite strip_fixed by (eapply all_chars_impl; [|exact Hs]; intros c Hc; by rewrite slug_not_space).
  rewrite replace_absent by (by apply slug_no_newline).
  rewrite (sub_runs_fixed sep_class "_" s)
    by (eapply all_chars_impl; [|exact Hs]; intros c Hc; by rewrite slug_not_sep).
  rewrite (sub_runs_fixed nonword_class "" s)
    by (eapply all_chars_impl; [|exact Hs]; intros c Hc; by rewrite slug_is_word).
  rewrite lower_fixed by done.
  by apply collapse_fixed.
Qed.






(* --------------------------------------------------------------------- *)
(** *** The pattern matcher *)

Lemma append_empty (s1 s2 : string) : s1 +:+ s2 = "" -> s1 = "" /\ s2 = "".
Proof. destruct s1; [done|discriminate]. Qed.

Lemma nullable_matches r : Re.nullable r = true <-> Re.matches r "".
Proof.
  split.
  - induction r as [| |cls|r1 IH1 r2 IH2|r1 IH1 r2 IH2|r IH]; simpl; intros H; try discriminate.
    + constructor.
    + apply andb_true_iff in H as [H1 H2]. apply (Re.MCat r1 r2 "" ""); auto.
    + apply orb_true_iff in H as [H|H]; [apply Re.MAltL|apply Re.MAltR]; auto.
    + constructor.
  - intros H. remember "" as s eqn:Hs. induction H; simpl; try done.
    + apply append_empty in Hs as [-> ->]. by rewrite IHmatches1, IHmatches2.
    + by rewrite IHmatches.
    + rewrite IHmatches; [|done]. apply orb_true_r.
Qed.

Lemma deriv_sound c r s : Re.matches (Re.deriv c r) s -> Re.matches r (String c s).
Proof.
  revert s. induction r as [| |cls|r1 IH1 r2 IH2|r1 IH1 r2 IH2|r IH]; simpl; intros s H.
  - inversion H.
  - inversion H.
  - destruct (cls c) eqn:Hc; inversion H; subst. by constructor.
  - destruct (Re.nullable r1) eqn:Hn.
    + inversion H as [| | |? ? ? Hl|? ? ? Hr| |]; subst.
      * inversion Hl; subst. apply (Re.MCat r1 r2 (String c _) _); auto.
      * apply (Re.MCat r1 r2 "" (String c s)); [by apply nullable_matches|auto].
    + inversion H; subst. apply (Re.MCat r1 r2 (String c _) _); auto.
  - inversion H; subst; [apply Re.MAltL|apply Re.MAltR]; auto.
  - inversion H; subst. apply (Re.MStarApp r (String c _) _); auto.
Qed.

Lemma deriv_complete c r s0 : Re.matches r s0 -> forall s, s0 = String c s -> Re.matches (Re.deriv c r) s.
Proof.
  induction 1 as [|cls c0 Hc|r1 r2 s1 s2 H1 IH1 H2 IH2|r1 r2 s0 H IH|r1 r2 s0 H IH
                  |r|r s1 s2 H1 IH1 H2 IH2]; intros s Hs; simpl.
  - discriminate.
  - injection Hs as -> <-. rewrite Hc. constructor.
  - destruct s1 as [|c1 s1].
    + assert (Re.nullable r1 = true) as -> by (by apply nullable_matches).
      apply Re.MAltR. by apply IH2.
    + injection Hs as -> <-.
      assert (Re.matches (Re.Rcat (Re.deriv c r1) r2) (s1 +:+ s2))
        by (constructor; auto).
      destruct (Re.nullable r1); [by apply Re.MAltL|done].
  - apply Re.MAltL. by apply IH.
  - apply Re.MAltR. by apply IH.
  - discriminate.
  - destruct s1 as [|c1 s1].
    + by apply IH2.
    + injection Hs as -> <-. constructor; auto.
Qed.

(** The matcher decides the language. *)
Lemma fullmatch_matches r s : Re.fullmatch r s = true <-> Re.matches r s.
Proof.
  revert r. induction s as [|c s IH]; intros r; simpl.
  - apply nullable_matches.
  - rewrite IH. split; [apply deriv_sound|]. intros H. by eapply deriv_complete.
Qed.

Lemma email_regex_match_spec s :
  email_regex_match s = true <-> Re.matches EMAIL_REGEX s.
Proof. apply fullmatch_matches. Qed.

(* --------------------------------------------------------------------- *)
(** *** E-mail hygiene *)

Lemma named_spec name c : named name c = true <-> col_name c = name.
Proof. unfold named. apply String.eqb_eq. Qed.

Lemma has_column_spec name df :
  has_column name df = true <-> exists c, c ∈ df_columns df /\ col_name c = name.
Proof.
  unfold has_column. rewrite existsb_exists. split.
  - intros (c & Hin & Hn). exists c. split; [by apply list_elem_of_In|by apply named_spec].
  - intros (c & Hin & Hn). exists c. split; [by apply list_elem_of_In|by apply named_spec].
Qed.

Lemma columns_named_elem name df c :
  c ∈ columns_named name df <-> c ∈ df_columns df /\ col_name c = name.
Proof.
  unfold columns_named. rewrite !list_elem_of_In, filter_In, named_spec. done.
Qed.

Lemma set_column_has name dtype vals df :
  has_column name (set_column name dtype vals df) = true.
Proof.
  unfold set_column. destruct (has_column name df) eqn:H.
  - apply has_column_spec in H as (c & Hin & Hn).
    apply has_column_spec. exists (mkColumn name dtype vals). split; [|done].
    cbn [df_columns]. apply list_elem_of_fmap. exists c. split; [|done].
    apply named_spec in Hn. by rewrite Hn.
  - apply has_column_spec. exists (mkColumn name dtype vals). split; [|done].
    cbn [df_columns]. apply elem_of_app. right. by apply list_elem_of_singleton.
Qed.

Lemma set_column_elem name dtype vals df c :
  c ∈ df_columns (set_column name dtype vals df) ->
  (col_name c = name /\ c = mkColumn name dtype vals) \/ (col_name c <> name /\ c ∈ df_columns df).
Proof.
  unfold set_column. destruct (has_column name df) eqn:H; cbn [df_columns].
  - intros (c0 & -> & Hin)%list_elem_of_fmap.
    destruct (named name c0) eqn:Hn; [by left|].
    right. split; [|done]. intros Heq%named_spec. congruence.
  - intros [Hin| ->%list_elem_of_singleton]%elem_of_app; [|by left].
    right. split; [|done]. intros Heq.
    assert (has_column name df = true) by (apply has_column_spec; eauto). congruence.
Qed.

Lemma set_column_keeps name dtype vals df other :
  other <> name -> has_column other df = true ->
  has_column other (set_column name dtype vals df) = true.
Proof.
  intros Hne (c & Hin & Hn)%has_column_spec. apply has_column_spec. exists c. split; [|done].
  unfold set_column. destruct (has_column name df); cbn [df_columns].
  - apply list_elem_of_fmap. exists c. split; [|done].
    destruct (named name c) eqn:E; [|done]. apply named_spec in E. congruence.
  - apply elem_of_app. by left.
Qed.

Lemma email_hygiene_single df c w :
  columns_named "email" df = [c] ->
  email_hygiene df w =
    (Ok (set_column "email" "object" (map clean_email (col_values c))
           (set_column "email_raw" (col_dtype c) (col_values c) df)), w).
Proof.
  intros Hc. unfold email_hygiene.
  assert (has_column "email" df = true) as ->.
  { apply has_column_spec. exists c. apply columns_named_elem. rewrite Hc. by left. }
  by rewrite Hc.
Qed.

(** The hygiene step on a dataset with one [email] column returns
    normally; every [email_raw] column holds the original cells and every
    [email] column the cleaned ones. *)
Lemma email_hygiene_keeps_raw (df : DataFrame) (c : Column) (w : World) :
  columns_named "email" df = [c] ->
  exists df',
    email_hygiene df w = (Ok df', w) /\
    has_column "email_raw" df' = true /\
    (forall c', c' ∈ df_columns df' -> col_name c' = "email_raw" ->
                col_values c' = col_values c) /\
    (forall c', c' ∈ df_columns df' -> col_name c' = "email" ->
                col_values c' = map clean_email (col_values c)).
Proof.
  intros Hc. eexists. split; [by apply email_hygiene_single|]. split; [|split].
  - apply set_column_keeps; [done|]. apply set_column_has.
  - intros c' Hin Hn.
    apply set_column_elem in Hin as [[Hn' _]|[_ Hin]]; [congruence|].
    apply set_column_elem in Hin as [[_ ->]|[Hne _]]; [done|congruence].
  - intros c' Hin Hn.
    apply set_column_elem in Hin as [[_ ->]|[Hne _]]; [done|congruence].
Qed.

(** C7.  The fourth step of [clean_email] is a [str.replace] of the three
    characters backslash, s, plus: it removes that literal text and
    leaves whitespace where it is.  So "a\s+@b.cd" comes back as
    "a@b.cd" although its trimmed, lower-cased and substituted form does
    not match the pattern, for which the specification gives None; and
    "a b@c.de", an address once its whitespace is removed, gives None.
    On a text whose substituted form is free of the literal the code
    does what the specification says, "not-an-email" gives None, and the
    original cells of a dataset's one [email] column are kept under
    [email_raw]. *)
Theorem clean_email_replaces_literal_text :
  clean_email (VStr "a\s+@b.cd") = VStr "a@b.cd" /\
  email_regex_match (at_substitutions (lower (strip "a\s+@b.cd"))) = false /\
  clean_email_as_specified "a\s+@b.cd" = VNone /\
  clean_email (VStr "a b@c.de") = VNone /\
  email_regex_match "ab@c.de" = true /\
  clean_email (VStr "not-an-email") = VNone /\
  (forall s, contains backslash_s_plus (at_substitutions (lower (strip s))) = false ->
             clean_email (VStr s) = clean_email_as_specified s) /\
  (forall df c w, columns_named "email" df = [c] ->
     exists df',
       email_hygiene df w = (Ok df', w) /\
       has_column "email_raw" df' = true /\
       (forall c', c' ∈ df_columns df' -> col_name c' = "email_raw" ->
                   col_values c' = col_values c)).
Proof.
  repeat split; try reflexivity.
  - intros s Hs. unfold clean_email, clean_email_as_specified. cbv zeta.
    by rewrite (replace_absent _ _ _ Hs).
  - intros df c w Hc.
    destruct (email_hygiene_keeps_raw df c w Hc) as (df' & H1 & H2 & H3 & _). eauto.
Qed.

(** C10.  [clean_email] is a total function of the cell, and a cell that
    is not a [str] (None, NaN, a number, a boolean) gives None. *)
Theorem clean_email_non_string (v : pyval) (H : is_str v = false) : clean_email v = VNone.
Proof. by destruct v. Qed.

(* --------------------------------------------------------------------- *)
(** *** Frame rules for the monad *)

Section Respects.
Variable R : World -> World -> Prop.
Hypothesis R_refl : forall w, R w w.
Hypothesis R_trans : forall w1 w2 w3, R w1 w2 -> R w2 w3 -> R w1 w3.

Lemma respects_ret {A} (a : A) : respects R (ret a).
Proof. intros w. apply R_refl. Qed.

Lemma respects_raise {A} e : respects R (@raise A e).
Proof. intros w. apply R_refl. Qed.

Lemma respects_lift {A} (r : result A) : respects R (lift r).
Proof. intros w. apply R_refl. Qed.

Lemma respects_get {A} (f : World -> A) : respects R (get f).
Proof. intros w. apply R_refl. Qed.

Lemma respects_bind {A B} (m : M A) (k : A -> M B) :
  respects R m -> (forall a, respects R (k a)) -> respects R (bind m k).
Proof.
  intros Hm Hk w. unfold bind. specialize (Hm w).
  destruct (m w) as [[a|e] w1]; simpl in *; [|done].
  eapply R_trans; [exact Hm|apply Hk].
Qed.

Lemma respects_try_except {A} (m : M A) (h : exn -> M A) :
  respects R m -> (forall e, respects R (h e)) -> respects R (try_except m h).
Proof.
  intros Hm Hh w. unfold try_except. specialize (Hm w).
  destruct (m w) as [[a|e] w1]; simpl in *; [done|].
  eapply R_trans; [exact Hm|apply Hh].
Qed.

Lemma respects_try_finally {A} (m : M A) (c : M unit) :
  respects R m -> respects R c -> respects R (try_finally m c).
Proof.
  intros Hm Hc w. unfold try_finally. specialize (Hm w).
  destruct (m w) as [[a|e] w1]; simpl in *; specialize (Hc w1);
    destruct (c w1) as [[[]|e'] w2]; simpl in *; eapply R_trans; eauto.
Qed.

Lemma respects_for_each {S X} (body : S -> X -> M S) (xs : list X) :
  (forall st x, respects R (body st x)) -> forall st, respects R (for_each body xs st).
Proof.
  intros Hb. induction xs as [|x xs IH]; intros st; simpl.
  - apply respects_ret.
  - apply respects_bind; [apply Hb|apply IH].
Qed.

Lemma respects_attempts {A} (f : M A) left n :
  respects R f -> (forall s, respects R (emit (OpSleep s))) -> respects R (attempts left n f).
Proof.
  intros Hf Hs. revert n. induction left as [|left IH]; intros n; simpl.
  - apply respects_try_except; [done|]. intros e. apply respects_raise.
  - apply respects_try_except; [done|]. intros e.
    apply respects_bind; [apply Hs|]. intros _. apply IH.
Qed.
End Respects.

Lemma trace_grows_refl P w : trace_grows P w w.
Proof. exists []. by rewrite app_nil_r. Qed.

Lemma trace_grows_trans P w1 w2 w3 :
  trace_grows P w1 w2 -> trace_grows P w2 w3 -> trace_grows P w1 w3.
Proof.
  intros (o1 & E1 & F1) (o2 & E2 & F2). exists (o1 ++ o2). split.
  - by rewrite E2, E1, app_assoc.
  - by rewrite forallb_app, F1, F2.
Qed.

Lemma store_kept_refl w : store_kept w w.
Proof. done. Qed.

Lemma store_kept_trans w1 w2 w3 : store_kept w1 w2 -> store_kept w2 w3 -> store_kept w1 w3.
Proof. intros [? ?] [? ?]. split; congruence. Qed.

Lemma reads_only_refl w : reads_only w w.
Proof. split; [apply store_kept_refl|apply trace_grows_refl]. Qed.

Lemma reads_only_trans w1 w2 w3 : reads_only w1 w2 -> reads_only w2 w3 -> reads_only w1 w3.
Proof.
  intros [? ?] [? ?]. split; [by eapply store_kept_trans|by eapply trace_grows_trans].
Qed.

Lemma reads_only_emit op : is_write op = false -> respects reads_only (emit op).
Proof.
  intros H w. split; [done|]. exists [op]. split; [done|].
  simpl. unfold is_read. by rewrite H.
Qed.

Lemma reads_only_call op : is_write op = false -> respects reads_only (call op).
Proof.
  intros H w. unfold call. split.
  - by destruct (faults w (calls w)).
  - exists [op]. split; [by destruct (faults w (calls w))|].
    simpl. unfold is_read. by rewrite H.
Qed.

Lemma reads_only_utcnow : respects reads_only utcnow.
Proof. intros w. split; [done|]. exists []. by rewrite app_nil_r. Qed.

(** Applies the rules above along the structure of a computation. *)
Ltac reads_only_step :=
  first
    [ apply respects_ret; exact reads_only_refl
    | apply respects_raise; exact reads_only_refl
    | apply respects_lift; exact reads_only_refl
    | apply respects_get; exact reads_only_refl
    | apply reads_only_utcnow
    | apply reads_only_emit; reflexivity
    | apply reads_only_call; reflexivity
    | apply respects_bind; [exact reads_only_trans| |intros ?]
    | apply respects_try_except; [exact reads_only_trans| |intros ?]
    | apply respects_try_finally; [exact reads_only_trans| |]
    | apply respects_attempts;
        [exact reads_only_refl|exact reads_only_trans| |intros ?]
    | match goal with |- respects _ (match ?x with _ => _ end) => destruct x end
    | match goal with |- respects _ (if ?x then _ else _) => destruct x end ].

Ltac reads_only_tac := repeat reads_only_step.

Lemma download_s3_to_dataframe_reads_only rc rj path :
  respects reads_only (download_s3_to_dataframe rc rj path).
Proof.
  unfold download_s3_to_dataframe, retry, download_s3_to_dataframe_once, log_info.
  reads_only_tac.
Qed.

Lemma extract_postgres_table_to_df_reads_only cfg table creds :
  respects reads_only (extract_postgres_table_to_df cfg table creds).
Proof.
  unfold extract_postgres_table_to_df, retry, extract_postgres_table_to_df_once, log_info.
  reads_only_tac.
Qed.

Lemma extract_google_sheet_to_df_reads_only sheet_id range_name sa :
  respects reads_only (extract_google_sheet_to_df sheet_id range_name sa).
Proof. unfold extract_google_sheet_to_df. reads_only_tac. Qed.

Lemma read_processed_manifest_reads_only cfg :
  respects reads_only (read_processed_manifest cfg).
Proof. unfold read_processed_manifest, log_exception. reads_only_tac. Qed.

Lemma list_s3_objects_reads_only prefix :
  respects reads_only (list_s3_objects prefix).
Proof. unfold list_s3_objects. reads_only_tac. Qed.

(* --------------------------------------------------------------------- *)
(** *** Zero-row reads, flow by flow *)

Lemma zero_rows_empty df : df_rows df = 0 -> df_empty df = true.
Proof. intros H. unfold df_empty. by rewrite H. Qed.

Lemma reads_only_append_trace op w w1 :
  is_write op = false -> reads_only w w1 -> reads_only w (append_trace op w1).
Proof.
  intros Hop H. eapply reads_only_trans; [exact H|].
  apply (reads_only_emit op Hop w1).
Qed.

Lemma process_s3_object_empty cfg rc rj md5 source_name file_ext_filter st obj w df w1 :
  ext_filtered_out file_ext_filter (Key obj) = false ->
  py_contains (s3_path_of obj) (fst st) = Ok false ->
  download_s3_to_dataframe rc rj (s3_path_of obj) w = (Ok df, w1) ->
  df_rows df = 0 ->
  process_s3_object cfg rc rj md5 source_name file_ext_filter st obj w =
    (Ok st, append_trace
              (OpLog "WARNING" ("Empty dataframe for " +:+ s3_path_of obj +:+ ", skipping")) w1)
  /\ reads_only w w1.
Proof.
  intros Hf Hm Hd He. split.
  - unfold process_s3_object. rewrite Hf.
    fold (s3_path_of obj). rewrite Hm.
    unfold try_except, bind, lift. rewrite Hd, (zero_rows_empty _ He). reflexivity.
  - pose proof (download_s3_to_dataframe_reads_only rc rj (s3_path_of obj) w) as H.
    by rewrite Hd in H.
Qed.

Lemma process_postgres_table_empty cfg md5 creds source_name processed table identifier w df w1 :
  postgres_identifier creds table = Ok identifier ->
  py_contains identifier processed = Ok false ->
  extract_postgres_table_to_df cfg table creds w = (Ok df, w1) ->
  df_rows df = 0 ->
  process_postgres_table cfg md5 creds source_name processed table w =
    (Ok processed, append_trace (OpLog "WARNING" ("Empty table " +:+ table +:+ ", skipping")) w1)
  /\ reads_only w w1.
Proof.
  intros Hid Hm Hd He. split.
  - unfold process_postgres_table. rewrite Hid. unfold bind at 1, lift at 1.
    rewrite Hm. unfold bind at 1, lift at 1.
    unfold try_except, bind. rewrite Hd, (zero_rows_empty _ He). reflexivity.
  - pose proof (extract_postgres_table_to_df_reads_only cfg table creds w) as H.
    by rewrite Hd in H.
Qed.

Lemma process_google_sheet_empty cfg md5 sheet_id range_name source_name sa_path w doc w0 df w1 :
  read_processed_manifest cfg w = (Ok doc, w0) ->
  py_contains (sheet_identifier sheet_id range_name) doc = Ok false ->
  extract_google_sheet_to_df sheet_id range_name sa_path w0 = (Ok df, w1) ->
  df_rows df = 0 ->
  process_google_sheet cfg md5 sheet_id range_name source_name sa_path w =
    (Ok tt, append_trace
              (OpLog "WARNING" ("Empty google sheet " +:+ sheet_identifier sheet_id range_name)) w1)
  /\ reads_only w w1.
Proof.
  intros Hr Hm Hd He. split.
  - unfold process_google_sheet, bind. rewrite Hr.
    fold (sheet_identifier sheet_id range_name). rewrite Hm. unfold lift.
    rewrite Hd, (zero_rows_empty _ He). reflexivity.
  - eapply reads_only_trans.
    + pose proof (read_processed_manifest_reads_only cfg w) as H. rewrite Hr in H. exact H.
    + pose proof (extract_google_sheet_to_df_reads_only sheet_id range_name sa_path w0) as H.
      by rewrite Hd in H.
Qed.

(* --------------------------------------------------------------------- *)
(** *** Skipping what the manifest holds *)

Lemma append_ops_nil w : append_ops [] w = w.
Proof. destruct w. unfold append_ops. simpl. by rewrite app_nil_r. Qed.

Lemma append_ops_app l1 l2 w : append_ops l2 (append_ops l1 w) = append_ops (l1 ++ l2) w.
Proof. unfold append_ops. simpl. by rewrite app_assoc. Qed.

Lemma append_trace_ops op w : append_trace op w = append_ops [op] w.
Proof. reflexivity. Qed.

Lemma process_s3_object_skip cfg rc rj md5 source_name file_ext_filter st obj w :
  (ext_filtered_out file_ext_filter (Key obj) = false ->
   py_contains (s3_path_of obj) (fst st) = Ok true) ->
  process_s3_object cfg rc rj md5 source_name file_ext_filter st obj w =
    (Ok st, append_ops (skip_logs file_ext_filter [obj]) w).
Proof.
  intros H. unfold process_s3_object, skip_logs. simpl.
  destruct (ext_filtered_out file_ext_filter (Key obj)) eqn:Hf.
  - unfold ret. by rewrite append_ops_nil.
  - fold (s3_path_of obj). rewrite (H eq_refl). reflexivity.
Qed.

Lemma skip_logs_cons f obj objs : skip_logs f (obj :: objs) = skip_logs f [obj] ++ skip_logs f objs.
Proof. unfold skip_logs. simpl. by destruct (ext_filtered_out f (Key obj)). Qed.

Lemma for_each_all_skipped cfg rc rj md5 source_name file_ext_filter objs st w :
  (forall obj, obj ∈ objs -> ext_filtered_out file_ext_filter (Key obj) = false ->
               py_contains (s3_path_of obj) (fst st) = Ok true) ->
  for_each (process_s3_object cfg rc rj md5 source_name file_ext_filter) objs st w =
    (Ok st, append_ops (skip_logs file_ext_filter objs) w).
Proof.
  revert w. induction objs as [|obj objs IH]; intros w H.
  - simpl. unfold ret. by rewrite append_ops_nil.
  - cbn [for_each]. unfold bind.
    rewrite process_s3_object_skip by (apply H; by left).
    rewrite IH by (intros o Ho; apply H; by right).
    by rewrite append_ops_app, <- skip_logs_cons.
Qed.

Lemma skip_logs_reads f objs : forallb is_read (skip_logs f objs) = true.
Proof.
  induction objs as [|obj objs IH]; [done|].
  rewrite skip_logs_cons, forallb_app, IH, andb_true_r.
  unfold skip_logs. simpl. by destruct (ext_filtered_out f (Key obj)).
Qed.

Lemma is_read_spec op : is_read op = true <-> is_write op = false.
Proof. unfold is_read. by destruct (is_write op). Qed.

(* --------------------------------------------------------------------- *)
(** *** One turn of a loop *)

Lemma bind_ok_inv {A B} (m : M A) (k : A -> M B) w b w' :
  bind m k w = (Ok b, w') -> exists a w1, m w = (Ok a, w1) /\ k a w1 = (Ok b, w').
Proof.
  unfold bind. destruct (m w) as [[a|e] w1]; [|done]. intros H. by exists a, w1.
Qed.

Lemma try_except_total {A} (body : M A) (h : exn -> M A) w :
  (forall e w1, exists a w2, h e w1 = (Ok a, w2)) ->
  exists a w', try_except body h w = (Ok a, w').
Proof.
  intros Hh. unfold try_except. destruct (body w) as [[a|e] w1]; [by exists a, w1|apply Hh].
Qed.

Lemma lift_ok_inv {A} (r : result A) w a w' : lift r w = (Ok a, w') -> r = Ok a /\ w' = w.
Proof. unfold lift. by intros [= -> ->]. Qed.

Lemma dict_get_set_eq key value d : dict_get key (dict_set key value d) = Some value.
Proof.
  induction d as [|[k v] d IH]; cbn [dict_set dict_get].
  - by rewrite String.eqb_refl.
  - destruct (String.eqb k key) eqn:E; cbn [dict_get]; rewrite E; [done|exact IH].
Qed.

Lemma dict_get_set_ne key other value d :
  key <> other -> dict_get other (dict_set key value d) = dict_get other d.
Proof.
  intros Hne. induction d as [|[k v] d IH]; cbn [dict_set dict_get].
  - destruct (String.eqb key other) eqn:E; [|done]. apply String.eqb_eq in E. congruence.
  - destruct (String.eqb k key) eqn:E; cbn [dict_get].
    + apply String.eqb_eq in E as ->.
      destruct (String.eqb key other) eqn:E'; [|done]. apply String.eqb_eq in E'. congruence.
    + by rewrite IH.
Qed.

Lemma py_contains_container key doc :
  container doc = true -> exists seen, py_contains key doc = Ok seen.
Proof. destruct doc; try discriminate; intros _; cbn; eauto. Qed.

Lemma py_contains_scalar key doc :
  container doc = false ->
  py_contains key doc =
    Raise (Exn ["TypeError"] ("argument of type '" +:+ type_name doc +:+ "' is not iterable")).
Proof. by destruct doc. Qed.

Lemma py_contains_dict key d seen :
  py_contains key (JObj d) = Ok seen -> seen = false -> dict_get key d = None.
Proof. cbn. destruct (dict_get key d); [|done]. by intros [= <-]. Qed.

Lemma py_contains_is_container key doc seen :
  py_contains key doc = Ok seen -> container doc = true.
Proof. by destruct doc. Qed.

Lemma py_setitem_ok doc key value doc' :
  py_setitem doc key value = Ok doc' ->
  exists d, doc = JObj d /\ doc' = JObj (dict_set key value d).
Proof. destruct doc; try discriminate. intros [= <-]. eauto. Qed.

(** A turn of the S3 loop that returns either leaves the loop state as
    it was or, the manifest being a dict, adds one record under a key
    that had none. *)
Lemma process_s3_object_inv cfg rc rj md5 source_name file_ext_filter st obj w st' w' :
  process_s3_object cfg rc rj md5 source_name file_ext_filter st obj w = (Ok st', w') ->
  st' = st \/
  exists d md,
    fst st = JObj d /\ dict_get (s3_path_of obj) d = None /\
    st' = (JObj (dict_set (s3_path_of obj) (metadata_json md) d), true) /\
    source_path md = s3_path_of obj.
Proof.
  unfold process_s3_object. fold (s3_path_of obj).
  destruct (ext_filtered_out file_ext_filter (Key obj)); [intros [= <- _]; by left|].
  unfold bind at 1, lift at 1.
  destruct (py_contains (s3_path_of obj) (fst st)) as [seen|e] eqn:Hseen; [|discriminate].
  destruct seen; [intros [= <- _]; by left|].
  unfold try_except.
  match goal with |- context [match ?body w with _ => _ end] =>
    destruct (body w) as [[st1|e] w1] eqn:Hbody end.
  2:{ intros [= <- _]. by left. }
  intros [= -> ->].
  apply bind_ok_inv in Hbody as (df & w2 & _ & Hbody).
  destruct (df_empty df).
  { apply bind_ok_inv in Hbody as ([] & w3 & _ & Hret). left. by inversion Hret. }
  apply bind_ok_inv in Hbody as (df1 & w3 & _ & Hbody).
  apply bind_ok_inv in Hbody as (now1 & w4 & _ & Hbody).
  apply bind_ok_inv in Hbody as (now2 & w5 & _ & Hbody).
  apply bind_ok_inv in Hbody as (now3 & w6 & _ & Hbody).
  apply bind_ok_inv in Hbody as (out & w7 & _ & Hbody).
  apply bind_ok_inv in Hbody as (doc' & w8 & Hset & Hret).
  apply lift_ok_inv in Hset as [Hset ->].
  apply py_setitem_ok in Hset as (d & Hd & ->).
  right. exists d. eexists. split; [exact Hd|].
  rewrite Hd in Hseen. split; [by eapply py_contains_dict|].
  inversion Hret; subst. split; [reflexivity|done].
Qed.

(** Over a manifest on which [in] works, a turn of the S3 loop returns. *)
Lemma process_s3_object_returns cfg rc rj md5 source_name file_ext_filter st obj w :
  container (fst st) = true ->
  exists st' w',
    process_s3_object cfg rc rj md5 source_name file_ext_filter st obj w = (Ok st', w').
Proof.
  intros Hc. unfold process_s3_object.
  destruct (ext_filtered_out file_ext_filter (Key obj)); [by eexists _, _|].
  destruct (py_contains_container ("s3://" +:+ Bucket obj +:+ "/" +:+ Key obj) _ Hc)
    as [seen Hseen].
  unfold bind at 1, lift at 1. rewrite Hseen. destruct seen; [by eexists _, _|].
  apply try_except_total. intros e w1. by eexists _, _.
Qed.

Lemma process_s3_object_step cfg rc rj md5 source_name file_ext_filter st obj w :
  container (fst st) = true ->
  exists st' w',
    process_s3_object cfg rc rj md5 source_name file_ext_filter st obj w = (Ok st', w') /\
    (st' = st \/
     exists d md,
       fst st = JObj d /\ dict_get (s3_path_of obj) d = None /\
       st' = (JObj (dict_set (s3_path_of obj) (metadata_json md) d), true) /\
       source_path md = s3_path_of obj).
Proof.
  intros Hc.
  destruct (process_s3_object_returns cfg rc rj md5 source_name file_ext_filter st obj w Hc)
    as (st' & w' & Hrun).
  exists st', w'. split; [done|]. by eapply process_s3_object_inv.
Qed.

Lemma process_postgres_table_inv cfg md5 creds source_name processed table w processed' w' :
  process_postgres_table cfg md5 creds source_name processed table w = (Ok processed', w') ->
  exists identifier,
    postgres_identifier creds table = Ok identifier /\
    (processed' = processed \/
     exists d md,
       processed = JObj d /\ dict_get identifier d = None /\
       processed' = JObj (dict_set identifier (metadata_json md) d) /\
       source_path md = identifier).
Proof.
  unfold process_postgres_table. unfold bind at 1, lift at 1.
  destruct (postgres_identifier creds table) as [identifier|e] eqn:Hid; [|discriminate].
  unfold bind at 1, lift at 1.
  destruct (py_contains identifier processed) as [seen|e] eqn:Hseen; [|discriminate].
  exists identifier. split; [done|]. revert H.
  destruct seen; [intros [= <- _]; by left|].
  unfold try_except.
  match goal with |- context [match ?body w with _ => _ end] =>
    destruct (body w) as [[st1|e] w1] eqn:Hbody end.
  2:{ intros [= <- _]. by left. }
  intros [= -> ->].
  apply bind_ok_inv in Hbody as (df & w2 & _ & Hbody).
  destruct (df_empty df).
  { apply bind_ok_inv in Hbody as ([] & w3 & _ & Hret). left. by inversion Hret. }
  apply bind_ok_inv in Hbody as (df1 & w3 & _ & Hbody).
  apply bind_ok_inv in Hbody as (now1 & w4 & _ & Hbody).
  apply bind_ok_inv in Hbody as (now2 & w5 & _ & Hbody).
  apply bind_ok_inv in Hbody as (now3 & w6 & _ & Hbody).
  apply bind_ok_inv in Hbody as (out & w7 & _ & Hset).
  apply lift_ok_inv in Hset as [Hset ->].
  apply py_setitem_ok in Hset as (d & Hd & ->).
  right. exists d. eexists. split; [exact Hd|].
  rewrite Hd in Hseen. split; [by eapply py_contains_dict|]. split; [reflexivity|done].
Qed.

Lemma process_postgres_table_returns cfg md5 creds source_name processed table identifier w :
  postgres_identifier creds table = Ok identifier ->
  container processed = true ->
  exists processed' w',
    process_postgres_table cfg md5 creds source_name processed table w = (Ok processed', w').
Proof.
  intros Hid Hc. unfold process_postgres_table. rewrite Hid.
  unfold bind at 1, lift at 1.
  destruct (py_contains_container identifier _ Hc) as [seen Hseen].
  unfold bind at 1, lift at 1. rewrite Hseen. destruct seen; [by eexists _, _|].
  apply try_except_total. intros e w1. by eexists _, _.
Qed.

Lemma process_postgres_table_step cfg md5 creds source_name processed table identifier w :
  postgres_identifier creds table = Ok identifier ->
  container processed = true ->
  exists processed' w',
    process_postgres_table cfg md5 creds source_name processed table w = (Ok processed', w') /\
    (processed' = processed \/
     exists d md,
       processed = JObj d /\ dict_get identifier d = None /\
       processed' = JObj (dict_set identifier (metadata_json md) d) /\
       source_path md = identifier).
Proof.
  intros Hid Hc.
  destruct (process_postgres_table_returns cfg md5 creds source_name processed table identifier
              w Hid Hc) as (p' & w' & Hrun).
  exists p', w'. split; [done|].
  destruct (process_postgres_table_inv _ _ _ _ _ _ _ _ _ Hrun) as (id' & Hid' & H).
  rewrite Hid in Hid'. by injection Hid' as <-.
Qed.

(** The S3 loop over a manifest on which [in] works runs to its end
    whatever the items do, and the records the manifest held at the start
    are all still there, unchanged. *)
Lemma s3_loop_isolated cfg rc rj md5 source_name file_ext_filter objs st w :
  container (fst st) = true ->
  exists st' w',
    for_each (process_s3_object cfg rc rj md5 source_name file_ext_filter) objs st w = (Ok st', w') /\
    container (fst st') = true /\
    (forall k v, record_of (fst st) k = Some v -> record_of (fst st') k = Some v).
Proof.
  revert st w. induction objs as [|obj objs IH]; intros st w Hc.
  - exists st, w. by split.
  - cbn [for_each]. unfold bind.
    destruct (process_s3_object_step cfg rc rj md5 source_name file_ext_filter st obj w Hc)
      as (st1 & w1 & -> & Hst).
    assert (Hc1 : container (fst st1) = true).
    { destruct Hst as [->|(d & md & _ & _ & -> & _)]; done. }
    destruct (IH st1 w1 Hc1) as (st2 & w2 & -> & Hc2 & Hkeep).
    exists st2, w2. split; [done|]. split; [done|]. intros k v Hk. apply Hkeep.
    destruct Hst as [->|(d & md & Hd & Hnone & -> & _)]; [done|].
    rewrite Hd in Hk. cbn in Hk |- *. rewrite dict_get_set_ne; [done|]. intros <-. congruence.
Qed.

Lemma postgres_loop_isolated cfg md5 creds source_name tables processed w :
  (forall t, t ∈ tables -> exists identifier, postgres_identifier creds t = Ok identifier) ->
  container processed = true ->
  exists processed' w',
    for_each (process_postgres_table cfg md5 creds source_name) tables processed w
      = (Ok processed', w') /\
    container processed' = true /\
    (forall k v, record_of processed k = Some v -> record_of processed' k = Some v).
Proof.
  revert processed w. induction tables as [|t tables IH]; intros processed w Hid Hc.
  - exists processed, w. by split.
  - cbn [for_each]. unfold bind.
    destruct (Hid t) as [identifier Ht]; [by left|].
    destruct (process_postgres_table_step cfg md5 creds source_name processed t identifier w Ht Hc)
      as (p1 & w1 & -> & Hst).
    assert (Hc1 : container p1 = true).
    { destruct Hst as [->|(d & md & _ & _ & -> & _)]; done. }
    destruct (IH p1 w1) as (p2 & w2 & -> & Hc2 & Hkeep); [|done|].
    { intros t' Ht'. apply Hid. by right. }
    exists p2, w2. split; [done|]. split; [done|]. intros k v Hk. apply Hkeep.
    destruct Hst as [->|(d & md & Hd & Hnone & -> & _)]; [done|].
    rewrite Hd in Hk. cbn in Hk |- *. rewrite dict_get_set_ne; [done|]. intros <-. congruence.
Qed.

(** What a pass over a prefix records when every item is skipped. *)
Lemma advance_advance n1 ops1 n2 ops2 w :
  advance n2 ops2 (advance n1 ops1 w) = advance (n2 + n1) (ops1 ++ ops2) w.
Proof. unfold advance. cbn. by rewrite Nat.add_assoc, app_assoc. Qed.

Lemma append_ops_advance ops w : append_ops ops w = advance 0 ops w.
Proof. reflexivity. Qed.

(** A pass of [process_s3_prefix] over a prefix whose items are all in
    the manifest it loads returns with a log line per item and nothing
    else: three calls (list, exists, read), no write, no flush, and the
    store as it was. *)
Lemma s3_pass_all_skipped
    (cfg : Config) rc rj md5 (prefix_s3 bucket prefix source_name : string)
    (file_ext_filter : option (list string)) (w : World) (doc : json) :
  startswith "s3://" prefix_s3 = true ->
  split1 "/" (replace "s3://" "" prefix_s3) = [bucket; prefix] ->
  faults w (calls w) = None ->
  faults w (1 + calls w) = None ->
  faults w (2 + calls w) = None ->
  s3 w !! s3fs_split (PROCESSED_MANIFEST cfg) = Some (Json doc) ->
  (forall obj, obj ∈ listing (s3 w) bucket prefix ->
     ext_filtered_out file_ext_filter (Key obj) = false ->
     py_contains (s3_path_of obj) doc = Ok true) ->
  process_s3_prefix cfg rc rj md5 prefix_s3 source_name file_ext_filter w =
    (Ok tt,
     advance 3
       ([OpLog "INFO" ("Processing prefix " +:+ prefix_s3); OpList bucket prefix;
         OpFsExists (PROCESSED_MANIFEST cfg); OpFsRead (PROCESSED_MANIFEST cfg)]
        ++ skip_logs file_ext_filter (listing (s3 w) bucket prefix)) w).
Proof.
  intros Hprefix Hsplit Hlist Hexists Hread Hmanifest Hcovered.
  cbn in Hexists, Hread.
  unfold process_s3_prefix, list_s3_objects, read_processed_manifest.
  rewrite Hprefix, Hsplit. cbn [negb].
  unfold bind, try_except, call, log_info, emit, get, ret, lift. cbn.
  rewrite Hlist. cbn. rewrite Hexists. cbn. rewrite Hmanifest. cbn. rewrite Hread. cbn.
  rewrite for_each_all_skipped by (cbn; exact Hcovered).
  cbn. unfold advance, append_ops. cbn. by rewrite <- !app_assoc.
Qed.

(* --------------------------------------------------------------------- *)
(** *** The scratch file of the writer *)

Lemma next_tmp_file_new w : scratch w !! next_tmp_file w = None.
Proof.
  destruct (scratch w !! next_tmp_file w) as [b|] eqn:E; [|done].
  exfalso. apply (infinite_is_fresh (map fst (map_to_list (scratch w)))).
  apply list_elem_of_fmap. exists (next_tmp_file w, b). split; [done|].
  by apply elem_of_map_to_list.
Qed.

Lemma since_app (w w' : World) ops : trace w' = trace w ++ ops -> since w w' = ops.
Proof. intros H. unfold since. by rewrite H, drop_app_length. Qed.

(** C6.  When the upload of the data file (the fourth fallible call of
    the writer) or the upload of the sidecar (the fifth) raises,
    [write_parquet_to_s3_atomic] raises the same exception without a call
    to [os.remove]: the scratch file it created, which did not exist
    before, is still there with the serialized dataset. *)
Theorem scratch_file_left_after_failed_upload
    (cfg : Config) (df : DataFrame) (s3_output_path bucket key : string)
    (metadata : option Metadata) (w : World) (e : exn) (k : nat)
    (Hsplit : split1 "/" (replace "s3://" "" s3_output_path) = [bucket; key])
    (Hk : k = 3 \/ k = 4)
    (Hbefore : forall n, n < k -> faults w (n + calls w) = None)
    (Hat : faults w (k + calls w) = Some e) :
  exists w',
    write_parquet_to_s3_atomic cfg df s3_output_path metadata w = (Raise e, w') /\
    scratch w !! next_tmp_file w = None /\
    scratch w' !! next_tmp_file w = Some (Parquet df) /\
    forallb (fun op => negb (is_remove op)) (since w w') = true.
Proof.
  pose proof (Hbefore 0) as H0. pose proof (Hbefore 1) as H1. pose proof (Hbefore 2) as H2.
  pose proof (Hbefore 3) as H3. cbn in H0, H1, H2, H3.
  unfold write_parquet_to_s3_atomic, ensure_local_tmp, named_temporary_file.
  rewrite Hsplit. fold (next_tmp_file w).
  unfold bind, call, get, set_scratch, set_s3, log_info, emit, ret. cbn.
  fold (next_tmp_file w).
  destruct Hk as [-> | ->]; cbn in Hat.
  - rewrite H0 by lia. cbn. rewrite H1 by lia. cbn. rewrite H2 by lia. cbn.
    rewrite Hat. cbn.
    eexists. split; [reflexivity|]. cbn. split; [apply next_tmp_file_new|]. split.
    + by rewrite lookup_insert_eq.
    + erewrite since_app; [|cbn; rewrite <- !app_assoc; reflexivity]. reflexivity.
  - rewrite H0 by lia. cbn. rewrite H1 by lia. cbn. rewrite H2 by lia. cbn.
    rewrite H3 by lia. cbn. rewrite Hat. cbn.
    eexists. split; [reflexivity|]. cbn. split; [apply next_tmp_file_new|]. split.
    + by rewrite lookup_insert_eq.
    + erewrite since_app; [|cbn; rewrite <- !app_assoc; reflexivity]. reflexivity.
Qed.

(* --------------------------------------------------------------------- *)
(** *** Retries *)

Lemma download_once_unsupported rc rj s3_path bucket key w :
  startswith "s3://" s3_path = true ->
  split1 "/" (replace "s3://" "" s3_path) = [bucket; key] ->
  supported_extension (extension_of key) = false ->
  download_s3_to_dataframe_once rc rj s3_path w =
    (Raise (unsupported_failure bucket key w), after_call (read_attempt s3_path bucket key) w).
Proof.
  intros Hp Hs He. unfold download_s3_to_dataframe_once, unsupported_failure, after_call.
  rewrite Hp, Hs. fold (extension_of key).
  unfold supported_extension in He.
  apply orb_false_iff in He as [[Hcsv Htxt]%orb_false_iff Hjson].
  rewrite Hcsv, Htxt, Hjson.
  unfold bind, call, log_info, emit, get, raise. cbn.
  destruct (faults w (calls w)); cbn.
  - by rewrite <- app_assoc.
  - destruct (s3 w !! (bucket, key)); cbn; by rewrite <- app_assoc.
Qed.

(** C3, as amended.  For an object whose extension is none of csv, txt,
    json, every attempt of the reader fails, the failure is retried like
    any other, and the reader gives up after [stop_after_attempt] = 5
    attempts, each with its own [get_object], separated by the waits of
    [wait_exponential], which stay within 1 and 30 seconds; what it raises
    is tenacity's [RetryError] around the failure of the last attempt,
    which is the unsupported-extension [ValueError] when that attempt
    fetched the object.  The store is not changed. *)
Theorem unsupported_extension_is_retried
    rc rj (s3_path bucket key : string) (w : World)
    (Hprefix : startswith "s3://" s3_path = true)
    (Hsplit : split1 "/" (replace "s3://" "" s3_path) = [bucket; key])
    (Hext : supported_extension (extension_of key) = false) :
  exists e w',
    download_s3_to_dataframe rc rj s3_path w = (Raise (RetryError e), w') /\
    since w w' =
      read_attempt s3_path bucket key ++ [OpSleep (wait_exponential 1)] ++
      read_attempt s3_path bucket key ++ [OpSleep (wait_exponential 2)] ++
      read_attempt s3_path bucket key ++ [OpSleep (wait_exponential 3)] ++
      read_attempt s3_path bucket key ++ [OpSleep (wait_exponential 4)] ++
      read_attempt s3_path bucket key /\
    (forall n, 1 <= wait_exponential n <= 30) /\
    length (List.filter is_get_object (since w w')) = stop_after_attempt /\
    s3 w' = s3 w /\
    (faults w (4 + calls w) = None -> is_Some (s3 w !! (bucket, key)) ->
     e = Exn ["ValueError"] ("Unsupported extension: " +:+ extension_of key)).
Proof.
  unfold download_s3_to_dataframe, retry, stop_after_attempt. cbn [Nat.sub attempts].
  unfold try_except, bind, emit, raise.
  repeat (rewrite (download_once_unsupported rc rj s3_path bucket key) by assumption;
          cbv beta iota).
  eexists _, _. split; [reflexivity|].
  assert (Hs : forall w1 : World, forall ops, trace w1 = trace w ++ ops -> since w w1 = ops)
    by (intros; by apply since_app).
  cbn. split; [|split; [|split; [|split; [done|]]]].
  - apply Hs. cbn. rewrite <- !app_assoc. reflexivity.
  - intros n. unfold wait_exponential. lia.
  - erewrite Hs; [|cbn; rewrite <- !app_assoc; reflexivity]. reflexivity.
  - intros Hf [b Hb]. unfold unsupported_failure. cbn. cbn in Hf. by rewrite Hf, Hb.
Qed.

(* --------------------------------------------------------------------- *)
(** *** The Postgres and spreadsheet flows *)

Lemma process_postgres_table_skip cfg md5 creds source_name processed t w :
  (exists identifier,
     postgres_identifier creds t = Ok identifier /\ py_contains identifier processed = Ok true) ->
  process_postgres_table cfg md5 creds source_name processed t w =
    (Ok processed, append_ops (table_skip_logs creds [t]) w).
Proof.
  intros (identifier & Hid & Hseen). unfold process_postgres_table, table_skip_logs.
  cbn [map]. unfold table_identifier. rewrite Hid.
  unfold bind at 1, lift at 1. unfold bind at 1, lift at 1. by rewrite Hseen.
Qed.

Lemma postgres_all_skipped cfg md5 creds source_name tables processed w :
  (forall t, t ∈ tables ->
     exists identifier,
       postgres_identifier creds t = Ok identifier /\ py_contains identifier processed = Ok true) ->
  for_each (process_postgres_table cfg md5 creds source_name) tables processed w =
    (Ok processed, append_ops (table_skip_logs creds tables) w).
Proof.
  revert w. induction tables as [|t tables IH]; intros w H.
  - simpl. unfold ret. by rewrite append_ops_nil.
  - cbn [for_each]. unfold bind.
    rewrite process_postgres_table_skip by (apply H; by left).
    rewrite IH by (intros t' Ht'; apply H; by right).
    by rewrite append_ops_app.
Qed.

Lemma table_skip_logs_no_flush creds tables :
  List.filter is_flush (table_skip_logs creds tables) = [].
Proof. induction tables; [done|]. simpl. done. Qed.

(** C5.  [process_postgres_tables] has no [new_processed] flag: with the
    manifest loaded and the identifier of every table already in it, each
    table is skipped and the manifest is flushed all the same, once. *)
Theorem postgres_flushes_when_all_skipped
    (cfg : Config) md5 (table_names : list string) (ssm_param source_name : string)
    (w : World) (doc creds : json)
    (Hexists : faults w (calls w) = None)
    (Hread : faults w (1 + calls w) = None)
    (Hssm_call : faults w (2 + calls w) = None)
    (Hmanifest : s3 w !! s3fs_split (PROCESSED_MANIFEST cfg) = Some (Json doc))
    (Hcreds : ssm w !! ssm_param = Some (Json creds))
    (Hcovered : forall t, t ∈ table_names ->
       exists identifier,
         postgres_identifier creds t = Ok identifier /\ py_contains identifier doc = Ok true) :
  exists w' last,
    process_postgres_tables cfg md5 table_names ssm_param source_name w = (Ok tt, w') /\
    since w w' =
      [OpFsExists (PROCESSED_MANIFEST cfg); OpFsRead (PROCESSED_MANIFEST cfg); OpSsmGet ssm_param]
      ++ table_skip_logs creds table_names
      ++ [OpFsWrite (PROCESSED_MANIFEST cfg); last] /\
    length (List.filter is_flush (since w w')) = 1.
Proof.
  cbn in Hread, Hssm_call.
  unfold process_postgres_tables, read_processed_manifest, get_ssm_param_json,
    write_processed_manifest.
  unfold bind at 1 2. unfold try_except at 1. unfold bind at 1 2 3, call at 1 2, get at 1, ret at 1.
  cbn. rewrite Hexists. cbn. rewrite Hmanifest. cbn. rewrite Hread. cbn.
  unfold bind at 1 2. unfold call at 1. cbn. rewrite Hssm_call. cbn. rewrite Hcreds. cbn.
  unfold bind at 1. rewrite postgres_all_skipped by exact Hcovered.
  unfold try_except, bind, call, set_s3, log_info, log_exception, emit. cbn.
  destruct (faults w (S (S (S (calls w))))); cbn.
  - eexists _, _. split; [reflexivity|]. cbn.
    erewrite since_app; [|cbn; rewrite <- !app_assoc; reflexivity].
    split; [reflexivity|]. cbn. rewrite List.filter_app, table_skip_logs_no_flush. done.
  - eexists _, _. split; [reflexivity|]. cbn.
    erewrite since_app; [|cbn; rewrite <- !app_assoc; reflexivity].
    split; [reflexivity|]. cbn. rewrite List.filter_app, table_skip_logs_no_flush. done.
Qed.

(** C4.  [process_google_sheet] has no [try]: a failure of the
    spreadsheet read leaves it as it was raised, and leaves
    [run_full_ingest] with it, in the world of the failure: the Postgres
    tables that follow are not reached. *)
Theorem sheet_failure_aborts_run
    (cfg : Config) rc rj md5 (w w1 w2 w3 : World) (doc : json) (e : exn)
    (Hbefore :
       (ensure_local_tmp cfg ;;;
        process_s3_prefix cfg rc rj md5 (CUSTOMERS_S3_PREFIX cfg) "customers" (Some ["csv"]) ;;;
        process_s3_prefix cfg rc rj md5 (CALL_LOGS_PREFIX cfg) "call_center_logs" (Some ["csv"]) ;;;
        process_s3_prefix cfg rc rj md5 (SOCIAL_PREFIX cfg) "social_media" (Some ["json"])) w
       = (Ok tt, w1))
    (Hload : read_processed_manifest cfg w1 = (Ok doc, w2))
    (Hnew : py_contains (sheet_identifier (GOOGLE_SHEET_ID cfg) (GOOGLE_SHEET_RANGE cfg)) doc
            = Ok false)
    (Hfail : extract_google_sheet_to_df (GOOGLE_SHEET_ID cfg) (GOOGLE_SHEET_RANGE cfg)
               (GOOGLE_SERVICE_ACCOUNT cfg) w2 = (Raise e, w3)) :
  process_google_sheet cfg md5 (GOOGLE_SHEET_ID cfg) (GOOGLE_SHEET_RANGE cfg) "agents"
    (GOOGLE_SERVICE_ACCOUNT cfg) w1 = (Raise e, w3) /\
  run_full_ingest cfg rc rj md5 w = (Raise e, w3).
Proof.
  assert (Hsheet : process_google_sheet cfg md5 (GOOGLE_SHEET_ID cfg) (GOOGLE_SHEET_RANGE cfg)
                     "agents" (GOOGLE_SERVICE_ACCOUNT cfg) w1 = (Raise e, w3)).
  { unfold process_google_sheet, bind. rewrite Hload.
    fold (sheet_identifier (GOOGLE_SHEET_ID cfg) (GOOGLE_SHEET_RANGE cfg)).
    rewrite Hnew. unfold lift. by rewrite Hfail. }
  split; [exact Hsheet|].
  unfold run_full_ingest. unfold bind in Hbefore |- *.
  destruct (ensure_local_tmp cfg w) as [[[]|e0] wa]; [|done].
  destruct (process_s3_prefix cfg rc rj md5 (CUSTOMERS_S3_PREFIX cfg) "customers" (Some ["csv"]) wa)
    as [[[]|e1] wb]; [|done].
  destruct (process_s3_prefix cfg rc rj md5 (CALL_LOGS_PREFIX cfg) "call_center_logs" (Some ["csv"]) wb)
    as [[[]|e2] wc]; [|done].
  rewrite Hbefore. by rewrite Hsheet.
Qed.

Lemma out_key_same_second cfg source_name base (d1 d2 : DT.datetime) :
  DT.year d1 = DT.year d2 -> DT.month d1 = DT.month d2 -> DT.day d1 = DT.day d2 ->
  DT.hour d1 = DT.hour d2 -> DT.minute d1 = DT.minute d2 -> DT.second d1 = DT.second d2 ->
  out_key_of cfg source_name base (DT.strftime_date d1) (DT.strftime_stamp d1) =
  out_key_of cfg source_name base (DT.strftime_date d2) (DT.strftime_stamp d2).
Proof.
  intros. unfold DT.strftime_date, DT.strftime_stamp. congruence.
Qed.

(** C9.  In each of the three flows, an item that is not yet in the
    manifest and whose read returns a dataset of zero rows is skipped: the
    turn returns normally with the manifest (and, for S3, the flag) it was
    given, its last call is the warning, and between the start of the
    turn and its end nothing wrote to the store or the scratch directory. *)
Theorem empty_dataset_is_skipped
    (cfg : Config) rc rj md5 (source_name : string) (file_ext_filter : option (list string))
    (st : json * bool) (obj : S3Object) (w w1 : World) (df : DataFrame)
    (creds processed : json) (table identifier : string)
    (wp wp1 : World) (dfp : DataFrame)
    (sheet_id range_name sa_path : string) (doc : json)
    (wg wg0 wg1 : World) (dfg : DataFrame)
    (Hkept : ext_filtered_out file_ext_filter (Key obj) = false)
    (Hnew : py_contains (s3_path_of obj) (fst st) = Ok false)
    (Hread : download_s3_to_dataframe rc rj (s3_path_of obj) w = (Ok df, w1))
    (Hrows : df_rows df = 0)
    (Hid : postgres_identifier creds table = Ok identifier)
    (Hnewp : py_contains identifier processed = Ok false)
    (Hreadp : extract_postgres_table_to_df cfg table creds wp = (Ok dfp, wp1))
    (Hrowsp : df_rows dfp = 0)
    (Hload : read_processed_manifest cfg wg = (Ok doc, wg0))
    (Hnewg : py_contains (sheet_identifier sheet_id range_name) doc = Ok false)
    (Hreadg : extract_google_sheet_to_df sheet_id range_name sa_path wg0 = (Ok dfg, wg1))
    (Hrowsg : df_rows dfg = 0) :
  (exists w',
     process_s3_object cfg rc rj md5 source_name file_ext_filter st obj w = (Ok st, w') /\
     reads_only w w' /\
     last (trace w') =
       Some (OpLog "WARNING" ("Empty dataframe for " +:+ s3_path_of obj +:+ ", skipping"))) /\
  (exists w',
     process_postgres_table cfg md5 creds source_name processed table wp = (Ok processed, w') /\
     reads_only wp w' /\
     last (trace w') = Some (OpLog "WARNING" ("Empty table " +:+ table +:+ ", skipping"))) /\
  (exists w',
     process_google_sheet cfg md5 sheet_id range_name source_name sa_path wg = (Ok tt, w') /\
     reads_only wg w' /\
     last (trace w') =
       Some (OpLog "WARNING" ("Empty google sheet " +:+ sheet_identifier sheet_id range_name))).
Proof.
  split; [|split].
  - destruct (process_s3_object_empty cfg rc rj md5 source_name file_ext_filter st obj w df w1)
      as [Hrun Hro]; try done.
    eexists. split; [exact Hrun|]. split; [by apply reads_only_append_trace|].
    cbn. by rewrite last_snoc.
  - destruct (process_postgres_table_empty cfg md5 creds source_name processed table identifier
                wp dfp wp1)
      as [Hrun Hro]; try done.
    eexists. split; [exact Hrun|]. split; [by apply reads_only_append_trace|].
    cbn. by rewrite last_snoc.
  - destruct (process_google_sheet_empty cfg md5 sheet_id range_name source_name sa_path
                wg doc wg0 dfg wg1) as [Hrun Hro]; try done.
    eexists. split; [exact Hrun|]. split; [by apply reads_only_append_trace|].
    cbn. by rewrite last_snoc.
Qed.

Lemma empty_dataset_is_skipped_witness :
  let w := Demo.world Demo.customers Demo.no_faults in
  let wp := Demo.world ∅ Demo.no_faults in
  (exists w',
     process_s3_object Demo.config Demo.read_csv Demo.read_json Demo.md5 "customers"
       (Some ["csv"]) (JObj [], false) Demo.empty_item w = (Ok (JObj [], false), w') /\
     reads_only w w') /\
  (exists w',
     process_postgres_table Demo.config Demo.md5 Demo.credentials "customers" (JObj [])
       Demo.web_form_table wp = (Ok (JObj []), w') /\
     reads_only wp w') /\
  (exists w',
     process_google_sheet Demo.config Demo.md5 "sheet1" "Agents!A1:Z999" "customers"
       "/secrets/gcp-sa.json" wp = (Ok tt, w') /\
     reads_only wp w').
Proof.
  intros w wp.
  destruct (empty_dataset_is_skipped Demo.config Demo.read_csv Demo.read_json Demo.md5
              "customers" (Some ["csv"]) (JObj [], false) Demo.empty_item
              w (snd (download_s3_to_dataframe Demo.read_csv Demo.read_json
                        (s3_path_of Demo.empty_item) w))
              Demo.empty_csv_frame
              Demo.credentials (JObj []) Demo.web_form_table
              "postgres://db.internal/complaints/web_form_request_2025_11_20"
              wp (snd (extract_postgres_table_to_df Demo.config Demo.web_form_table
                         Demo.credentials wp))
              Demo.empty_table_frame
              "sheet1" "Agents!A1:Z999" "/secrets/gcp-sa.json" (JObj [])
              wp (snd (read_processed_manifest Demo.config wp))
              (snd (extract_google_sheet_to_df "sheet1" "Agents!A1:Z999" "/secrets/gcp-sa.json"
                      (snd (read_processed_manifest Demo.config wp))))
              Demo.header_only_frame)
    as (H1 & H2 & H3); try (vm_compute; reflexivity).
  destruct H1 as (w1 & E1 & R1 & _), H2 as (w2 & E2 & R2 & _), H3 as (w3 & E3 & R3 & _).
  split; [exists w1; split; [exact E1|exact R1]|].
  split; [exists w2; split; [exact E2|exact R2]|exists w3; split; [exact E3|exact R3]].
Defined.

(* --------------------------------------------------------------------- *)
(** *** Concrete runs *)

Lemma unsupported_extension_is_retried_witness :
  exists e w',
    download_s3_to_dataframe Demo.read_csv Demo.read_json Demo.xml_item_path
      (Demo.world Demo.customers Demo.no_faults) = (Raise (RetryError e), w') /\
    length (List.filter is_get_object (since (Demo.world Demo.customers Demo.no_faults) w')) = 5.
Proof.
  destruct (unsupported_extension_is_retried Demo.read_csv Demo.read_json
              Demo.xml_item_path "src" "customers/c.xml"
              (Demo.world Demo.customers Demo.no_faults))
    as (e & w' & Hrun & _ & _ & Hn & _); try (vm_compute; reflexivity).
  exists e, w'. split; assumption.
Defined.

Lemma scratch_file_left_after_failed_upload_witness :
  let w := Demo.world ∅ (Demo.fault_at 3) in
  exists w',
    write_parquet_to_s3_atomic Demo.config Demo.one_email_frame
      "s3://my-raw-bucket/raw/agents/x.parquet" None w
      = (Raise (Exn ["ClientError"] "RequestTimeout"), w') /\
    scratch w !! next_tmp_file w = None /\
    scratch w' !! next_tmp_file w = Some (Parquet Demo.one_email_frame).
Proof.
  intros w.
  destruct (scratch_file_left_after_failed_upload Demo.config Demo.one_email_frame
              "s3://my-raw-bucket/raw/agents/x.parquet" "my-raw-bucket" "raw/agents/x.parquet"
              None w (Exn ["ClientError"] "RequestTimeout") 3)
    as (w' & Hrun & Hnew & Hleft & _).
  - vm_compute; reflexivity.
  - by left.
  - intros n Hn. destruct n as [|[|[|n]]]; [reflexivity..|lia].
  - vm_compute; reflexivity.
  - exists w'. repeat split; assumption.
Defined.

Lemma postgres_flushes_when_all_skipped_witness :
  let w := Demo.world Demo.with_table_manifest Demo.no_faults in
  exists w',
    process_postgres_tables Demo.config Demo.md5 [Demo.web_form_table]
      "/customer_complaints/db_credentials" "web_forms" w = (Ok tt, w') /\
    length (List.filter is_flush (since w w')) = 1.
Proof.
  intros w.
  destruct (postgres_flushes_when_all_skipped Demo.config Demo.md5 [Demo.web_form_table]
              "/customer_complaints/db_credentials" "web_forms" w
              Demo.table_manifest Demo.credentials)
    as (w' & last & Hrun & _ & Hn); try (vm_compute; reflexivity).
  - intros t Ht. apply list_elem_of_singleton in Ht. subst t.
    exists "postgres://db.internal/complaints/web_form_request_2025_11_20".
    split; vm_compute; reflexivity.
  - exists w'. split; assumption.
Defined.

Lemma sheet_failure_aborts_run_witness :
  let w := Demo.world ∅ (Demo.fault_at 8) in
  parse_table_names (POSTGRES_TABLES Demo.config) = [Demo.web_form_table] /\
  exists w',
    run_full_ingest Demo.config Demo.read_csv Demo.read_json Demo.md5 w
      = (Raise (Exn ["ClientError"] "RequestTimeout"), w') /\
    List.filter Demo.is_postgres_call (trace w') = [].
Proof.
  intros w. split; [vm_compute; reflexivity|].
  pose (w1 := snd (Demo.prefixes_of_run w)).
  pose (w2 := snd (read_processed_manifest Demo.config w1)).
  pose (w3 := snd (extract_google_sheet_to_df "sheet1" "Agents!A1:Z999" "/secrets/gcp-sa.json" w2)).
  destruct (sheet_failure_aborts_run Demo.config Demo.read_csv Demo.read_json Demo.md5
              w w1 w2 w3 (JObj []) (Exn ["ClientError"] "RequestTimeout"))
    as [_ Hrun]; try (vm_compute; reflexivity).
  exists w3. split; [exact Hrun|vm_compute; reflexivity].
Defined.

Lemma clean_email_non_string_witness :
  is_str VNaN = false /\ clean_email VNaN = VNone.
Proof. split; [reflexivity|apply (clean_email_non_string VNaN); reflexivity]. Defined.

(** C3 as stated fails on an [.xml] object that can be fetched: five
    reads, four waits, and the error that leaves the reader is
    tenacity's, not the [ValueError]. *)
Lemma unsupported_extension_counterexample :
  let w := Demo.world Demo.customers Demo.no_faults in
  let r := download_s3_to_dataframe Demo.read_csv Demo.read_json Demo.xml_item_path w in
  supported_extension (extension_of "customers/c.xml") = false /\
  fst r = Raise (RetryError (Exn ["ValueError"] "Unsupported extension: xml")) /\
  fst r <> Raise (Exn ["ValueError"] "Unsupported extension: xml") /\
  length (List.filter is_get_object (trace (snd r))) = 5 /\
  length (List.filter is_get_object (trace (snd r))) <> 1 /\
  length (List.filter Demo.is_sleep (trace (snd r))) = 4.
Proof. vm_compute. repeat split; try reflexivity; discriminate. Qed.

(** C2.  The output key stops at the second.  A first pass commits the
    artifact of [customers/a.csv] and loses its manifest flush; the pass
    that follows, at other instants of the same second, finds no manifest,
    writes the same item again and builds the very same key: the upload
    replaces the artifact of the first pass. *)
Theorem same_second_rewrite_overwrites :
  let key := ("my-raw-bucket", "raw/customers/date=2025-11-26/a_20251126120000.parquet") in
  List.filter Demo.is_upload (trace Demo.after_lost_flush)
    = [OpUploadFile "0" (fst key) (snd key)] /\
  s3 Demo.after_lost_flush !! s3fs_split (PROCESSED_MANIFEST Demo.config) = None /\
  List.filter Demo.is_upload (since Demo.after_lost_flush Demo.after_rerun)
    = [OpUploadFile "0" (fst key) (snd key)] /\
  Demo.artifacts Demo.after_rerun = [key] /\
  is_Some (s3 Demo.after_lost_flush !! key) /\
  s3 Demo.after_rerun !! key <> s3 Demo.after_lost_flush !! key.
Proof.
  vm_compute. repeat split; try reflexivity; [eauto|congruence].
Qed.

(** Within one pass as well: two objects whose names agree up to the first
    dot, handled in the same second, are both recorded in the manifest but
    leave a single artifact. *)
Lemma namesake_items_share_a_key :
  Demo.artifacts Demo.after_namesakes
    = [("my-raw-bucket", "raw/customers/date=2025-11-26/a_20251126120000.parquet")] /\
  length (List.filter Demo.is_upload (trace Demo.after_namesakes)) = 2.
Proof. vm_compute. split; reflexivity. Qed.

(* --------------------------------------------------------------------- *)
(** *** The writer, and when the manifest is flushed *)

(** When the writer returns, the data file and its sidecar are in the
    store under the key it was given, the scratch directory is as it
    was, and the calls are those of the success path. *)
Lemma write_parquet_to_s3_atomic_returns cfg df s3_output_path metadata w out w' :
  write_parquet_to_s3_atomic cfg df s3_output_path metadata w = (Ok out, w') ->
  exists bucket key,
    split1 "/" (replace "s3://" "" s3_output_path) = [bucket; key] /\
    out = "s3://" +:+ bucket +:+ "/" +:+ key /\
    s3 w' = <[(bucket, key +:+ ".metadata.json") := JsonMetadata metadata]>
              (<[(bucket, key) := Parquet df]> (s3 w)) /\
    scratch w' = scratch w /\
    since w w' = writer_calls cfg (next_tmp_file w) bucket key.
Proof.
  unfold write_parquet_to_s3_atomic, ensure_local_tmp, named_temporary_file.
  fold (next_tmp_file w).
  destruct (split1 "/" (replace "s3://" "" s3_output_path)) as [|bucket [|key [|? ?]]] eqn:Hs;
    unfold bind, call, get, set_scratch, set_s3, log_info, emit, ret, raise; cbn;
    fold (next_tmp_file w); intros H;
    repeat (match type of H with
            | context [match faults w ?n with _ => _ end] =>
                destruct (faults w n); cbn in H; [discriminate H|]
            end);
    try discriminate H.
  inversion H; subst; clear H. exists bucket, key. cbn.
  repeat split; try reflexivity.
  - by rewrite lookup_insert_eq.
  - rewrite delete_insert_eq, delete_insert_eq. apply delete_id, next_tmp_file_new.
  - apply since_app. cbn. rewrite <- !app_assoc. reflexivity.
Qed.

Lemma trace_grows_emit P op : P op = true -> respects (trace_grows P) (emit op).
Proof. intros H w. exists [op]. split; [done|]. simpl. by rewrite H. Qed.

Lemma trace_grows_call P op : P op = true -> respects (trace_grows P) (call op).
Proof.
  intros H w. unfold call. exists [op].
  split; [by destruct (faults w (calls w))|]. simpl. by rewrite H.
Qed.

Lemma trace_grows_silent P {A} (m : M A) :
  (forall w, trace (snd (m w)) = trace w) -> respects (trace_grows P) m.
Proof. intros H w. exists []. by rewrite H, app_nil_r. Qed.

Ltac grows_step :=
  first
    [ apply respects_ret; exact (trace_grows_refl _)
    | apply respects_raise; exact (trace_grows_refl _)
    | apply respects_lift; exact (trace_grows_refl _)
    | apply respects_get; exact (trace_grows_refl _)
    | apply trace_grows_emit; reflexivity
    | apply trace_grows_call; reflexivity
    | apply trace_grows_silent; reflexivity
    | apply respects_bind; [exact (trace_grows_trans _)| |intros ?]
    | apply respects_try_except; [exact (trace_grows_trans _)| |intros ?]
    | apply respects_try_finally; [exact (trace_grows_trans _)| |]
    | apply respects_attempts;
        [exact (trace_grows_refl _)|exact (trace_grows_trans _)| |intros ?]
    | apply respects_for_each; [exact (trace_grows_refl _)|exact (trace_grows_trans _)|intros ? ?]
    | match goal with |- respects _ (match ?x with _ => _ end) => destruct x end
    | match goal with |- respects _ (if ?x then _ else _) => destruct x end ].

Ltac grows_tac := repeat grows_step.

Lemma process_s3_object_no_flush cfg rc rj md5 source_name file_ext_filter st obj :
  respects (trace_grows not_flush)
    (process_s3_object cfg rc rj md5 source_name file_ext_filter st obj).
Proof.
  unfold process_s3_object, download_s3_to_dataframe, retry, download_s3_to_dataframe_once,
    email_hygiene, write_parquet_to_s3_atomic, ensure_local_tmp, named_temporary_file,
    log_info, log_warning, log_exception.
  cbv zeta. grows_tac.
Qed.

Lemma s3_loop_no_flush cfg rc rj md5 source_name file_ext_filter objs st :
  respects (trace_grows not_flush)
    (for_each (process_s3_object cfg rc rj md5 source_name file_ext_filter) objs st).
Proof.
  apply respects_for_each;
    [exact (trace_grows_refl _)|exact (trace_grows_trans _)|].
  intros. apply process_s3_object_no_flush.
Qed.

Lemma s3_loop_flag cfg rc rj md5 source_name file_ext_filter objs st w st' w' :
  for_each (process_s3_object cfg rc rj md5 source_name file_ext_filter) objs st w = (Ok st', w') ->
  snd st' = false -> st' = st.
Proof.
  revert st w. induction objs as [|obj objs IH]; intros st w.
  - cbn. intros H _. by inversion H.
  - cbn [for_each]. intros Hloop Hflag.
    apply bind_ok_inv in Hloop as (st1 & w1 & Hturn & Hloop).
    specialize (IH st1 w1 Hloop Hflag). subst st'.
    apply process_s3_object_inv in Hturn as [->|(d & md & _ & _ & -> & _)]; [done|].
    cbn in Hflag. discriminate.
Qed.

Lemma filter_flush_grows (l : list Op) :
  forallb not_flush l = true -> List.filter is_flush l = [].
Proof.
  induction l as [|op l IH]; [done|]. cbn.
  intros [Hop Hl]%andb_true_iff. unfold not_flush in Hop.
  apply negb_true_iff in Hop. rewrite Hop. by apply IH.
Qed.

(** The S3 flow flushes the manifest once when its loop ended with
    [new_processed] set, which the loop does exactly when it added a
    record, and not at all otherwise. *)
Lemma s3_flush_follows_commit cfg rc rj md5 source_name file_ext_filter objs processed w st w1 :
  for_each (process_s3_object cfg rc rj md5 source_name file_ext_filter) objs (processed, false) w
    = (Ok st, w1) ->
  let w' := snd ((if snd st then write_processed_manifest cfg (fst st) else ret tt) w1) in
  length (List.filter is_flush (since w w')) = (if snd st then 1 else 0) /\
  (snd st = false -> fst st = processed).
Proof.
  intros Hloop w'. split.
  2:{ intros Hflag. by rewrite (s3_loop_flag _ _ _ _ _ _ _ _ _ _ _ Hloop Hflag). }
  pose proof (s3_loop_no_flush cfg rc rj md5 source_name file_ext_filter objs (processed, false) w)
    as (ops & Htrace & Hops).
  rewrite Hloop in Htrace. cbn in Htrace.
  subst w'. destruct (snd st).
  - unfold write_processed_manifest, try_except, bind, call, set_s3, log_info, log_exception, emit.
    cbn. destruct (faults w1 (calls w1)); cbn.
    + erewrite since_app; [|cbn; rewrite Htrace, <- !app_assoc; reflexivity].
      by rewrite List.filter_app, (filter_flush_grows _ Hops).
    + erewrite since_app; [|cbn; rewrite Htrace, <- !app_assoc; reflexivity].
      by rewrite List.filter_app, (filter_flush_grows _ Hops).
  - cbn. erewrite since_app; [|exact Htrace].
    by rewrite (filter_flush_grows _ Hops).
Qed.

Lemma append_nonempty_neq (k s : string) : s <> "" -> k +:+ s <> k.
Proof.
  intros Hs. induction k as [|c k IH].
  - done.
  - intros H. cbv beta iota fix delta [String.append] in H.
    injection H as H. by apply IH.
Qed.

(** A turn of the S3 loop changes the loop state only after the writer
    returned: the data file and the sidecar that carries the new record
    are then in the store. *)
Lemma process_s3_object_commit cfg rc rj md5 source_name file_ext_filter st obj w st' w' :
  process_s3_object cfg rc rj md5 source_name file_ext_filter st obj w = (Ok st', w') ->
  st' <> st ->
  exists md bucket key df d,
    fst st = JObj d /\
    st' = (JObj (dict_set (s3_path_of obj) (metadata_json md) d), true) /\
    source_path md = s3_path_of obj /\
    record_count md = df_rows df /\
    s3 w' !! (bucket, key) = Some (Parquet df) /\
    s3 w' !! (bucket, key +:+ ".metadata.json") = Some (JsonMetadata (Some md)).
Proof.
  unfold process_s3_object. fold (s3_path_of obj).
  destruct (ext_filtered_out file_ext_filter (Key obj)).
  { intros H Hne. inversion H. congruence. }
  unfold bind at 1, lift at 1.
  destruct (py_contains (s3_path_of obj) (fst st)) as [seen|e0]; [|discriminate].
  destruct seen.
  { intros H Hne. inversion H. congruence. }
  unfold try_except.
  match goal with |- context [match ?body w with _ => _ end] =>
    destruct (body w) as [[st1|e] w1] eqn:Hbody end.
  2:{ intros H Hne. inversion H. congruence. }
  intros H Hne. inversion H; subst st1 w1; clear H.
  apply bind_ok_inv in Hbody as (df & w2 & _ & Hbody).
  destruct (df_empty df).
  { apply bind_ok_inv in Hbody as ([] & w3 & _ & Hret). inversion Hret. congruence. }
  apply bind_ok_inv in Hbody as (df1 & w3 & _ & Hbody).
  apply bind_ok_inv in Hbody as (now1 & w4 & _ & Hbody).
  apply bind_ok_inv in Hbody as (now2 & w5 & _ & Hbody).
  apply bind_ok_inv in Hbody as (now3 & w6 & _ & Hbody).
  apply bind_ok_inv in Hbody as (out & w7 & Hwrite & Hbody).
  apply bind_ok_inv in Hbody as (doc' & w8 & Hset & Hret).
  apply lift_ok_inv in Hset as [Hset ->].
  apply py_setitem_ok in Hset as (d & Hd & ->).
  inversion Hret; subst; clear Hret.
  apply write_parquet_to_s3_atomic_returns in Hwrite
    as (bucket & key & _ & _ & Hs3 & _ & _).
  eexists _, bucket, key, _, d. split; [exact Hd|]. split; [reflexivity|].
  split; [reflexivity|]. split; [reflexivity|]. rewrite Hs3. split.
  - rewrite lookup_insert_ne; [by rewrite lookup_insert_eq|].
    intros [=H]. by apply (append_nonempty_neq key ".metadata.json").
  - by rewrite lookup_insert_eq.
Qed.

(** The spreadsheet flow on a range whose identifier is already in the
    manifest: one log line, nothing written. *)
Lemma process_google_sheet_skip cfg md5 sheet_id range_name source_name sa_path w doc w0 :
  read_processed_manifest cfg w = (Ok doc, w0) ->
  py_contains (sheet_identifier sheet_id range_name) doc = Ok true ->
  process_google_sheet cfg md5 sheet_id range_name source_name sa_path w =
    (Ok tt, append_trace
              (OpLog "INFO" ("Skipping already processed google sheet "
                             +:+ sheet_identifier sheet_id range_name)) w0)
  /\ reads_only w w0.
Proof.
  intros Hload Hin. split.
  - unfold process_google_sheet, bind. rewrite Hload.
    fold (sheet_identifier sheet_id range_name). by rewrite Hin.
  - pose proof (read_processed_manifest_reads_only cfg w) as H. by rewrite Hload in H.
Qed.

(* --------------------------------------------------------------------- *)
(** *** Output keys and the clock *)

Lemma digit_eq a b : DT.digit a = DT.digit b -> a mod 10 = b mod 10.
Proof.
  unfold DT.digit. intros H. apply (f_equal nat_of_ascii) in H.
  rewrite !nat_ascii_embedding in H.
  - lia.
  - pose proof (Nat.mod_upper_bound b 10). lia.
  - pose proof (Nat.mod_upper_bound a 10). lia.
Qed.

Lemma pad2_eq n m : DT.pad2 n = DT.pad2 m -> n mod 100 = m mod 100.
Proof.
  unfold DT.pad2. intros H.
  assert (H1 : DT.digit (n / 10) = DT.digit (m / 10)) by congruence.
  assert (H2 : DT.digit n = DT.digit m) by congruence.
  apply digit_eq in H1, H2.
  pose proof (Nat.div_mod_eq n 10). pose proof (Nat.div_mod_eq (n / 10) 10).
  pose proof (Nat.div_mod_eq n 100). pose proof (Nat.div_mod_eq m 10).
  pose proof (Nat.div_mod_eq (m / 10) 10). pose proof (Nat.div_mod_eq m 100).
  pose proof (Nat.mod_upper_bound n 10). pose proof (Nat.mod_upper_bound (n / 10) 10).
  pose proof (Nat.mod_upper_bound n 100). pose proof (Nat.mod_upper_bound m 10).
  pose proof (Nat.mod_upper_bound (m / 10) 10). pose proof (Nat.mod_upper_bound m 100).
  generalize dependent (n mod 100). generalize dependent (m mod 100).
  generalize dependent (n / 100). generalize dependent (m / 100).
  generalize dependent (n mod 10). generalize dependent (m mod 10).
  generalize dependent (n / 10 mod 10). generalize dependent (m / 10 mod 10).
  generalize dependent (n / 10 / 10). generalize dependent (m / 10 / 10).
  generalize dependent (n / 10). generalize dependent (m / 10).
  intros. lia.
Qed.

Lemma pad2_inj n m : n < 100 -> m < 100 -> DT.pad2 n = DT.pad2 m -> n = m.
Proof.
  intros Hn Hm H%pad2_eq. by rewrite !Nat.mod_small in H.
Qed.

Lemma pad2_app_inj a b (s t : string) :
  DT.pad2 a +:+ s = DT.pad2 b +:+ t -> DT.pad2 a = DT.pad2 b /\ s = t.
Proof.
  unfold DT.pad2.
  generalize (DT.digit (a / 10)) (DT.digit a) (DT.digit (b / 10)) (DT.digit b).
  intros c1 c2 c3 c4 H. cbv beta iota fix delta [String.append] in H. by injection H as -> -> ->.
Qed.

Lemma pad4_app_inj a b (s t : string) :
  DT.pad4 a +:+ s = DT.pad4 b +:+ t ->
  DT.pad2 (a / 100) = DT.pad2 (b / 100) /\ DT.pad2 a = DT.pad2 b /\ s = t.
Proof.
  unfold DT.pad4, DT.pad2.
  generalize (DT.digit (a / 100 / 10)) (DT.digit (a / 100)) (DT.digit (a / 10)) (DT.digit a)
             (DT.digit (b / 100 / 10)) (DT.digit (b / 100)) (DT.digit (b / 10)) (DT.digit b).
  intros c1 c2 c3 c4 c5 c6 c7 c8 H. cbv beta iota fix delta [String.append] in H.
  by injection H as -> -> -> -> ->.
Qed.

Lemma year_digits_inj n m :
  n < 100 * 100 -> m < 100 * 100 ->
  DT.pad2 (n / 100) = DT.pad2 (m / 100) -> DT.pad2 n = DT.pad2 m -> n = m.
Proof.
  intros Hn Hm H1 H2. apply pad2_eq in H1, H2.
  pose proof (Nat.div_mod_eq n 100). pose proof (Nat.div_mod_eq m 100).
  pose proof (Nat.div_mod_eq (n / 100) 100). pose proof (Nat.div_mod_eq (m / 100) 100).
  pose proof (Nat.mod_upper_bound n 100). pose proof (Nat.mod_upper_bound m 100).
  pose proof (Nat.mod_upper_bound (n / 100) 100). pose proof (Nat.mod_upper_bound (m / 100) 100).
  generalize dependent (n mod 100). generalize dependent (m mod 100).
  generalize dependent (n / 100 mod 100). generalize dependent (m / 100 mod 100).
  generalize dependent (n / 100 / 100). generalize dependent (m / 100 / 100).
  generalize dependent (n / 100). generalize dependent (m / 100).
  intros. lia.
Qed.

(** Distinct seconds give distinct stamps. *)
Lemma strftime_stamp_inj d1 d2 :
  calendar d1 -> calendar d2 ->
  DT.strftime_stamp d1 = DT.strftime_stamp d2 -> same_second d1 d2.
Proof.
  intros (Hy1 & Hm1 & Hd1 & Hh1 & Hi1 & Hs1) (Hy2 & Hm2 & Hd2 & Hh2 & Hi2 & Hs2).
  unfold DT.strftime_stamp. intros H.
  apply pad4_app_inj in H as (Hc & Hy & H).
  apply pad2_app_inj in H as (Hm & H).
  apply pad2_app_inj in H as (Hd & H).
  apply pad2_app_inj in H as (Hh & H).
  apply pad2_app_inj in H as (Hi & Hs).
  repeat split; try (apply pad2_inj; [lia|lia|assumption]).
  apply year_digits_inj; [lia|lia|done|done].
Qed.

Lemma strftime_date_app_inj d1 d2 (s t : string) :
  DT.strftime_date d1 +:+ s = DT.strftime_date d2 +:+ t -> s = t.
Proof.
  unfold DT.strftime_date, DT.pad4, DT.pad2.
  generalize (DT.digit (DT.year d1 / 100 / 10)) (DT.digit (DT.year d1 / 100))
             (DT.digit (DT.year d1 / 10)) (DT.digit (DT.year d1))
             (DT.digit (DT.month d1 / 10)) (DT.digit (DT.month d1))
             (DT.digit (DT.day d1 / 10)) (DT.digit (DT.day d1))
             (DT.digit (DT.year d2 / 100 / 10)) (DT.digit (DT.year d2 / 100))
             (DT.digit (DT.year d2 / 10)) (DT.digit (DT.year d2))
             (DT.digit (DT.month d2 / 10)) (DT.digit (DT.month d2))
             (DT.digit (DT.day d2 / 10)) (DT.digit (DT.day d2)).
  intros. cbv beta iota fix delta [String.append] in H. by injection H.
Qed.

(** For one source name and one base name, keys built from stamps of
    different seconds differ, whatever the dates of the partition. *)
Lemma out_key_distinct_seconds cfg source_name base (date1 stamp1 date2 stamp2 : DT.datetime) :
  calendar stamp1 -> calendar stamp2 ->
  out_key_of cfg source_name base (DT.strftime_date date1) (DT.strftime_stamp stamp1) =
  out_key_of cfg source_name base (DT.strftime_date date2) (DT.strftime_stamp stamp2) ->
  same_second stamp1 stamp2.
Proof.
  intros Hc1 Hc2 H. unfold out_key_of in H.
  do 4 apply (inj (String.append _)) in H.
  apply strftime_date_app_inj in H.
  do 3 apply (inj (String.append _)) in H.
  apply strftime_stamp_inj; [done|done|].
  unfold DT.strftime_stamp, DT.pad4, DT.pad2 in *.
  revert H.
  generalize (DT.digit (DT.year stamp1 / 100 / 10)) (DT.digit (DT.year stamp1 / 100))
             (DT.digit (DT.year stamp1 / 10)) (DT.digit (DT.year stamp1))
             (DT.digit (DT.month stamp1 / 10)) (DT.digit (DT.month stamp1))
             (DT.digit (DT.day stamp1 / 10)) (DT.digit (DT.day stamp1))
             (DT.digit (DT.hour stamp1 / 10)) (DT.digit (DT.hour stamp1))
             (DT.digit (DT.minute stamp1 / 10)) (DT.digit (DT.minute stamp1))
             (DT.digit (DT.second stamp1 / 10)) (DT.digit (DT.second stamp1))
             (DT.digit (DT.year stamp2 / 100 / 10)) (DT.digit (DT.year stamp2 / 100))
             (DT.digit (DT.year stamp2 / 10)) (DT.digit (DT.year stamp2))
             (DT.digit (DT.month stamp2 / 10)) (DT.digit (DT.month stamp2))
             (DT.digit (DT.day stamp2 / 10)) (DT.digit (DT.day stamp2))
             (DT.digit (DT.hour stamp2 / 10)) (DT.digit (DT.hour stamp2))
             (DT.digit (DT.minute stamp2 / 10)) (DT.digit (DT.minute stamp2))
             (DT.digit (DT.second stamp2 / 10)) (DT.digit (DT.second stamp2)).
  intros. cbv beta iota fix delta [String.append] in H. injection H. intros. by subst.
Qed.

(* --------------------------------------------------------------------- *)
(** *** A sheet with a short row *)

(** No call fails here: the data row is shorter than the header, the
    frame constructor refuses it, and the error leaves the run before the
    configured Postgres table is looked at. *)
Lemma ragged_sheet_aborts_run :
  let r := run_full_ingest Demo.config Demo.read_csv Demo.read_json Demo.md5
             Demo.ragged_sheet_world in
  fst r = Raise (Exn ["ValueError"] "2 columns passed, passed data had 1 columns") /\
  List.filter Demo.is_postgres_call (trace (snd r)) = [].
Proof. vm_compute. split; reflexivity. Qed.

(* --------------------------------------------------------------------- *)
(** *** The manifest document *)

Lemma read_processed_manifest_returns cfg w :
  exists doc w', read_processed_manifest cfg w = (Ok doc, w').
Proof.
  unfold read_processed_manifest, try_except, bind, call, get, ret, raise, lift,
    log_exception_of, emit.
  cbn. destruct (faults w (calls w)); cbn; [eauto|].
  destruct (s3 w !! s3fs_split (PROCESSED_MANIFEST cfg)) as [blob|]; cbn; [|eauto].
  destruct (faults w (S (calls w))); cbn; [eauto|]. destruct blob; cbn; eauto.
Qed.

Lemma write_processed_manifest_returns cfg m w :
  exists w', write_processed_manifest cfg m w = (Ok tt, w').
Proof.
  unfold write_processed_manifest, try_except, bind, call, set_s3, log_info, log_exception, emit.
  cbn. destruct (faults w (calls w)); cbn; eauto.
Qed.

(** X1.  [read_processed_manifest] never raises and writes nothing, and
    what it returns and logs is settled case by case.  When the
    existence test fails, it logs the failure with the exception and
    returns the empty dict.  When there is no document it returns the
    empty dict after that one call, with nothing logged.  When the read
    fails, again the failure is logged and the empty dict returned.
    When the content is a JSON document it is returned as it is, dict or
    not, after the two calls and with nothing logged; any other content
    is a decoding failure, logged, and the empty dict is returned. *)
Theorem read_processed_manifest_degrades (cfg : Config) (w : World) :
  let run := read_processed_manifest cfg w in
  let looked := OpFsExists (PROCESSED_MANIFEST cfg) in
  let opened := OpFsRead (PROCESSED_MANIFEST cfg) in
  let failed := OpLogExc "Failed to read processed manifest: %s" in
  reads_only w (snd run) /\
  match faults w (calls w) with
  | Some e => fst run = Ok (JObj []) /\ since w (snd run) = [looked; failed e]
  | None =>
      match s3 w !! manifest_key cfg with
      | None => fst run = Ok (JObj []) /\ since w (snd run) = [looked]
      | Some blob =>
          match faults w (1 + calls w) with
          | Some e => fst run = Ok (JObj []) /\ since w (snd run) = [looked; opened; failed e]
          | None =>
              match blob with
              | Json doc => fst run = Ok doc /\ since w (snd run) = [looked; opened]
              | _ => fst run = Ok (JObj []) /\
                     since w (snd run) = [looked; opened; failed (DecodeError blob)]
              end
          end
      end
  end.
Proof.
  cbv zeta. split; [apply read_processed_manifest_reads_only|].
  unfold read_processed_manifest, manifest_key.
  unfold try_except, bind, call, get, ret, raise, lift, log_exception_of, emit. cbn.
  assert (Hs : forall (w0 : World) ops, trace w0 = trace w ++ ops -> since w w0 = ops)
    by (intros; by apply since_app).
  destruct (faults w (calls w)); cbn.
  { split; [done|]. apply Hs. cbn. by rewrite <- !app_assoc. }
  destruct (s3 w !! s3fs_split (PROCESSED_MANIFEST cfg)) as [blob|]; cbn.
  2:{ split; [done|]. by apply Hs. }
  destruct (faults w (S (calls w))); cbn.
  { split; [done|]. apply Hs. cbn. by rewrite <- !app_assoc. }
  destruct blob; cbn; (split; [done|]); apply Hs; cbn; by rewrite <- !app_assoc.
Qed.

(** X2.  [write_processed_manifest] never raises and issues one write.
    When the write succeeds the store holds the manifest under the
    manifest key and no error is logged; when it fails the store is as
    before and the failure is only logged: the caller cannot tell. *)
Theorem write_processed_manifest_swallows_failure (cfg : Config) (m : json) (w : World) :
  exists w',
    write_processed_manifest cfg m w = (Ok tt, w') /\
    scratch w' = scratch w /\
    length (List.filter is_flush (since w w')) = 1 /\
    match faults w (calls w) with
    | None =>
        s3 w' = <[manifest_key cfg := Json m]> (s3 w) /\
        List.filter is_error_log (since w w') = []
    | Some _ =>
        s3 w' = s3 w /\
        since w w' = [OpFsWrite (PROCESSED_MANIFEST cfg);
                      OpLog "ERROR" "Failed to write processed manifest"]
    end.
Proof.
  unfold write_processed_manifest, manifest_key.
  unfold try_except, bind, call, set_s3, log_info, log_exception, emit. cbn.
  destruct (faults w (calls w)); cbn; eexists; (split; [reflexivity|]); cbn;
    (erewrite since_app; [|cbn; rewrite <- ?app_assoc; reflexivity]); done.
Qed.

(** X3.  Writing a manifest and reading it back, with no failing call,
    returns the manifest written, and only the manifest key of the store
    changes. *)
Theorem manifest_round_trip (cfg : Config) (m : json) (w : World)
    (Hwrite : faults w (calls w) = None)
    (Hexists : faults w (1 + calls w) = None)
    (Hread : faults w (2 + calls w) = None) :
  exists w',
    (write_processed_manifest cfg m ;;; read_processed_manifest cfg) w = (Ok m, w') /\
    s3 w' = <[manifest_key cfg := Json m]> (s3 w) /\
    (forall k, k <> manifest_key cfg -> s3 w' !! k = s3 w !! k).
Proof.
  cbn in Hexists, Hread.
  unfold write_processed_manifest, read_processed_manifest, manifest_key.
  unfold try_except, bind, call, get, set_s3, log_info, log_exception, emit, ret, lift. cbn.
  rewrite Hwrite. cbn. rewrite Hexists. cbn. rewrite lookup_insert_eq. cbn.
  rewrite Hread. cbn. eexists. split; [reflexivity|]. cbn. split; [done|].
  intros k Hk. by rewrite lookup_insert_ne.
Qed.

Lemma manifest_round_trip_witness :
  let w := Demo.world ∅ Demo.no_faults in
  exists w',
    (write_processed_manifest Demo.config Demo.table_manifest ;;;
     read_processed_manifest Demo.config) w = (Ok Demo.table_manifest, w') /\
    s3 w' = <[manifest_key Demo.config := Json Demo.table_manifest]> (s3 w).
Proof.
  intros w.
  destruct (manifest_round_trip Demo.config Demo.table_manifest w) as (w' & Hrun & Hs3 & _);
    [reflexivity..|].
  exists w'. split; assumption.
Defined.

(* --------------------------------------------------------------------- *)
(** *** What leaves a flow *)

Lemma postgres_identifier_any creds t identifier t' :
  postgres_identifier creds t = Ok identifier ->
  exists identifier', postgres_identifier creds t' = Ok identifier'.
Proof.
  unfold postgres_identifier.
  destruct (py_getitem creds "host"); [|discriminate].
  destruct (py_getitem creds "dbname"); [|discriminate]. eauto.
Qed.

Lemma postgres_identifier_failure creds t e t' :
  postgres_identifier creds t = Raise e -> postgres_identifier creds t' = Raise e.
Proof.
  unfold postgres_identifier.
  destruct (py_getitem creds "host"); [|done].
  destruct (py_getitem creds "dbname"); [discriminate|done].
Qed.

(** Over a manifest that is no container the S3 loop stops at the first
    item its filter lets through, with the [TypeError] of the membership
    test and nothing recorded. *)
Lemma s3_loop_not_container cfg rc rj md5 source_name file_ext_filter objs doc flag w :
  container doc = false ->
  for_each (process_s3_object cfg rc rj md5 source_name file_ext_filter) objs (doc, flag) w =
    if forallb (fun obj => ext_filtered_out file_ext_filter (Key obj)) objs
    then (Ok (doc, flag), w)
    else (Raise (Exn ["TypeError"]
                   ("argument of type '" +:+ type_name doc +:+ "' is not iterable")), w).
Proof.
  intros Hc. induction objs as [|obj objs IH]; [done|].
  cbn [for_each forallb]. unfold bind at 1. unfold process_s3_object at 1. cbn [fst].
  destruct (ext_filtered_out file_ext_filter (Key obj)); cbn [andb].
  - unfold ret at 1. exact IH.
  - unfold bind at 1, lift at 1. by rewrite (py_contains_scalar _ _ Hc).
Qed.

(** X4.  What leaves [process_s3_prefix] is raised before its [try]:
    either by the listing (a prefix without the scheme or without a
    slash, a failed list call), or by the membership test on a manifest
    document that is no dict, list or str, at the first item the filter
    lets through.  In both cases nothing was written.  In every other
    case the flow returns normally, whatever the items do. *)
Theorem process_s3_prefix_raises_before_its_try
    (cfg : Config) rc rj md5 (prefix_s3 source_name : string)
    (file_ext_filter : option (list string)) (w : World) :
  let run := process_s3_prefix cfg rc rj md5 prefix_s3 source_name file_ext_filter w in
  match list_s3_objects prefix_s3
          (append_trace (OpLog "INFO" ("Processing prefix " +:+ prefix_s3)) w) with
  | (Raise e, w1) => run = (Raise e, w1) /\ reads_only w w1
  | (Ok objects, w1) =>
      exists doc w2,
        read_processed_manifest cfg w1 = (Ok doc, w2) /\
        if container doc
           || forallb (fun obj => ext_filtered_out file_ext_filter (Key obj)) objects
        then exists w', run = (Ok tt, w')
        else run = (Raise (Exn ["TypeError"]
                             ("argument of type '" +:+ type_name doc +:+ "' is not iterable")),
                    w2)
             /\ reads_only w w2
  end.
Proof.
  cbv zeta.
  set (w0 := append_trace (OpLog "INFO" ("Processing prefix " +:+ prefix_s3)) w).
  assert (Heq :
    process_s3_prefix cfg rc rj md5 prefix_s3 source_name file_ext_filter w =
    match list_s3_objects prefix_s3 w0 with
    | (Ok objects, w1) =>
        (processed <- read_processed_manifest cfg ;;
         st <- for_each (process_s3_object cfg rc rj md5 source_name file_ext_filter)
                 objects (processed, false) ;;
         if snd st then write_processed_manifest cfg (fst st) else ret tt) w1
    | (Raise e, w1) => (Raise e, w1)
    end) by reflexivity.
  rewrite Heq. clear Heq.
  assert (Hw0 : reads_only w w0)
    by apply (reads_only_emit (OpLog "INFO" ("Processing prefix " +:+ prefix_s3)) eq_refl w).
  pose proof (list_s3_objects_reads_only prefix_s3 w0) as Hro.
  destruct (list_s3_objects prefix_s3 w0) as [[objs|e] w1]; cbn [snd] in Hro.
  2:{ split; [reflexivity|]. by eapply reads_only_trans. }
  destruct (read_processed_manifest_returns cfg w1) as (doc & w2 & Hread).
  pose proof (read_processed_manifest_reads_only cfg w1) as Hro2.
  rewrite Hread in Hro2. cbn [snd] in Hro2.
  exists doc, w2. split; [exact Hread|].
  assert (Hrun :
    (processed <- read_processed_manifest cfg ;;
     st <- for_each (process_s3_object cfg rc rj md5 source_name file_ext_filter)
             objs (processed, false) ;;
     if snd st then write_processed_manifest cfg (fst st) else ret tt) w1 =
    match for_each (process_s3_object cfg rc rj md5 source_name file_ext_filter)
            objs (doc, false) w2 with
    | (Ok st, w3) => (if snd st then write_processed_manifest cfg (fst st) else ret tt) w3
    | (Raise e, w3) => (Raise e, w3)
    end).
  { unfold bind at 1. rewrite Hread. reflexivity. }
  rewrite Hrun. clear Hrun.
  destruct (container doc) eqn:Hc; cbn [orb].
  - destruct (s3_loop_isolated cfg rc rj md5 source_name file_ext_filter objs (doc, false) w2 Hc)
      as (st & w3 & -> & _).
    destruct (snd st); [apply write_processed_manifest_returns|by eexists].
  - rewrite (s3_loop_not_container _ _ _ _ _ _ _ _ _ _ Hc).
    destruct (forallb _ objs); [by eexists|].
    split; [reflexivity|]. eapply reads_only_trans; [|exact Hro2].
    by eapply reads_only_trans.
Qed.

(** Over a manifest that is no container the Postgres loop stops at its
    first table. *)
Lemma postgres_turn_not_container cfg md5 creds source_name doc t identifier w :
  postgres_identifier creds t = Ok identifier ->
  container doc = false ->
  process_postgres_table cfg md5 creds source_name doc t w =
    (Raise (Exn ["TypeError"]
              ("argument of type '" +:+ type_name doc +:+ "' is not iterable")), w).
Proof.
  intros Hid Hc. unfold process_postgres_table. rewrite Hid.
  unfold bind at 1, lift at 1. unfold bind at 1, lift at 1.
  by rewrite (py_contains_scalar _ _ Hc).
Qed.

Lemma postgres_turn_no_identifier cfg md5 creds source_name doc t e w :
  postgres_identifier creds t = Raise e ->
  process_postgres_table cfg md5 creds source_name doc t w = (Raise e, w).
Proof. intros Hid. unfold process_postgres_table. by rewrite Hid. Qed.

(** X5.  What leaves [process_postgres_tables] is raised outside its
    [try]: by the read of the credentials, after that one call; or, with
    a table to look at, by the identifier of the first table when the
    credentials document has no [host] or no [dbname] or is no dict, or
    by the membership test when the manifest document is no dict, list
    or str.  In all these cases nothing was written and no table was
    read.  In every other case the flow returns normally, whatever the
    tables do. *)
Theorem process_postgres_tables_raises_before_its_try
    (cfg : Config) md5 (table_names : list string) (ssm_param source_name : string) (w : World) :
  let run := process_postgres_tables cfg md5 table_names ssm_param source_name w in
  exists doc w0,
    read_processed_manifest cfg w = (Ok doc, w0) /\
    match get_ssm_param_json ssm_param w0 with
    | (Raise e, w1) =>
        run = (Raise e, w1) /\ reads_only w w1 /\ since w0 w1 = [OpSsmGet ssm_param]
    | (Ok creds, w1) =>
        match table_names with
        | [] => exists w', run = (Ok tt, w')
        | t :: _ =>
            match postgres_identifier creds t with
            | Raise e => run = (Raise e, w1) /\ reads_only w w1
            | Ok _ =>
                if container doc then exists w', run = (Ok tt, w')
                else run = (Raise (Exn ["TypeError"]
                                     ("argument of type '" +:+ type_name doc
                                      +:+ "' is not iterable")), w1)
                     /\ reads_only w w1
            end
        end
    end.
Proof.
  cbv zeta.
  destruct (read_processed_manifest_returns cfg w) as (doc & w0 & Hread).
  pose proof (read_processed_manifest_reads_only cfg w) as Hro. rewrite Hread in Hro. cbn in Hro.
  exists doc, w0. split; [done|].
  unfold process_postgres_tables, bind. rewrite Hread.
  assert (Hssm : reads_only w0 (snd (get_ssm_param_json ssm_param w0)) /\
                 since w0 (snd (get_ssm_param_json ssm_param w0)) = [OpSsmGet ssm_param]).
  { unfold get_ssm_param_json, bind, call, get, ret, raise, lift. cbn.
    destruct (faults w0 (calls w0)); cbn.
    - split; [|by apply since_app]. split; [done|]. by exists [OpSsmGet ssm_param].
    - destruct (ssm w0 !! ssm_param) as [value|]; cbn;
        (split; [|by apply since_app]); (split; [done|]); by exists [OpSsmGet ssm_param]. }
  destruct (get_ssm_param_json ssm_param w0) as [[creds|e] w1]; cbn in Hssm.
  2:{ destruct Hssm as [H1 H2]. split; [done|]. split; [|done]. by eapply reads_only_trans. }
  destruct Hssm as [Hro1 _].
  assert (Hw1 : reads_only w w1) by (by eapply reads_only_trans).
  destruct table_names as [|t tables].
  { cbn [for_each]. unfold ret at 1. apply write_processed_manifest_returns. }
  destruct (postgres_identifier creds t) as [identifier|e] eqn:Hid.
  - destruct (container doc) eqn:Hc.
    + destruct (postgres_loop_isolated cfg md5 creds source_name (t :: tables) doc w1)
        as (p' & w2 & -> & _); [|done|apply write_processed_manifest_returns].
      intros t' _. by eapply postgres_identifier_any.
    + cbn [for_each]. unfold bind at 1.
      by rewrite (postgres_turn_not_container _ _ _ _ _ _ _ _ Hid Hc).
  - cbn [for_each]. unfold bind at 1.
    by rewrite (postgres_turn_no_identifier _ _ _ _ _ _ _ _ Hid).
Qed.

(* --------------------------------------------------------------------- *)
(** *** The success path of the writer *)

(** X6.  The success path of [write_parquet_to_s3_atomic]: when none of
    its six calls fails it returns the path it was given (re-assembled
    from bucket and key), the store holds the dataset under the key and
    the metadata under key + [.metadata.json], no other key of the store
    changes, the scratch directory is as before, and the calls are
    makedirs, mkstemp, write, upload, put, remove, in that order. *)
Theorem write_parquet_to_s3_atomic_commits
    (cfg : Config) (df : DataFrame) (s3_output_path bucket key : string)
    (metadata : option Metadata) (w : World)
    (Hsplit : split1 "/" (replace "s3://" "" s3_output_path) = [bucket; key])
    (Hcalls : forall n, n < 6 -> faults w (n + calls w) = None) :
  exists w',
    write_parquet_to_s3_atomic cfg df s3_output_path metadata w
      = (Ok ("s3://" +:+ bucket +:+ "/" +:+ key), w') /\
    s3 w' !! (bucket, key) = Some (Parquet df) /\
    s3 w' !! (bucket, key +:+ ".metadata.json") = Some (JsonMetadata metadata) /\
    (forall k, k <> (bucket, key) -> k <> (bucket, key +:+ ".metadata.json") ->
               s3 w' !! k = s3 w !! k) /\
    scratch w' = scratch w /\
    since w w' = writer_calls cfg (next_tmp_file w) bucket key.
Proof.
  pose proof (Hcalls 0) as H0. pose proof (Hcalls 1) as H1. pose proof (Hcalls 2) as H2.
  pose proof (Hcalls 3) as H3. pose proof (Hcalls 4) as H4. pose proof (Hcalls 5) as H5.
  cbn in H0, H1, H2, H3, H4, H5.
  assert (Hrun : exists out w',
             write_parquet_to_s3_atomic cfg df s3_output_path metadata w = (Ok out, w')).
  { unfold write_parquet_to_s3_atomic, ensure_local_tmp, named_temporary_file.
    rewrite Hsplit.
    unfold bind, call, get, set_scratch, set_s3, log_info, emit, ret. cbn.
    rewrite H0 by lia. cbn. rewrite H1 by lia. cbn. rewrite H2 by lia. cbn.
    rewrite H3 by lia. cbn. rewrite H4 by lia. cbn. rewrite H5 by lia. cbn.
    eauto. }
  destruct Hrun as (out & w' & Hrun).
  destruct (write_parquet_to_s3_atomic_returns _ _ _ _ _ _ _ Hrun)
    as (b & k & Hs & -> & Hs3 & Hscratch & Htrace).
  rewrite Hsplit in Hs. injection Hs as <- <-.
  exists w'. split; [exact Hrun|]. rewrite Hs3.
  assert (Hne : (bucket, key +:+ ".metadata.json") <> (bucket, key)).
  { intros [= H]. by apply (append_nonempty_neq key ".metadata.json"). }
  repeat split; try done.
  - rewrite lookup_insert_ne by done. by rewrite lookup_insert_eq.
  - by rewrite lookup_insert_eq.
  - intros k0 Hk1 Hk2. rewrite !lookup_insert_ne; done.
Qed.

Lemma write_parquet_to_s3_atomic_commits_witness :
  let w := Demo.world ∅ Demo.no_faults in
  exists w',
    write_parquet_to_s3_atomic Demo.config Demo.one_email_frame
      "s3://my-raw-bucket/raw/agents/x.parquet" None w
      = (Ok "s3://my-raw-bucket/raw/agents/x.parquet", w') /\
    s3 w' !! ("my-raw-bucket", "raw/agents/x.parquet") = Some (Parquet Demo.one_email_frame) /\
    scratch w' = scratch w.
Proof.
  intros w.
  destruct (write_parquet_to_s3_atomic_commits Demo.config Demo.one_email_frame
              "s3://my-raw-bucket/raw/agents/x.parquet" "my-raw-bucket" "raw/agents/x.parquet"
              None w) as (w' & Hrun & Hdata & _ & _ & Hscratch & _).
  - vm_compute; reflexivity.
  - intros n _. reflexivity.
  - exists w'. repeat split; assumption.
Defined.

(* --------------------------------------------------------------------- *)
(** *** What a new record stands for *)

Lemma set_column_rows name dtype vals df :
  df_rows (set_column name dtype vals df) = df_rows df.
Proof. unfold set_column. by destruct (has_column name df). Qed.

Lemma email_hygiene_inv df w df' w' :
  email_hygiene df w = (Ok df', w') -> df_rows df' = df_rows df /\ w' = w.
Proof.
  unfold email_hygiene. destruct (has_column "email" df).
  - destruct (columns_named "email" df) as [|c [|? ?]]; try discriminate.
    intros [= <- <-]. by rewrite !set_column_rows.
  - by intros [= <- <-].
Qed.

(** X7.  A turn of the object loop that changes the manifest has written
    before it recorded: the item was read, had rows and was not in the
    manifest, which is a dict; the new manifest is the old one with one
    record under the item's path; that record carries the source name, the path, the row
    count of the dataset read and the schema hash of the dataset written;
    the dataset written has as many rows as the one read and carries the
    [_source_path] and [_ingest_load_time] columns; the store holds it
    and its sidecar, which holds the same record. *)
Theorem s3_record_follows_artifact
    (cfg : Config) rc rj md5 (source_name : string) (file_ext_filter : option (list string))
    (st st' : json * bool) (obj : S3Object) (w w' : World)
    (Hrun : process_s3_object cfg rc rj md5 source_name file_ext_filter st obj w = (Ok st', w'))
    (Hchanged : st' <> st) :
  exists md bucket key df_read df_out w1 d,
    download_s3_to_dataframe rc rj (s3_path_of obj) w = (Ok df_read, w1) /\
    df_rows df_read <> 0 /\
    fst st = JObj d /\
    dict_get (s3_path_of obj) d = None /\
    st' = (JObj (dict_set (s3_path_of obj) (metadata_json md) d), true) /\
    source md = source_name /\
    source_path md = s3_path_of obj /\
    record_count md = df_rows df_read /\
    df_rows df_out = df_rows df_read /\
    schema_hash md = hash_df_schema md5 df_out /\
    has_column "_source_path" df_out = true /\
    has_column "_ingest_load_time" df_out = true /\
    s3 w' !! (bucket, key) = Some (Parquet df_out) /\
    s3 w' !! (bucket, key +:+ ".metadata.json") = Some (JsonMetadata (Some md)) /\
    scratch w' = scratch w.
Proof.
  revert Hrun. unfold process_s3_object. fold (s3_path_of obj).
  destruct (ext_filtered_out file_ext_filter (Key obj)).
  { intros H. inversion H. congruence. }
  unfold bind at 1, lift at 1.
  destruct (py_contains (s3_path_of obj) (fst st)) as [seen|e0] eqn:Hin; [|discriminate].
  destruct seen.
  { intros H. inversion H. congruence. }
  unfold try_except.
  match goal with |- context [match ?body w with _ => _ end] =>
    destruct (body w) as [[st1|e] w1] eqn:Hbody end.
  2:{ intros H. inversion H. congruence. }
  intros H. inversion H; subst st1 w1; clear H.
  apply bind_ok_inv in Hbody as (df & w2 & Hdl & Hbody).
  pose proof (download_s3_to_dataframe_reads_only rc rj (s3_path_of obj) w) as Hro.
  rewrite Hdl in Hro. destruct Hro as [[_ Hsc] _]. cbn in Hsc.
  destruct (df_empty df) eqn:Hempty.
  { apply bind_ok_inv in Hbody as ([] & w3 & _ & Hret). inversion Hret. congruence. }
  apply bind_ok_inv in Hbody as (df1 & w3 & Hhyg & Hbody).
  apply email_hygiene_inv in Hhyg as [Hrows ->].
  apply bind_ok_inv in Hbody as (now1 & w4 & Hn1 & Hbody).
  apply bind_ok_inv in Hbody as (now2 & w5 & Hn2 & Hbody).
  apply bind_ok_inv in Hbody as (now3 & w6 & Hn3 & Hbody).
  apply bind_ok_inv in Hbody as (out & w7 & Hwrite & Hbody).
  apply bind_ok_inv in Hbody as (doc' & w8 & Hset & Hret).
  apply lift_ok_inv in Hset as [Hset ->].
  apply py_setitem_ok in Hset as (d & Hd & ->).
  rewrite Hd in Hin. apply py_contains_dict in Hin; [|done].
  inversion Hret; subst st' w7; clear Hret.
  apply write_parquet_to_s3_atomic_returns in Hwrite
    as (bucket & key & _ & _ & Hs3 & Hscratch & _).
  inversion Hn1; subst; clear Hn1. inversion Hn2; subst; clear Hn2.
  inversion Hn3; subst; clear Hn3. cbn in Hscratch.
  match type of Hs3 with context [Parquet ?out_df] =>
    eexists _, bucket, key, df, out_df, w2, d end.
  split; [exact Hdl|].
  split. { intros Hz. unfold df_empty in Hempty. rewrite Hz in Hempty. discriminate. }
  split; [exact Hd|]. split; [exact Hin|].
  split; [reflexivity|]. split; [reflexivity|]. split; [reflexivity|].
  split. { cbn. unfold set_scalar. by rewrite !set_column_rows, Hrows. }
  split. { unfold set_scalar. by rewrite !set_column_rows, Hrows. }
  split; [reflexivity|].
  split. { unfold set_scalar at 1. apply set_column_has. }
  split. { unfold set_scalar at 1. apply set_column_keeps; [done|]. apply set_column_has. }
  rewrite Hs3. split; [|split].
  - rewrite lookup_insert_ne; [by rewrite lookup_insert_eq|].
    intros [= H]. by apply (append_nonempty_neq key ".metadata.json").
  - by rewrite lookup_insert_eq.
  - congruence.
Qed.

Lemma s3_record_follows_artifact_witness :
  let w := Demo.world Demo.one_customer Demo.no_faults in
  let turn := process_s3_object Demo.config Demo.read_csv Demo.read_json Demo.md5 "customers"
                (Some ["csv"]) (JObj [], false) Cases.customer_item w in
  exists md bucket key df_out,
    fst turn = Ok (JObj [("s3://src/customers/a.csv", metadata_json md)], true) /\
    record_count md = 1 /\
    schema_hash md = hash_df_schema Demo.md5 df_out /\
    s3 (snd turn) !! (bucket, key) = Some (Parquet df_out).
Proof.
  intros w turn.
  destruct (s3_record_follows_artifact Demo.config Demo.read_csv Demo.read_json Demo.md5
              "customers" (Some ["csv"]) (JObj [], false)
              (JObj [("s3://src/customers/a.csv", metadata_json Demo.customer_record)], true)
              Cases.customer_item w (snd turn))
    as (md & bucket & key & df_read & df_out & w1 & d & _ & _ & Hd & _ & Hst & _ & _ & Hcount
        & Hrows & Hhash & _ & _ & Hdata & _).
  - vm_compute; reflexivity.
  - intros H. apply (f_equal snd) in H. discriminate H.
  - exists Demo.customer_record, bucket, key, df_out.
    split; [vm_compute; reflexivity|]. split; [reflexivity|].
    split; [|exact Hdata].
    rewrite <- Hhash.
    injection Hd as <-. cbn [dict_set] in Hst.
    injection Hst as _ _ _ _ Hh. rewrite <- Hh. reflexivity.
Defined.

(* --------------------------------------------------------------------- *)
(** *** Paths of listed items *)

Lemma replace_scheme_prefix (rest : string) :
  contains "s3://" rest = false -> replace "s3://" "" ("s3://" +:+ rest) = rest.
Proof.
  intros H. unfold replace.
  change ("s3://" +:+ rest) with (String "s" (String "3" (String ":" (String "/" (String "/" rest))))).
  cbn [replace_from String.length Nat.sub].
  assert (Hp : String.prefix "s3://"
                 (String "s" (String "3" (String ":" (String "/" (String "/" rest))))) = true).
  { cbn [String.prefix]. repeat (destruct (ascii_dec _ _); [|done]). by destruct rest. }
  rewrite Hp. change ("" +:+ ?x) with x.
  by apply (replace_absent "s3://" "" rest).
Qed.

Lemma split1_at_slash (b k : string) :
  all_chars not_slash b = true -> split1 "/" (b +:+ "/" +:+ k) = [b; k].
Proof.
  induction b as [|c b IH]; intros H.
  - reflexivity.
  - cbn [all_chars] in H. apply andb_true_iff in H as [Hc Hb].
    change (String c b +:+ "/" +:+ k) with (String c (b +:+ "/" +:+ k)).
    cbn [split1]. unfold not_slash in Hc. apply negb_true_iff in Hc. rewrite Hc.
    by rewrite (IH Hb).
Qed.

Lemma split1_no_separator (s : string) :
  all_chars not_slash s = true -> split1 "/" s = [s].
Proof.
  induction s as [|c s IH]; intros H; [done|].
  cbn [all_chars] in H. apply andb_true_iff in H as [Hc Hs].
  cbn [split1]. unfold not_slash in Hc. apply negb_true_iff in Hc. rewrite Hc.
  by rewrite (IH Hs).
Qed.

Lemma split1_shape (s : string) :
  (exists a, split1 "/" s = [a]) \/ (exists a b, split1 "/" s = [a; b]).
Proof.
  induction s as [|c s IH]; [left; by eexists|].
  cbn [split1]. destruct (Ascii.eqb c "/"); [right; by eexists _, _|].
  destruct IH as [[a ->]|[a [b ->]]]; [left|right]; eauto.
Qed.

(** X8.  The path [process_s3_prefix] builds for a listed item is taken
    apart by [download_s3_to_dataframe] into the same bucket and key,
    when the bucket name has no slash and bucket/key does not contain
    [s3://] again: one attempt logs the path and asks for exactly that
    object. *)
Theorem s3_path_round_trip (obj : S3Object) rc rj (w : World)
    (Hbucket : all_chars not_slash (Bucket obj) = true)
    (Hscheme : contains "s3://" (Bucket obj +:+ "/" +:+ Key obj) = false) :
  split1 "/" (replace "s3://" "" (s3_path_of obj)) = [Bucket obj; Key obj] /\
  startswith "s3://" (s3_path_of obj) = true /\
  exists r w',
    download_s3_to_dataframe_once rc rj (s3_path_of obj) w = (r, w') /\
    since w w' = [OpLog "INFO" ("Reading " +:+ s3_path_of obj);
                  OpGetObject (Bucket obj) (Key obj)].
Proof.
  assert (Hsplit : split1 "/" (replace "s3://" "" (s3_path_of obj)) = [Bucket obj; Key obj]).
  { unfold s3_path_of. rewrite (replace_scheme_prefix _ Hscheme). by apply split1_at_slash. }
  assert (Hstart : startswith "s3://" (s3_path_of obj) = true).
  { unfold s3_path_of, startswith.
    change ("s3://" +:+ ?r) with (String "s" (String "3" (String ":" (String "/" (String "/" r))))).
    cbn [String.prefix]. repeat (destruct (ascii_dec _ _); [|done]).
    by destruct (Bucket obj +:+ "/" +:+ Key obj). }
  split; [done|]. split; [done|].
  unfold download_s3_to_dataframe_once. rewrite Hstart, Hsplit. cbn [negb].
  unfold bind, call, get, log_info, emit, raise, ret, lift. cbn.
  destruct (faults w (calls w)); cbn.
  { eexists _, _. split; [reflexivity|]. apply since_app. cbn. by rewrite <- app_assoc. }
  destruct (s3 w !! (Bucket obj, Key obj)); cbn.
  2:{ eexists _, _. split; [reflexivity|]. apply since_app. cbn. by rewrite <- app_assoc. }
  repeat match goal with
         | |- context [if ?c then _ else _] => destruct c
         | |- context [match rj ?a ?b with _ => _ end] => destruct (rj a b)
         end;
    (eexists _, _; split; [reflexivity|]; apply since_app; cbn; by rewrite <- app_assoc).
Qed.

Lemma s3_path_round_trip_witness :
  split1 "/" (replace "s3://" "" (s3_path_of Cases.customer_item)) = ["src"; "customers/a.csv"] /\
  startswith "s3://" (s3_path_of Cases.customer_item) = true.
Proof.
  destruct (s3_path_round_trip Cases.customer_item Demo.read_csv Demo.read_json
              (Demo.world Demo.one_customer Demo.no_faults)) as (H1 & H2 & _);
    [reflexivity..|].
  split; assumption.
Defined.

(* --------------------------------------------------------------------- *)
(** *** Listing a prefix *)

Lemma listing_elem store bucket prefix obj :
  obj ∈ listing store bucket prefix <->
  Bucket obj = bucket /\ startswith prefix (Key obj) = true /\
  is_Some (store !! (Bucket obj, Key obj)).
Proof.
  unfold listing. rewrite list_elem_of_fmap. split.
  - intros (k & -> & Hk). rewrite merge_sort_Permutation in Hk.
    apply list_elem_of_omap in Hk as ([[b k'] blob] & Hin & Hf). cbn in Hf.
    unfold startswith in *.
    destruct (String.eqb b bucket) eqn:Hb; [|discriminate]. cbn in Hf.
    destruct (String.prefix prefix k') eqn:Hp; [|discriminate].
    injection Hf as <-. apply String.eqb_eq in Hb as ->. apply elem_of_map_to_list in Hin.
    cbn. split; [done|]. split; [done|]. by eexists.
  - intros (Hb & Hp & [blob Hblob]). exists (Key obj). split.
    + destruct obj. cbn in *. by subst.
    + rewrite merge_sort_Permutation. apply list_elem_of_omap.
      exists ((Bucket obj, Key obj), blob). split; [by apply elem_of_map_to_list|].
      cbn. unfold startswith in Hp. rewrite Hb, String.eqb_refl, Hp. done.
Qed.

(** X9.  [list_s3_objects]: a prefix that does not start with [s3://]
    fails the assertion, and one with nothing after the bucket name fails
    the unpacking, both before any call.  When it returns, it split the
    prefix at its first slash, made one list call, left the store alone,
    and its items are those objects of that bucket whose key starts with
    the key prefix. *)
Theorem list_s3_objects_contract (prefix_s3 : string) (w : World) :
  (startswith "s3://" prefix_s3 = false ->
   list_s3_objects prefix_s3 w = (Raise (Exn ["AssertionError"] "prefix must be s3://..."), w)) /\
  (startswith "s3://" prefix_s3 = true ->
   all_chars not_slash (replace "s3://" "" prefix_s3) = true ->
   list_s3_objects prefix_s3 w =
     (Raise (Exn ["ValueError"] "not enough values to unpack (expected 2, got 1)"), w)) /\
  (forall objs w',
     list_s3_objects prefix_s3 w = (Ok objs, w') ->
     exists bucket prefix,
       split1 "/" (replace "s3://" "" prefix_s3) = [bucket; prefix] /\
       since w w' = [OpList bucket prefix] /\
       s3 w' = s3 w /\
       forall obj, obj ∈ objs <->
                   Bucket obj = bucket /\ startswith prefix (Key obj) = true /\
                   is_Some (s3 w !! (Bucket obj, Key obj))).
Proof.
  unfold list_s3_objects. split; [|split].
  - by intros ->.
  - intros -> Hs. cbn [negb]. by rewrite (split1_no_separator _ Hs).
  - intros objs w'. destruct (startswith "s3://" prefix_s3); cbn [negb]; [|discriminate].
    destruct (split1_shape (replace "s3://" "" prefix_s3)) as [[a ->]|[a [b ->]]]; [discriminate|].
    unfold bind, call, get, ret. cbn. destruct (faults w (calls w)); cbn; [discriminate|].
    intros [= <- <-]. exists a, b. split; [done|]. split; [by apply since_app|].
    split; [done|]. intros obj. apply listing_elem.
Qed.

(* --------------------------------------------------------------------- *)
(** *** Keys of artifacts *)

Lemma strftime_date_app_eq d1 d2 (s t : string) :
  DT.strftime_date d1 +:+ s = DT.strftime_date d2 +:+ t ->
  DT.strftime_date d1 = DT.strftime_date d2.
Proof.
  unfold DT.strftime_date, DT.pad4, DT.pad2.
  generalize (DT.digit (DT.year d1 / 100 / 10)) (DT.digit (DT.year d1 / 100))
             (DT.digit (DT.year d1 / 10)) (DT.digit (DT.year d1))
             (DT.digit (DT.month d1 / 10)) (DT.digit (DT.month d1))
             (DT.digit (DT.day d1 / 10)) (DT.digit (DT.day d1))
             (DT.digit (DT.year d2 / 100 / 10)) (DT.digit (DT.year d2 / 100))
             (DT.digit (DT.year d2 / 10)) (DT.digit (DT.year d2))
             (DT.digit (DT.month d2 / 10)) (DT.digit (DT.month d2))
             (DT.digit (DT.day d2 / 10)) (DT.digit (DT.day d2)).
  intros. cbv beta iota fix delta [String.append] in *. injection H. intros. by subst.
Qed.

(** X10.  The key of an artifact is a function of source, base name, the
    date text and the stamp down to the second: two keys for the same
    source and base name are equal exactly when the date texts are equal
    and the two stamps fall in the same second. *)
Theorem out_key_collides_exactly_within_a_second
    (cfg : Config) (source_name base : string) (date1 stamp1 date2 stamp2 : DT.datetime)
    (Hc1 : calendar stamp1) (Hc2 : calendar stamp2) :
  out_key_of cfg source_name base (DT.strftime_date date1) (DT.strftime_stamp stamp1) =
  out_key_of cfg source_name base (DT.strftime_date date2) (DT.strftime_stamp stamp2)
  <-> DT.strftime_date date1 = DT.strftime_date date2 /\ same_second stamp1 stamp2.
Proof.
  split.
  - intros H. split; [|by eapply out_key_distinct_seconds].
    unfold out_key_of in H. do 4 apply (inj (String.append _)) in H.
    by apply strftime_date_app_eq in H.
  - intros [Hd (Hy & Hm & Hday & Hh & Hmi & Hs)]. unfold out_key_of. rewrite Hd.
    unfold DT.strftime_stamp. by rewrite Hy, Hm, Hday, Hh, Hmi, Hs.
Qed.

Lemma out_key_collides_exactly_within_a_second_witness :
  out_key_of Demo.config "customers" "a"
    (DT.strftime_date (Demo.noon 0)) (DT.strftime_stamp (Demo.noon 0)) =
  out_key_of Demo.config "customers" "a"
    (DT.strftime_date (Demo.noon 5)) (DT.strftime_stamp (Demo.noon 5))
  <-> DT.strftime_date (Demo.noon 0) = DT.strftime_date (Demo.noon 5) /\
      same_second (Demo.noon 0) (Demo.noon 5).
Proof.
  apply (out_key_collides_exactly_within_a_second Demo.config "customers" "a"
           (Demo.noon 0) (Demo.noon 0) (Demo.noon 5) (Demo.noon 5));
    unfold calendar; cbn; lia.
Defined.

(* --------------------------------------------------------------------- *)
(** *** Recovery after transient failures *)

Section Recovery.
Variables (rc : Blob -> result DataFrame) (rj : bool -> Blob -> result DataFrame).
Variables (s3_path bucket key : string) (body : Blob) (df : DataFrame).
Hypothesis Hprefix : startswith "s3://" s3_path = true.
Hypothesis Hsplit : split1 "/" (replace "s3://" "" s3_path) = [bucket; key].

Lemma download_once_fault w e :
  faults w (calls w) = Some e ->
  download_s3_to_dataframe_once rc rj s3_path w =
    (Raise e, after_call (read_attempt s3_path bucket key) w).
Proof.
  intros Hf. unfold download_s3_to_dataframe_once, after_call.
  rewrite Hprefix, Hsplit. cbn [negb].
  unfold bind, call, log_info, emit, get, raise. cbn. rewrite Hf. cbn.
  by rewrite <- app_assoc.
Qed.

Hypothesis Hparse :
  forall w, faults w (calls w) = None -> s3 w !! (bucket, key) = Some body ->
            download_s3_to_dataframe_once rc rj s3_path w =
              (Ok df, after_call (read_attempt s3_path bucket key) w).

Lemma attempts_recover n : forall left attempt_number w,
  n <= left ->
  s3 w !! (bucket, key) = Some body ->
  (forall i, i < n -> is_Some (faults w (i + calls w))) ->
  faults w (n + calls w) = None ->
  exists w',
    attempts left attempt_number (download_s3_to_dataframe_once rc rj s3_path) w = (Ok df, w') /\
    trace w' = trace w ++ retry_trace (read_attempt s3_path bucket key) n attempt_number /\
    s3 w' = s3 w /\ scratch w' = scratch w.
Proof.
  induction n as [|n IH]; intros left a w Hle Hbody Hfail Hok.
  - cbn in Hok. destruct left; cbn [attempts]; unfold try_except;
      rewrite (Hparse w Hok Hbody); eexists; repeat split; reflexivity.
  - destruct left as [|left]; [lia|].
    destruct (Hfail 0 ltac:(lia)) as [e He]. cbn in He.
    cbn [attempts]. unfold try_except. rewrite (download_once_fault w e He).
    unfold bind, emit. cbv beta iota.
    set (w1 := append_trace (OpSleep (wait_exponential a))
                 (after_call (read_attempt s3_path bucket key) w)).
    destruct (IH left (S a) w1) as (w' & Hrun & Htrace & Hs3 & Hscratch).
    + lia.
    + exact Hbody.
    + intros i Hi. specialize (Hfail (S i) ltac:(lia)). cbn in Hfail |- *.
      by rewrite Nat.add_succ_r.
    + cbn in Hok |- *. by rewrite Nat.add_succ_r.
    + exists w'. split; [exact Hrun|]. rewrite Htrace. subst w1. cbn.
      split; [|done]. by rewrite <- !app_assoc.
Qed.

End Recovery.

Lemma retry_trace_counts attempt n a :
  List.filter is_wait attempt = [] ->
  List.filter is_wait (retry_trace attempt n a) =
    map (fun k => OpSleep (wait_exponential k)) (seq a n) /\
  length (List.filter is_get_object (retry_trace attempt n a)) =
    S n * length (List.filter is_get_object attempt).
Proof.
  intros Hs. revert a. induction n as [|n IH]; intros a.
  - cbn. rewrite Hs. split; [done|lia].
  - cbn [retry_trace seq map]. destruct (IH (S a)) as [IH1 IH2].
    rewrite !List.filter_app, Hs. cbn [List.filter is_wait is_get_object app].
    rewrite IH1, length_app, IH2. split; [done|]. lia.
Qed.

(** X11.  [download_s3_to_dataframe] recovers from transient failures:
    when the first [n] calls fail, [n] below the attempt limit, and the
    next one succeeds on a csv or txt object the parser accepts, the
    reader returns the parsed dataset after [n + 1] requests, having
    waited [wait_exponential 1], ..., [wait_exponential n] in between,
    and having changed nothing. *)
Theorem download_recovers_from_transient_failures
    rc rj (s3_path bucket key : string) (body : Blob) (df : DataFrame) (w : World) (n : nat)
    (Hprefix : startswith "s3://" s3_path = true)
    (Hsplit : split1 "/" (replace "s3://" "" s3_path) = [bucket; key])
    (Hext : String.eqb (extension_of key) "csv" || String.eqb (extension_of key) "txt" = true)
    (Hbody : s3 w !! (bucket, key) = Some body)
    (Hcsv : rc body = Ok df)
    (Hn : n < stop_after_attempt)
    (Hfail : forall i, i < n -> is_Some (faults w (i + calls w)))
    (Hok : faults w (n + calls w) = None) :
  exists w',
    download_s3_to_dataframe rc rj s3_path w = (Ok df, w') /\
    since w w' = retry_trace (read_attempt s3_path bucket key) n 1 /\
    length (List.filter is_get_object (since w w')) = S n /\
    List.filter is_wait (since w w') = map (fun k => OpSleep (wait_exponential k)) (seq 1 n) /\
    s3 w' = s3 w /\ scratch w' = scratch w.
Proof.
  unfold download_s3_to_dataframe, retry.
  destruct (attempts_recover rc rj s3_path bucket key body df Hprefix Hsplit) with
    (n := n) (left := stop_after_attempt - 1) (attempt_number := 1) (w := w)
    as (w' & Hrun & Htrace & Hs3 & Hscratch); try done.
  - intros w0 Hf Hb. unfold download_s3_to_dataframe_once, after_call.
    rewrite Hprefix, Hsplit. cbn [negb]. fold (extension_of key). rewrite Hext.
    unfold bind, call, log_info, emit, get, lift. cbn. rewrite Hf. cbn. rewrite Hb, Hcsv.
    by rewrite <- app_assoc.
  - unfold stop_after_attempt in *. lia.
  - exists w'. split; [exact Hrun|]. rewrite (since_app _ _ _ Htrace).
    destruct (retry_trace_counts (read_attempt s3_path bucket key) n 1 eq_refl) as [Hsl Hget].
    rewrite Hsl, Hget. cbn. repeat split; try done. lia.
Qed.

Lemma download_recovers_from_transient_failures_witness :
  let w := Demo.world Demo.one_customer (Cases.failing_first 2) in
  exists w',
    download_s3_to_dataframe Demo.read_csv Demo.read_json "s3://src/customers/a.csv" w
      = (Ok Cases.customer_frame, w') /\
    List.filter is_wait (since w w') = [OpSleep 1; OpSleep 2] /\
    length (List.filter is_get_object (since w w')) = 3.
Proof.
  intros w.
  destruct (download_recovers_from_transient_failures Demo.read_csv Demo.read_json
              "s3://src/customers/a.csv" "src" "customers/a.csv" (Bytes " Bob@Example.org ")
              Cases.customer_frame w 2)
    as (w' & Hrun & _ & Hgets & Hwaits & _); try (vm_compute; reflexivity).
  - unfold stop_after_attempt. lia.
  - intros i Hi. destruct i as [|[|i]]; [by eexists..|lia].
  - exists w'. repeat split; assumption.
Defined.

(** X12.  A json object that the line-wise parser rejects with a
    ValueError and the whole-document parser accepts is read in one
    attempt: the fallback is taken inside the attempt, not by a retry. *)
Theorem json_falls_back_to_whole_document
    rc rj (s3_path bucket key : string) (body : Blob) (df : DataFrame) (e : exn) (w : World)
    (Hprefix : startswith "s3://" s3_path = true)
    (Hsplit : split1 "/" (replace "s3://" "" s3_path) = [bucket; key])
    (Hext : extension_of key = "json")
    (Hbody : s3 w !! (bucket, key) = Some body)
    (Hlines : rj true body = Raise e)
    (Hvalue : is_ValueError e = true)
    (Harray : rj false body = Ok df)
    (Hok : faults w (calls w) = None) :
  exists w',
    download_s3_to_dataframe rc rj s3_path w = (Ok df, w') /\
    since w w' = read_attempt s3_path bucket key /\
    s3 w' = s3 w.
Proof.
  unfold download_s3_to_dataframe, retry.
  destruct (attempts_recover rc rj s3_path bucket key body df Hprefix Hsplit) with
    (n := 0) (left := stop_after_attempt - 1) (attempt_number := 1) (w := w)
    as (w' & Hrun & Htrace & Hs3 & Hscratch); try done.
  - intros w0 Hf Hb. unfold download_s3_to_dataframe_once, after_call.
    rewrite Hprefix, Hsplit. cbn [negb]. fold (extension_of key). rewrite Hext.
    unfold bind, call, log_info, emit, get, lift, raise, ret. cbn. rewrite Hf. cbn.
    rewrite Hb, Hlines, Hvalue, Harray. by rewrite <- app_assoc.
  - lia.
  - intros i Hi. lia.
  - exists w'. split; [exact Hrun|]. split; [|done]. by apply since_app.
Qed.

Lemma json_falls_back_to_whole_document_witness :
  let w := Demo.world Cases.posts Demo.no_faults in
  exists w',
    download_s3_to_dataframe Demo.read_csv Cases.read_json_array
      "s3://src/social_media/posts.json" w = (Ok Cases.posts_frame, w') /\
    s3 w' = s3 w.
Proof.
  intros w.
  destruct (json_falls_back_to_whole_document Demo.read_csv Cases.read_json_array
              "s3://src/social_media/posts.json" "src" "social_media/posts.json"
              (Json (JArr [JObj [("text", JStr "hello")]])) Cases.posts_frame (Exn ["ValueError"] "Trailing data") w)
    as (w' & Hrun & _ & Hs3); try (vm_compute; reflexivity).
  exists w'. split; assumption.
Defined.

(* --------------------------------------------------------------------- *)
(** *** Bounds of the retries *)

Lemma at_most_trans P n1 m1 n2 m2 w1 w2 w3 :
  at_most P n1 m1 w1 w2 -> at_most P n2 m2 w2 w3 -> at_most P (n1 + n2) (m1 + m2) w1 w3.
Proof.
  intros (o1 & E1 & A1 & B1) (o2 & E2 & A2 & B2). exists (o1 ++ o2).
  rewrite E2, E1, <- app_assoc, !List.filter_app, !length_app. split; [done|]. lia.
Qed.

Lemma attempts_at_most {A} (f : M A) P :
  (forall s, P (OpSleep s) = false) ->
  (forall w, at_most P 1 0 w (snd (f w))) ->
  forall left a w, at_most P (S left) left w (snd (attempts left a f w)).
Proof.
  intros HP Hf. induction left as [|left IH]; intros a w.
  - cbn [attempts]. unfold try_except. specialize (Hf w).
    destruct (f w) as [[x|e] w1]; exact Hf.
  - cbn [attempts]. unfold try_except. specialize (Hf w).
    destruct (f w) as [[x|e] w1]; cbn in Hf |- *.
    + destruct Hf as (ops & E & A1 & B1). exists ops. split; [done|]. lia.
    + unfold bind, emit. cbv beta iota.
      specialize (IH (S a) (append_trace (OpSleep (wait_exponential a)) w1)).
      assert (Hsleep : at_most P 0 1 w1 (append_trace (OpSleep (wait_exponential a)) w1)).
      { exists [OpSleep (wait_exponential a)]. split; [done|]. cbn. rewrite HP. cbn. lia. }
      pose proof (at_most_trans _ _ _ _ _ _ _ _ Hf (at_most_trans _ _ _ _ _ _ _ _ Hsleep IH)) as H.
      destruct H as (ops & E & A1 & B1). exists ops. split; [done|]. lia.
Qed.

Lemma download_once_at_most rc rj s3_path w :
  at_most is_get_object 1 0 w (snd (download_s3_to_dataframe_once rc rj s3_path w)).
Proof.
  unfold download_s3_to_dataframe_once, bind, log_info, emit. cbv beta iota.
  destruct (negb (startswith "s3://" s3_path)).
  { eexists [_]. split; [reflexivity|]. cbn. lia. }
  destruct (split1 "/" (replace "s3://" "" s3_path)) as [|b [|k [|? ?]]];
    try (eexists [_]; split; [reflexivity|]; cbn; lia).
  unfold bind, call, get. cbn.
  assert (H : forall (r : result DataFrame) (w0 : World),
             trace w0 = (trace w ++ [OpLog "INFO" ("Reading " +:+ s3_path)]) ++ [OpGetObject b k] ->
             at_most is_get_object 1 0 w w0).
  { intros r w0 Hw0. exists [OpLog "INFO" ("Reading " +:+ s3_path); OpGetObject b k].
    rewrite Hw0, <- app_assoc. split; [done|]. cbn. lia. }
  destruct (faults w (calls w)); cbn; [by apply (H (Raise e))|].
  destruct (s3 w !! (b, k)); cbn; [|by apply (H (Raise (Exn [] "")))].
  repeat match goal with
         | |- context [if ?c then _ else _] => destruct c
         | |- context [match rj ?a ?b with _ => _ end] => destruct (rj a b)
         | |- context [lift ?r _] => unfold lift
         | |- context [raise ?r _] => unfold raise
         | |- context [ret ?r _] => unfold ret
         end; cbn; by apply (H (Raise (Exn [] ""))).
Qed.

Lemma postgres_once_at_most cfg table creds w :
  at_most is_connect 1 0 w
    (snd (extract_postgres_table_to_df_once table creds (POSTGRES_SCHEMA cfg) w)).
Proof.
  assert (H : forall ops (w0 : World),
             trace w0 = trace w ++ ops ->
             length (List.filter is_connect ops) <= 1 -> List.filter is_wait ops = [] ->
             at_most is_connect 1 0 w w0).
  { intros ops w0 Hw0 H1 H2. exists ops. rewrite H2. split; [done|]. cbn. lia. }
  unfold extract_postgres_table_to_df_once, try_finally, bind, call, get, log_info, emit, lift.
  destruct (py_getitem creds "host") as [host|?]; cbn;
    [|by eapply (H [_]); [reflexivity|cbn; lia|done]].
  destruct (py_getitem creds "dbname"); cbn;
    [|by eapply (H [_]); [reflexivity|cbn; lia|done]].
  destruct (py_getitem creds "username"); cbn;
    [|by eapply (H [_]); [reflexivity|cbn; lia|done]].
  destruct (py_getitem creds "password"); cbn;
    [|by eapply (H [_]); [reflexivity|cbn; lia|done]].
  destruct (faults w (calls w)); cbn.
  { eapply H; [cbn; rewrite <- !app_assoc; reflexivity|cbn; lia|done]. }
  destruct (faults w (S (calls w))); cbn.
  { destruct (faults w (S (S (calls w)))); cbn;
      (eapply H; [cbn; rewrite <- !app_assoc; reflexivity|cbn; lia|done]). }
  destruct (pg w !! _) as [[|? ?]|]; cbn;
    destruct (faults w (S (S (calls w)))); cbn;
      (eapply H; [cbn; rewrite <- !app_assoc; reflexivity|cbn; lia|done]).
Qed.

(** X13.  Whatever fails, [download_s3_to_dataframe] issues at most five
    object requests and [extract_postgres_table_to_df] opens at most five
    connections, each with at most four waits, and every wait is between
    1 and 30 seconds. *)
Theorem retries_are_bounded (cfg : Config) rc rj (s3_path table : string)
    (creds : json) (w : World) :
  (let w' := snd (download_s3_to_dataframe rc rj s3_path w) in
   length (List.filter is_get_object (since w w')) <= stop_after_attempt /\
   length (List.filter is_wait (since w w')) <= stop_after_attempt - 1) /\
  (let w' := snd (extract_postgres_table_to_df cfg table creds w) in
   length (List.filter is_connect (since w w')) <= stop_after_attempt /\
   length (List.filter is_wait (since w w')) <= stop_after_attempt - 1) /\
  (forall n, 1 <= wait_exponential n <= 30).
Proof.
  split; [|split].
  - destruct (attempts_at_most (download_s3_to_dataframe_once rc rj s3_path) is_get_object
                (fun _ => eq_refl) (download_once_at_most rc rj s3_path)
                (stop_after_attempt - 1) 1 w) as (ops & E & A & B).
    cbv zeta. unfold download_s3_to_dataframe, retry.
    rewrite (since_app _ _ _ E). unfold stop_after_attempt in *. cbn in *. lia.
  - destruct (attempts_at_most
                (extract_postgres_table_to_df_once table creds (POSTGRES_SCHEMA cfg)) is_connect
                (fun _ => eq_refl) (fun w0 => postgres_once_at_most cfg table creds w0)
                (stop_after_attempt - 1) 1 w) as (ops & E & A & B).
    cbv zeta. unfold extract_postgres_table_to_df, retry.
    rewrite (since_app _ _ _ E). unfold stop_after_attempt in *. cbn in *. lia.
  - intros n. unfold wait_exponential. lia.
Qed.

(* --------------------------------------------------------------------- *)
(** *** One attempt on a table *)

(** X14.  One attempt of [extract_postgres_table_to_df]: when the
    credentials lack one of the fields the connection is made with, the
    attempt raises after its log line and nothing is called; when the
    connection cannot be opened nothing else is called; otherwise the
    scan of schema.table is issued and the connection is closed, whether
    the scan failed or not.  An error of [close] masks the scan's; else
    the scan's error is raised; else the chunks are concatenated, and no
    chunk gives the empty frame.  Store and database are untouched. *)
Theorem postgres_connection_is_always_closed
    (table_name schema : string) (credentials : json) (w : World) :
  let run := extract_postgres_table_to_df_once table_name credentials schema w in
  let logged := [OpLog "INFO" ("Extracting Postgres table " +:+ table_name)] in
  match connect_host credentials with
  | Raise e => fst run = Raise e /\ since w (snd run) = logged
  | Ok host =>
      let opened := logged ++ [OpPgConnect host] in
      match faults w (calls w) with
      | Some e => fst run = Raise e /\ since w (snd run) = opened
      | None =>
          since w (snd run) = opened ++ [OpPgQuery (scan_sql schema table_name); OpPgClose] /\
          fst run =
            match faults w (2 + calls w), faults w (1 + calls w) with
            | Some e_close, _ => Raise e_close
            | None, Some e_query => Raise e_query
            | None, None => scan_result (pg (snd run) !! scan_sql schema table_name)
            end
      end
  end /\
  s3 (snd run) = s3 w /\ pg (snd run) = pg w.
Proof.
  cbv zeta. unfold extract_postgres_table_to_df_once, scan_sql, scan_result.
  assert (Hs : forall (w0 : World) ops, trace w0 = trace w ++ ops -> since w w0 = ops)
    by (intros; by apply since_app).
  unfold connect_host, try_finally, bind, call, get, log_info, emit, raise, ret, lift.
  destruct (py_getitem credentials "host") as [host|?]; cbn;
    [|repeat split; by apply Hs].
  destruct (py_getitem credentials "dbname"); cbn; [|repeat split; by apply Hs].
  destruct (py_getitem credentials "username"); cbn; [|repeat split; by apply Hs].
  destruct (py_getitem credentials "password"); cbn; [|repeat split; by apply Hs].
  destruct (faults w (calls w)); cbn.
  { repeat split. apply Hs. cbn. by rewrite <- app_assoc. }
  destruct (faults w (S (calls w))); cbn.
  { destruct (faults w (S (S (calls w)))); cbn;
      repeat split; apply Hs; cbn; by rewrite <- !app_assoc. }
  destruct (pg w !! ("SELECT * FROM " +:+ schema +:+ "." +:+ table_name)) as [[|? ?]|] eqn:E;
    cbn; destruct (faults w (S (S (calls w)))); cbn; rewrite ?E;
      repeat split; apply Hs; cbn; by rewrite <- !app_assoc.
Qed.

(* --------------------------------------------------------------------- *)
(** *** Reading a sheet *)

Lemma frame_of_rows_shape header rows df :
  frame_of_rows header rows = Ok df ->
  df_rows df = length rows /\
  map col_name (df_columns df) = header /\
  (rows <> [] -> widest rows = length header) /\
  forall j h, header !! j = Some h ->
    exists c, df_columns df !! j = Some c /\ col_name c = h /\
              col_values c = map (fun row => sheet_cell row j) rows.
Proof.
  unfold frame_of_rows. fold (widest rows). destruct rows as [|row rows].
  - intros [= <-]. cbn. split; [done|]. split.
    + rewrite map_map. cbn. apply map_id.
    + split; [done|]. intros j h Hj. eexists. split.
      * rewrite list_lookup_fmap, Hj. reflexivity.
      * done.
  - destruct (widest (row :: rows) =? length header)%nat eqn:Hw; [|discriminate].
    apply Nat.eqb_eq in Hw. intros [= <-]. cbn [df_rows df_columns].
    split; [done|]. split.
    + rewrite fmap_imap. unfold compose. cbn.
      etrans; [apply (imap_const id)|apply list_fmap_id].
    + split; [done|]. intros j h Hj. eexists. split.
      * rewrite list_lookup_imap, Hj. reflexivity.
      * done.
Qed.

(** X15.  [extract_google_sheet_to_df] makes one call.  No values, or an
    empty list of them, give the empty frame.  Otherwise the first row
    names the columns and the remaining rows are the data: the frame has
    one row per data row, its column names are the header, and the cell
    of row i under column j is the j-th cell of that row, None where the
    row is short; it raises a ValueError exactly when there are data rows
    and the longest does not have the length of the header. *)
Theorem google_sheet_first_row_is_header
    (sheet_id range_name service_account_json : string) (w : World)
    (Hcall : faults w (calls w) = None) :
  exists r w',
    extract_google_sheet_to_df sheet_id range_name service_account_json w = (r, w') /\
    since w w' = [OpSheetsGet sheet_id range_name] /\
    match sheets w !! (sheet_id, range_name) with
    | None | Some [] => r = Ok empty_frame
    | Some (header :: rows) =>
        match r with
        | Ok df =>
            df_rows df = length rows /\
            map col_name (df_columns df) = header /\
            (rows <> [] -> widest rows = length header) /\
            forall j h, header !! j = Some h ->
              exists c, df_columns df !! j = Some c /\ col_name c = h /\
                        col_values c = map (fun row => sheet_cell row j) rows
        | Raise e =>
            rows <> [] /\ widest rows <> length header /\ is_ValueError e = true
        end
    end.
Proof.
  unfold extract_google_sheet_to_df, bind, call, get, ret, lift. cbn. rewrite Hcall. cbn.
  destruct (sheets w !! (sheet_id, range_name)) as [[|header rows]|]; cbn;
    (eexists _, _; split; [reflexivity|]; split; [by apply since_app|]); try done.
  destruct (frame_of_rows header rows) as [df|e] eqn:Hf.
  - by apply frame_of_rows_shape.
  - unfold frame_of_rows in Hf. fold (widest rows) in Hf. destruct rows; [discriminate|].
    destruct (widest (l :: rows) =? length header)%nat eqn:Hw; [discriminate|].
    apply Nat.eqb_neq in Hw. injection Hf as <-. done.
Qed.

Lemma google_sheet_first_row_is_header_witness :
  let w := Demo.world ∅ Demo.no_faults in
  exists r w',
    extract_google_sheet_to_df "sheet1" "Agents!A1:Z999" "/secrets/gcp-sa.json" w = (r, w') /\
    since w w' = [OpSheetsGet "sheet1" "Agents!A1:Z999"].
Proof.
  intros w.
  destruct (google_sheet_first_row_is_header "sheet1" "Agents!A1:Z999" "/secrets/gcp-sa.json" w)
    as (r & w' & Hrun & Hsince & _); [reflexivity|].
  exists r, w'. split; assumption.
Defined.

Ltac absent_from_trace H :=
  repeat (let x := fresh in
          inversion H as [|? ? ? x]; subst; clear H; rename x into H);
  inversion H.

(** X16.  A sheet whose identifier the manifest document contains is
    not fetched:
    [process_google_sheet] returns after the manifest read and one log
    line, no call to the Sheets API is among its calls, and nothing is
    written. *)
Theorem google_sheet_is_read_once
    (cfg : Config) md5 (sheet_id range_name source_name sa_path : string)
    (w w0 : World) (doc : json)
    (Hload : read_processed_manifest cfg w = (Ok doc, w0))
    (Hdone : py_contains (sheet_identifier sheet_id range_name) doc = Ok true) :
  exists w',
    process_google_sheet cfg md5 sheet_id range_name source_name sa_path w = (Ok tt, w') /\
    reads_only w w' /\
    since w0 w' = [OpLog "INFO" ("Skipping already processed google sheet "
                                  +:+ sheet_identifier sheet_id range_name)] /\
    (forall op, op ∈ since w w' -> op <> OpSheetsGet sheet_id range_name).
Proof.
  destruct (process_google_sheet_skip cfg md5 sheet_id range_name source_name sa_path w doc w0
              Hload Hdone) as [Hrun Hro].
  eexists. split; [exact Hrun|]. split.
  { by apply reads_only_append_trace. }
  split. { by apply since_app. }
  intros op Hin ->.
  unfold read_processed_manifest, try_except, bind, call, get, ret, raise, log_exception_of,
    emit, lift in Hload. cbn in Hload.
  assert (Hs : forall (w1 : World) ops, trace w1 = trace w ++ ops -> since w w1 = ops)
    by (intros; by apply since_app).
  revert Hload.
  destruct (faults w (calls w)); cbn.
  { intros [= <- <-]. erewrite Hs in Hin; [|cbn; rewrite <- !app_assoc; reflexivity].
    absent_from_trace Hin. }
  destruct (s3 w !! s3fs_split (PROCESSED_MANIFEST cfg)); cbn.
  2:{ intros [= <- <-]. erewrite Hs in Hin; [|cbn; rewrite <- !app_assoc; reflexivity].
      absent_from_trace Hin. }
  destruct (faults w (S (calls w))); cbn.
  { intros [= <- <-]. erewrite Hs in Hin; [|cbn; rewrite <- !app_assoc; reflexivity].
    absent_from_trace Hin. }
  destruct (json_load b); cbn; intros [= <- <-];
    (erewrite Hs in Hin; [|cbn; rewrite <- !app_assoc; reflexivity]); absent_from_trace Hin.
Qed.

Lemma google_sheet_is_read_once_witness :
  let w := Demo.world Cases.with_sheet_manifest Demo.no_faults in
  exists w',
    process_google_sheet Demo.config Demo.md5 "sheet1" "Agents!A1:Z999" "agents"
      "/secrets/gcp-sa.json" w = (Ok tt, w') /\
    reads_only w w'.
Proof.
  intros w.
  destruct (google_sheet_is_read_once Demo.config Demo.md5 "sheet1" "Agents!A1:Z999" "agents"
              "/secrets/gcp-sa.json" w (snd (read_processed_manifest Demo.config w))
              Cases.sheet_manifest)
    as (w' & Hrun & Hro & _).
  - vm_compute; reflexivity.
  - vm_compute; reflexivity.
  - exists w'. split; assumption.
Defined.

(* --------------------------------------------------------------------- *)
(** *** A run without tables *)

(** X17.  With no table name in [POSTGRES_TABLES] (unset, empty, or only
    commas and blanks) a run never reads the credentials and never
    connects to Postgres, whatever else happens in it. *)
Theorem no_tables_no_postgres (cfg : Config) rc rj md5 (w : World)
    (Hnone : parse_table_names (POSTGRES_TABLES cfg) = []) :
  trace_grows leaves_postgres_alone w (snd (run_full_ingest cfg rc rj md5 w)).
Proof.
  revert w. change (respects (trace_grows leaves_postgres_alone) (run_full_ingest cfg rc rj md5)).
  unfold run_full_ingest. rewrite Hnone.
  unfold process_s3_prefix, process_google_sheet, list_s3_objects, read_processed_manifest,
    write_processed_manifest, extract_google_sheet_to_df, ensure_local_tmp.
  unfold process_s3_object, download_s3_to_dataframe, retry, download_s3_to_dataframe_once,
    email_hygiene, write_parquet_to_s3_atomic, ensure_local_tmp, named_temporary_file,
    log_info, log_warning, log_exception.
  cbv zeta. grows_tac.
Qed.

Lemma no_tables_no_postgres_witness :
  let w := Demo.world Demo.one_customer Demo.no_faults in
  trace_grows leaves_postgres_alone w
    (snd (run_full_ingest Cases.config_without_tables Demo.read_csv Demo.read_json Demo.md5 w)).
Proof.
  intros w.
  apply (no_tables_no_postgres Cases.config_without_tables Demo.read_csv Demo.read_json
           Demo.md5 w).
  reflexivity.
Defined.

(* --------------------------------------------------------------------- *)
(** *** Column names of a dataset *)

(** X18.  [normalize_columns] renames and does nothing else: row count,
    cells and dtypes are kept in order, every name is the normalised
    name, made of lower-case letters, digits and single underscores, and
    normalising again changes nothing. *)
Theorem normalize_columns_settles (df : DataFrame) :
  normalize_columns (normalize_columns df) = normalize_columns df /\
  df_rows (normalize_columns df) = df_rows df /\
  map col_values (df_columns (normalize_columns df)) = map col_values (df_columns df) /\
  map col_dtype (df_columns (normalize_columns df)) = map col_dtype (df_columns df) /\
  map col_name (df_columns (normalize_columns df)) =
    map normalize_column_name (map col_name (df_columns df)) /\
  forall c, c ∈ df_columns (normalize_columns df) ->
            all_chars slug_class (col_name c) = true /\ single_underscores (col_name c) = true.
Proof.
  unfold normalize_columns. cbn [df_rows df_columns]. repeat split.
  - f_equal. rewrite map_map. apply map_ext. intros c. unfold rename_column. cbn. f_equal.
    destruct (normalize_column_name_slug (col_name c)). by apply normalize_column_name_fixed.
  - rewrite map_map. by apply map_ext.
  - rewrite map_map. by apply map_ext.
  - rewrite !map_map. by apply map_ext.
  - apply list_elem_of_fmap in H as (c0 & -> & _). apply normalize_column_name_slug.
  - apply list_elem_of_fmap in H as (c0 & -> & _). apply normalize_column_name_slug.
Qed.

(* --------------------------------------------------------------------- *)
(** *** The schema fingerprint *)

Lemma all_chars_app P (a b : string) :
  all_chars P (a +:+ b) = all_chars P a && all_chars P b.
Proof.
  induction a as [|c a IH]; [done|].
  change (String c a +:+ b) with (String c (a +:+ b)). cbn [all_chars].
  by rewrite IH, andb_assoc.
Qed.

(** Two texts cut at the first occurrence of a character that neither
    head contains have equal heads and equal tails. *)
Lemma cut_at_first (sep : ascii) (a b r r' : string) :
  all_chars (fun c => negb (Ascii.eqb c sep)) a = true ->
  all_chars (fun c => negb (Ascii.eqb c sep)) b = true ->
  a +:+ String sep r = b +:+ String sep r' -> a = b /\ r = r'.
Proof.
  revert b. induction a as [|c a IH]; intros [|d b] Ha Hb H.
  - by injection H.
  - change (String d b +:+ ?x) with (String d (b +:+ x)) in H. injection H as <- _.
    cbn in Hb. by rewrite Ascii.eqb_refl in Hb.
  - change (String c a +:+ ?x) with (String c (a +:+ x)) in H. injection H as -> _.
    cbn in Ha. by rewrite Ascii.eqb_refl in Ha.
  - change (String c a +:+ ?x) with (String c (a +:+ x)) in H.
    change (String d b +:+ ?x) with (String d (b +:+ x)) in H.
    injection H as -> H. cbn [all_chars] in Ha, Hb.
    apply andb_true_iff in Ha as [_ Ha]. apply andb_true_iff in Hb as [_ Hb].
    destruct (IH b Ha Hb H) as [-> ->]. done.
Qed.

Lemma no_sep_no_cut (sep : ascii) (a b r : string) :
  all_chars (fun c => negb (Ascii.eqb c sep)) a = true -> a <> b +:+ String sep r.
Proof.
  revert b. induction a as [|c a IH]; intros [|d b] Ha H; try discriminate.
  - injection H as -> _. cbn in Ha. by rewrite Ascii.eqb_refl in Ha.
  - change (String d b +:+ ?x) with (String d (b +:+ x)) in H. injection H as -> H.
    cbn [all_chars] in Ha. apply andb_true_iff in Ha as [_ Ha]. by apply (IH b Ha).
Qed.

Lemma hash_df_schema_items md5 df : hash_df_schema md5 df = md5 (schema_text df).
Proof. unfold hash_df_schema, schema_text, schema_of. by rewrite map_map. Qed.

Lemma plain_no_colon s :
  all_chars plain_char s = true -> all_chars (fun c => negb (Ascii.eqb c ":")) s = true.
Proof.
  apply all_chars_impl. intros c. unfold plain_char. by intros [? ?]%andb_true_iff.
Qed.

Lemma plain_no_bar s :
  all_chars plain_char s = true -> all_chars (fun c => negb (Ascii.eqb c "|")) s = true.
Proof.
  apply all_chars_impl. intros c. unfold plain_char. by intros [? ?]%andb_true_iff.
Qed.

Lemma schema_item_no_bar p :
  all_chars plain_char (fst p) && all_chars plain_char (snd p) = true ->
  all_chars (fun c => negb (Ascii.eqb c "|")) (schema_item p) = true.
Proof.
  intros [H1 H2]%andb_true_iff. unfold schema_item.
  rewrite !all_chars_app, (plain_no_bar _ H1), (plain_no_bar _ H2). done.
Qed.

Lemma schema_item_inj p q :
  all_chars plain_char (fst p) && all_chars plain_char (snd p) = true ->
  all_chars plain_char (fst q) && all_chars plain_char (snd q) = true ->
  schema_item p = schema_item q -> p = q.
Proof.
  intros [Hp _]%andb_true_iff [Hq _]%andb_true_iff H. unfold schema_item in H.
  destruct p as [a b], q as [a' b']. cbn in *.
  destruct (cut_at_first ":" a a' b b' (plain_no_colon _ Hp) (plain_no_colon _ Hq) H). congruence.
Qed.

Lemma concat_items_inj (l1 l2 : list (string * string)) :
  forallb (fun p => all_chars plain_char (fst p) && all_chars plain_char (snd p)) l1 = true ->
  forallb (fun p => all_chars plain_char (fst p) && all_chars plain_char (snd p)) l2 = true ->
  String.concat "|" (map schema_item l1) = String.concat "|" (map schema_item l2) ->
  l1 = l2.
Proof.
  revert l2. induction l1 as [|p l1 IH]; intros [|q l2] H1 H2 H; [done|..].
  - exfalso. cbn in H. destruct (map schema_item l2); unfold schema_item in H;
      destruct (fst q); discriminate.
  - exfalso. cbn in H. destruct (map schema_item l1); unfold schema_item in H;
      destruct (fst p); discriminate.
  - cbn [forallb] in H1, H2.
    apply andb_true_iff in H1 as [Hp H1]. apply andb_true_iff in H2 as [Hq H2].
    pose proof (schema_item_no_bar _ Hp) as Bp. pose proof (schema_item_no_bar _ Hq) as Bq.
    cbn [map String.concat] in H.
    destruct l1 as [|p1 l1], l2 as [|q1 l2]; cbn [map] in H.
    + f_equal. by apply schema_item_inj.
    + exfalso. by apply (no_sep_no_cut "|" _ _ _ Bp H).
    + exfalso. symmetry in H. by apply (no_sep_no_cut "|" _ _ _ Bq H).
    + change ("|" +:+ ?x) with (String "|" x) in H.
      destruct (cut_at_first "|" _ _ _ _ Bp Bq H) as [Hi Hr].
      f_equal; [by apply schema_item_inj|]. by apply IH.
Qed.

(** X19.  [hash_df_schema] digests the names and dtypes of the columns
    in their order and nothing else: the fingerprint is the digest of the
    line [name:dtype|name:dtype|...], so datasets with the same names
    and dtypes in the same order have the same fingerprint, whatever
    their cells and row counts.  For datasets whose names and dtypes
    contain neither [:] nor [|] the line determines the names, the
    dtypes and their order: such datasets with different schemas and
    equal fingerprints are a collision of the digest on two different
    lines.  A name with a separator in it breaks this for every digest:
    a column [a:int64|b] of dtype object and the columns [a] of dtype
    int64 and [b] of dtype object have one line and one fingerprint. *)
Theorem schema_fingerprint_reads_names_and_dtypes (md5 : string -> string) :
  (forall df, hash_df_schema md5 df = md5 (schema_text df)) /\
  (forall df1 df2,
     schema_of df1 = schema_of df2 -> hash_df_schema md5 df1 = hash_df_schema md5 df2) /\
  (forall df1 df2,
     plain_schema df1 = true -> plain_schema df2 = true ->
     (schema_text df1 = schema_text df2 <-> schema_of df1 = schema_of df2) /\
     (hash_df_schema md5 df1 = hash_df_schema md5 df2 ->
      schema_of df1 <> schema_of df2 ->
      schema_text df1 <> schema_text df2 /\
      md5 (schema_text df1) = md5 (schema_text df2))) /\
  schema_of Cases.joined_column_frame <> schema_of Cases.two_column_frame /\
  schema_text Cases.joined_column_frame = schema_text Cases.two_column_frame /\
  hash_df_schema md5 Cases.joined_column_frame = hash_df_schema md5 Cases.two_column_frame.
Proof.
  split; [apply hash_df_schema_items|].
  split. { intros df1 df2 H. by rewrite !hash_df_schema_items; unfold schema_text; rewrite H. }
  split.
  - intros df1 df2 H1 H2.
    assert (Hiff : schema_text df1 = schema_text df2 <-> schema_of df1 = schema_of df2).
    { split; [by apply concat_items_inj|]. unfold schema_text. by intros ->. }
    split; [exact Hiff|]. intros Hh Hne. split.
    + intros Ht. by apply Hne, Hiff.
    + by rewrite <- !hash_df_schema_items.
  - split; [discriminate|]. split; [reflexivity|].
    by rewrite !hash_df_schema_items.
Qed.

(* --------------------------------------------------------------------- *)
(** *** Accepted addresses *)

Lemma lower_char_lowered c : lowered (lower_char c) = true.
Proof. destruct c as [[] [] [] [] [] [] [] []]; vm_compute; reflexivity. Qed.

Lemma lower_lowered s : all_chars lowered (lower s) = true.
Proof. induction s as [|c r IH]; [done|]. cbn. by rewrite lower_char_lowered, IH. Qed.

Lemma lowered_fixed s : all_chars lowered s = true -> lower s = s.
Proof.
  induction s as [|c r IH]; [done|]. cbn [all_chars lower].
  intros [Hc Hr]%andb_true_iff. apply Ascii.eqb_eq in Hc. by rewrite Hc, IH.
Qed.

Lemma replace_from_all_chars P old new s k :
  all_chars P new = true -> all_chars P s = true ->
  all_chars P (replace_from old new s k) = true.
Proof.
  intros Hn. revert k. induction s as [|c r IH]; intros k Hs; [done|].
  cbn [all_chars] in Hs. apply andb_true_iff in Hs as [Hc Hr].
  cbn [replace_from]. destruct k; [|by apply IH].
  destruct (String.prefix old (String c r)).
  - rewrite all_chars_app, Hn. by apply IH.
  - cbn [all_chars]. rewrite Hc. by apply IH.
Qed.

Lemma replace_all_chars P old new s :
  all_chars P new = true -> all_chars P s = true -> all_chars P (replace old new s) = true.
Proof. apply replace_from_all_chars. Qed.

Lemma matches_star_class cls s :
  Re.matches (Re.Rstar (Re.Rset cls)) s -> all_chars cls s = true.
Proof.
  intros H. remember (Re.Rstar (Re.Rset cls)) as r eqn:E.
  induction H; try discriminate; [done|].
  injection E as ->. inversion H as [|? c Hc| | | | |]; subst.
  change (String c "" +:+ ?x) with (String c x). cbn [all_chars]. rewrite Hc. by apply IHmatches2.
Qed.

Lemma matches_plus_class cls s :
  Re.matches (Re.Rplus (Re.Rset cls)) s -> s <> "" /\ all_chars cls s = true.
Proof.
  unfold Re.Rplus. intros H. inversion H as [| |r1 r2 s1 s2 H1 H2| | | |]; subst.
  inversion H1 as [|? c Hc| | | | |]; subst.
  change (String c "" +:+ ?x) with (String c x). split; [done|]. cbn [all_chars]. rewrite Hc.
  by apply matches_star_class.
Qed.

Lemma matches_char a s : Re.matches (Re.Rchar a) s -> s = String a "".
Proof. unfold Re.Rchar. intros H. inversion H as [|? c Hc| | | | |]; subst. by apply Ascii.eqb_eq in Hc as ->. Qed.

Lemma matches_dollar s : Re.matches Re.Rdollar s -> s = "" \/ s = newline.
Proof.
  unfold Re.Rdollar. intros H. inversion H as [| | |? ? ? HL|? ? ? HR| |]; subst.
  - inversion HL. by left.
  - right. by apply matches_char.
Qed.

Lemma star_of_class cls s : all_chars cls s = true -> Re.matches (Re.Rstar (Re.Rset cls)) s.
Proof.
  induction s as [|c r IH]; [constructor|]. cbn [all_chars]. intros [Hc Hr]%andb_true_iff.
  change (String c r) with (String c "" +:+ r). constructor; [by constructor|by apply IH].
Qed.

Lemma plus_of_class cls s :
  s <> "" -> all_chars cls s = true -> Re.matches (Re.Rplus (Re.Rset cls)) s.
Proof.
  destruct s as [|c r]; [done|]. intros _. cbn [all_chars]. intros [Hc Hr]%andb_true_iff.
  change (String c r) with (String c "" +:+ r). constructor; [by constructor|by apply star_of_class].
Qed.

Lemma char_of a : Re.matches (Re.Rchar a) (String a "").
Proof. constructor. apply Ascii.eqb_refl. Qed.

Lemma append_nil_r (s : string) : s +:+ "" = s.
Proof. induction s as [|c r IH]; [done|]. change (String c r +:+ "") with (String c (r +:+ "")). by rewrite IH. Qed.

Lemma append_assoc (a b c : string) : (a +:+ b) +:+ c = a +:+ (b +:+ c).
Proof.
  induction a as [|x a IH]; [done|].
  change (String x a +:+ b) with (String x (a +:+ b)).
  change (String x (a +:+ b) +:+ c) with (String x ((a +:+ b) +:+ c)).
  change (String x a +:+ (b +:+ c)) with (String x (a +:+ (b +:+ c))). by rewrite IH.
Qed.

(** The parts of a text that [EMAIL_REGEX] matches. *)
Lemma email_regex_parts e :
  Re.matches EMAIL_REGEX e <->
  exists local domain tld tail,
    e = local +:+ "@" +:+ domain +:+ "." +:+ tld +:+ tail /\
    local <> "" /\ all_chars local_class local = true /\
    domain <> "" /\ all_chars domain_class domain = true /\
    2 <= String.length tld /\ all_chars alpha_class tld = true /\
    (tail = "" \/ tail = newline).
Proof.
  split.
  - unfold EMAIL_REGEX. intros H.
    inversion H as [| |? ? l r1 Hl H1| | | |]; subst.
    inversion H1 as [| |? ? a r2 Ha H2| | | |]; subst.
    inversion H2 as [| |? ? d r3 Hd H3| | | |]; subst.
    inversion H3 as [| |? ? p r4 Hp H4| | | |]; subst.
    inversion H4 as [| |? ? t z Ht Hz| | | |]; subst.
    inversion Ht as [| |? ? t1 t2 Ht1 Ht2| | | |]; subst.
    apply matches_plus_class in Hl as [Hl1 Hl2], Hd as [Hd1 Hd2], Ht2 as [Ht21 Ht22].
    apply matches_char in Ha as ->, Hp as ->. apply matches_dollar in Hz.
    inversion Ht1 as [|? c Hc| | | | |]; subst.
    exists l, d, (String c "" +:+ t2), z. repeat split; try done.
    + change (String c "" +:+ t2) with (String c t2). destruct t2; [done|]. cbn. lia.
    + change (String c "" +:+ t2) with (String c t2). cbn [all_chars]. by rewrite Hc, Ht22.
  - intros (l & d & t & z & -> & Hl1 & Hl2 & Hd1 & Hd2 & Ht1 & Ht2 & Hz).
    unfold EMAIL_REGEX.
    constructor; [by apply plus_of_class|].
    change ("@" +:+ ?x) with (String "@" "" +:+ x). constructor; [apply char_of|].
    constructor; [by apply plus_of_class|].
    change ("." +:+ ?x) with (String "." "" +:+ x). constructor; [apply char_of|].
    constructor.
    + destruct t as [|c t]; [cbn in Ht1; lia|].
      cbn [all_chars] in Ht2. apply andb_true_iff in Ht2 as [Hc Ht2].
      change (String c t) with (String c "" +:+ t). constructor; [by constructor|].
      apply plus_of_class; [|done]. destruct t; [cbn in Ht1; lia|done].
    + unfold Re.Rdollar. destruct Hz as [-> | ->]; [apply Re.MAltL; constructor|].
      apply Re.MAltR. apply char_of.
Qed.

Lemma rstrip_final_newline s :
  all_chars solid s = true -> rstrip (s +:+ newline) = s.
Proof.
  induction s as [|c r IH]; [done|]. cbn [all_chars]. intros [Hc Hr]%andb_true_iff.
  change (String c r +:+ newline) with (String c (r +:+ newline)). cbn [rstrip].
  rewrite (IH Hr). unfold solid in Hc. apply negb_true_iff in Hc. rewrite Hc. by destruct r.
Qed.

Lemma strip_tail s tail :
  s <> "" -> all_chars solid s = true -> tail = "" \/ tail = newline -> strip (s +:+ tail) = s.
Proof.
  intros Hne Hs [-> | ->].
  - rewrite append_nil_r. by apply strip_fixed.
  - unfold strip. destruct s as [|c r]; [done|].
    change (String c r +:+ newline) with (String c (r +:+ newline)). cbn [lstrip].
    pose proof Hs as Hs'. cbn [all_chars] in Hs'. apply andb_true_iff in Hs' as [Hc _].
    unfold solid in Hc. apply negb_true_iff in Hc. rewrite Hc.
    by apply (rstrip_final_newline (String c r)).
Qed.

Lemma contains_needs_head (P : ascii -> bool) a old s :
  P a = false -> all_chars P s = true -> contains (String a old) s = false.
Proof.
  intros Ha. induction s as [|c r IH]; [done|]. cbn [all_chars contains].
  intros [Hc Hr]%andb_true_iff. rewrite (IH Hr), orb_false_r.
  cbn [String.prefix]. destruct (ascii_dec a c) as [->|]; [congruence|done].
Qed.

Lemma address_untouched s :
  all_chars address_char s = true ->
  replace backslash_s_plus "" (at_substitutions s) = s.
Proof.
  intros H. unfold at_substitutions, backslash_s_plus.
  rewrite (replace_absent "(at)") by (by apply (contains_needs_head address_char)).
  rewrite (replace_absent "[at]") by (by apply (contains_needs_head address_char)).
  rewrite (replace_absent " at ") by (by apply (contains_needs_head address_char)).
  by rewrite replace_absent by (by apply (contains_needs_head address_char)).
Qed.

Lemma local_is_address c : local_class c = true -> address_char c = true.
Proof. unfold address_char. by intros ->. Qed.
Lemma domain_is_address c : domain_class c = true -> address_char c = true.
Proof. destruct c as [[] [] [] [] [] [] [] []]; vm_compute; done. Qed.
Lemma alpha_is_address c : alpha_class c = true -> address_char c = true.
Proof. destruct c as [[] [] [] [] [] [] [] []]; vm_compute; done. Qed.
Lemma address_is_solid c : address_char c = true -> solid c = true.
Proof. destruct c as [[] [] [] [] [] [] [] []]; vm_compute; done. Qed.

(** X20.  What [clean_email] returns, when it returns a text, has the
    shape local@domain.tld: a non-empty local part of [[A-Za-z0-9._%+-]],
    a non-empty domain of [[A-Za-z0-9.-]], a dot, at least two letters,
    and possibly one final newline (which [$] lets through).  It is in
    lower case, and cleaning it again gives the same address without the
    newline. *)
Theorem clean_email_returns_an_address (v : pyval) (e : string)
    (H : clean_email v = VStr e) :
  exists local domain tld tail,
    e = local +:+ "@" +:+ domain +:+ "." +:+ tld +:+ tail /\
    local <> "" /\ all_chars local_class local = true /\
    domain <> "" /\ all_chars domain_class domain = true /\
    2 <= String.length tld /\ all_chars alpha_class tld = true /\
    (tail = "" \/ tail = newline) /\
    lower e = e /\
    clean_email (VStr e) = VStr (local +:+ "@" +:+ domain +:+ "." +:+ tld).
Proof.
  destruct v as [| | | |s]; try discriminate. cbn [clean_email] in H. cbv zeta in H.
  destruct (email_regex_match _) eqn:Hm; [|discriminate]. injection H as He.
  assert (Hlow : all_chars lowered e = true).
  { rewrite <- He. unfold at_substitutions.
    repeat (apply replace_all_chars; [done|]). apply lower_lowered. }
  rewrite He in Hm. pose proof Hm as Hp.
  apply email_regex_match_spec, email_regex_parts in Hp
    as (l & d & t & z & Hparts & Hl1 & Hl2 & Hd1 & Hd2 & Ht1 & Ht2 & Hz).
  exists l, d, t, z. repeat split; try done.
  { by apply lowered_fixed. }
  set (body := l +:+ "@" +:+ d +:+ "." +:+ t).
  assert (Hbody : all_chars address_char body = true).
  { unfold body. rewrite !all_chars_app.
    rewrite (all_chars_impl _ _ _ local_is_address Hl2),
            (all_chars_impl _ _ _ domain_is_address Hd2),
            (all_chars_impl _ _ _ alpha_is_address Ht2). done. }
  assert (He' : e = body +:+ z).
  { rewrite Hparts. unfold body. by rewrite !append_assoc. }
  assert (Hstrip : strip e = body).
  { rewrite He'. apply strip_tail; [|by apply (all_chars_impl _ _ _ address_is_solid)|done].
    unfold body. destruct l; done. }
  assert (Hlb : lower body = body).
  { apply lowered_fixed. rewrite He', all_chars_app in Hlow. by apply andb_true_iff in Hlow as [? _]. }
  cbn [clean_email]. cbv zeta. rewrite Hstrip, Hlb, (address_untouched _ Hbody).
  assert (email_regex_match body = true) as ->; [|done].
  apply email_regex_match_spec, email_regex_parts.
  exists l, d, t, "". rewrite append_nil_r. repeat split; try done. by left.
Qed.

Lemma clean_email_returns_an_address_witness :
  exists local domain tld tail,
    "bob@example.org" = local +:+ "@" +:+ domain +:+ "." +:+ tld +:+ tail /\
    (tail = "" \/ tail = newline) /\
    lower "bob@example.org" = "bob@example.org".
Proof.
  destruct (clean_email_returns_an_address (VStr " Bob@Example.org ") "bob@example.org")
    as (l & d & t & z & He & _ & _ & _ & _ & _ & _ & Hz & Hlow & _).
  - vm_compute; reflexivity.
  - exists l, d, t, z. repeat split; assumption.
Defined.

(* --------------------------------------------------------------------- *)
(** *** Table names of a run *)

Lemma rstrip_rstrip s : rstrip (rstrip s) = rstrip s.
Proof.
  induction s as [|c r IH]; [done|]. cbn [rstrip].
  destruct (rstrip r) as [|c' r'] eqn:E.
  - destruct (isspace c) eqn:Hc; [done|]. cbn [rstrip]. by rewrite Hc.
  - cbn [rstrip]. cbn [rstrip] in IH. by rewrite IH.
Qed.

Lemma rstrip_head c r : isspace c = false -> exists r', rstrip (String c r) = String c r'.
Proof. intros Hc. cbn [rstrip]. destruct (rstrip r); rewrite ?Hc; eauto. Qed.

Lemma lstrip_head s :
  lstrip s = "" \/ exists c r, lstrip s = String c r /\ isspace c = false.
Proof.
  induction s as [|c r IH]; [by left|]. cbn [lstrip].
  destruct (isspace c) eqn:Hc; [done|]. right. eauto.
Qed.

Lemma strip_strip s : strip (strip s) = strip s.
Proof.
  unfold strip. destruct (lstrip_head s) as [-> | (c & r & -> & Hc)]; [done|].
  destruct (rstrip_head c r Hc) as [r' E]. rewrite E.
  cbn [lstrip]. rewrite Hc, <- E. apply rstrip_rstrip.
Qed.

Lemma lstrip_all_chars P s : all_chars P s = true -> all_chars P (lstrip s) = true.
Proof.
  induction s as [|c r IH]; [done|]. cbn [lstrip]. destruct (isspace c); [|done].
  cbn [all_chars]. intros [_ Hr]%andb_true_iff. by apply IH.
Qed.

Lemma rstrip_all_chars P s : all_chars P s = true -> all_chars P (rstrip s) = true.
Proof.
  induction s as [|c r IH]; [done|]. cbn [all_chars rstrip]. intros [Hc Hr]%andb_true_iff.
  specialize (IH Hr). destruct (rstrip r).
  - destruct (isspace c); [done|]. cbn. by rewrite Hc.
  - cbn [all_chars] in *. by rewrite Hc.
Qed.

Lemma split_pieces sep s piece :
  piece ∈ split sep s -> all_chars (fun c => negb (Ascii.eqb c sep)) piece = true.
Proof.
  revert piece. induction s as [|c r IH]; intros piece; cbn [split].
  - intros ->%list_elem_of_singleton. done.
  - destruct (Ascii.eqb c sep) eqn:Hc.
    + intros [-> | H]%elem_of_cons; [done|by apply IH].
    + destruct (split sep r) as [|h t].
      * intros ->%list_elem_of_singleton. cbn. by rewrite Hc.
      * intros [-> | H]%elem_of_cons.
        -- cbn [all_chars]. rewrite Hc. apply IH. by left.
        -- apply IH. by right.
Qed.

(** X21.  Every table name [run_full_ingest] takes from
    [POSTGRES_TABLES] is non-empty, has no space at either end, contains
    no comma, and is the trimmed form of one of the comma-separated
    pieces of the variable. *)
Theorem parse_table_names_are_trimmed (raw t : string)
    (H : t ∈ parse_table_names raw) :
  t <> "" /\ strip t = t /\ all_chars not_comma t = true /\
  exists piece, piece ∈ split "," raw /\ t = strip piece.
Proof.
  unfold parse_table_names in H. destruct (String.eqb raw ""); [by apply elem_of_nil in H|].
  apply list_elem_of_In, filter_In in H as [H Hne].
  apply in_map_iff in H as (piece & <- & Hp%list_elem_of_In).
  split; [|split; [|split]].
  - intros E. by rewrite E in Hne.
  - apply strip_strip.
  - unfold strip. apply rstrip_all_chars, lstrip_all_chars. by apply (split_pieces "," raw).
  - eauto.
Qed.

Lemma parse_table_names_are_trimmed_witness :
  "orders" <> "" /\ strip "orders" = "orders" /\ all_chars not_comma "orders" = true.
Proof.
  destruct (parse_table_names_are_trimmed " orders , ,returns" "orders")
    as (H1 & H2 & H3 & _).
  - assert (parse_table_names " orders , ,returns" = ["orders"; "returns"]) as ->
      by (vm_compute; reflexivity).
    by left.
  - repeat split; assumption.
Defined.

(* --------------------------------------------------------------------- *)
(** *** A second run *)

Lemma holds_contains doc identifier :
  holds doc identifier = true -> py_contains identifier doc = Ok true.
Proof. unfold holds. by destruct (py_contains identifier doc) as [[]|]. Qed.

Lemma read_processed_manifest_loads cfg w doc :
  faults w (calls w) = None ->
  faults w (1 + calls w) = None ->
  s3 w !! s3fs_split (PROCESSED_MANIFEST cfg) = Some (Json doc) ->
  read_processed_manifest cfg w =
    (Ok doc, advance 2 [OpFsExists (PROCESSED_MANIFEST cfg); OpFsRead (PROCESSED_MANIFEST cfg)] w).
Proof.
  intros Hexists Hread Hmanifest. cbn in Hread.
  unfold read_processed_manifest, try_except, bind, call, get, ret, lift. cbn.
  rewrite Hexists. cbn. rewrite Hmanifest. cbn. rewrite Hread. cbn.
  unfold advance. cbn. by rewrite <- app_assoc.
Qed.

Lemma skipped_prefix cfg rc rj md5 prefix_s3 source_name file_ext_filter w doc :
  (forall n, faults w n = None) ->
  s3 w !! s3fs_split (PROCESSED_MANIFEST cfg) = Some (Json doc) ->
  prefix_done (s3 w) doc prefix_s3 file_ext_filter = true ->
  process_s3_prefix cfg rc rj md5 prefix_s3 source_name file_ext_filter w =
    (Ok tt, advance 3 (skipped_pass cfg (s3 w) prefix_s3 file_ext_filter) w).
Proof.
  intros Hcalls Hmanifest Hdone. unfold prefix_done in Hdone. unfold skipped_pass.
  apply andb_true_iff in Hdone as [Hscheme Hitems].
  destruct (split1 "/" (replace "s3://" "" prefix_s3)) as [|bucket [|prefix [|? ?]]] eqn:Hsplit;
    try discriminate.
  apply (s3_pass_all_skipped cfg rc rj md5 prefix_s3 bucket prefix source_name file_ext_filter
           w doc); try done.
  intros obj Hobj Hpass. apply holds_contains.
  rewrite forallb_forall in Hitems. apply list_elem_of_In in Hobj.
  specialize (Hitems obj Hobj). by rewrite Hpass in Hitems.
Qed.

Lemma skipped_sheet cfg md5 sheet_id range_name source_name sa_path w doc :
  (forall n, faults w n = None) ->
  s3 w !! s3fs_split (PROCESSED_MANIFEST cfg) = Some (Json doc) ->
  holds doc (sheet_identifier sheet_id range_name) = true ->
  process_google_sheet cfg md5 sheet_id range_name source_name sa_path w =
    (Ok tt,
     advance 2 [OpFsExists (PROCESSED_MANIFEST cfg); OpFsRead (PROCESSED_MANIFEST cfg);
                OpLog "INFO" ("Skipping already processed google sheet "
                              +:+ sheet_identifier sheet_id range_name)] w).
Proof.
  intros Hcalls Hmanifest Hdone.
  destruct (process_google_sheet_skip cfg md5 sheet_id range_name source_name sa_path w doc _
              (read_processed_manifest_loads cfg w doc (Hcalls _) (Hcalls _) Hmanifest)
              (holds_contains _ _ Hdone)) as [-> _].
  unfold advance, append_trace. cbn. by rewrite <- app_assoc.
Qed.

Lemma get_ssm_param_json_loads ssm_param w creds :
  faults w (calls w) = None ->
  ssm w !! ssm_param = Some (Json creds) ->
  get_ssm_param_json ssm_param w = (Ok creds, advance 1 [OpSsmGet ssm_param] w).
Proof.
  intros Hcall Hcreds. unfold get_ssm_param_json, bind, call, get, lift. cbn.
  rewrite Hcall. cbn. by rewrite Hcreds.
Qed.

Lemma write_processed_manifest_again cfg w doc :
  faults w (calls w) = None ->
  s3 w !! s3fs_split (PROCESSED_MANIFEST cfg) = Some (Json doc) ->
  write_processed_manifest cfg doc w =
    (Ok tt,
     advance 1 [OpFsWrite (PROCESSED_MANIFEST cfg);
                OpLog "INFO" ("Wrote processed manifest to " +:+ PROCESSED_MANIFEST cfg)] w).
Proof.
  intros Hcall Hmanifest.
  unfold write_processed_manifest, try_except, bind, call, set_s3, log_info, emit. cbn.
  rewrite Hcall. cbn. rewrite (insert_id _ _ _ Hmanifest).
  unfold advance, append_trace. cbn. by rewrite <- app_assoc.
Qed.

Lemma skipped_tables cfg md5 tables ssm_param source_name w doc creds :
  (forall n, faults w n = None) ->
  s3 w !! s3fs_split (PROCESSED_MANIFEST cfg) = Some (Json doc) ->
  ssm w !! ssm_param = Some (Json creds) ->
  tables_done creds doc tables = true ->
  process_postgres_tables cfg md5 tables ssm_param source_name w =
    (Ok tt,
     advance 4 ([OpFsExists (PROCESSED_MANIFEST cfg); OpFsRead (PROCESSED_MANIFEST cfg);
                 OpSsmGet ssm_param]
                ++ table_skip_logs creds tables
                ++ [OpFsWrite (PROCESSED_MANIFEST cfg);
                    OpLog "INFO" ("Wrote processed manifest to " +:+ PROCESSED_MANIFEST cfg)]) w).
Proof.
  intros Hcalls Hmanifest Hcreds Hdone.
  assert (Hcovered : forall t, t ∈ tables ->
            exists identifier,
              postgres_identifier creds t = Ok identifier /\
              py_contains identifier doc = Ok true).
  { intros t Ht. unfold tables_done in Hdone. rewrite forallb_forall in Hdone.
    apply list_elem_of_In in Ht. specialize (Hdone t Ht).
    destruct (postgres_identifier creds t) as [identifier|]; [|discriminate].
    exists identifier. split; [done|]. by apply holds_contains. }
  unfold process_postgres_tables. unfold bind at 1.
  rewrite (read_processed_manifest_loads cfg w doc (Hcalls _) (Hcalls _) Hmanifest).
  unfold bind at 1.
  rewrite (get_ssm_param_json_loads ssm_param _ creds) by (apply Hcalls || exact Hcreds).
  unfold bind at 1. rewrite postgres_all_skipped by exact Hcovered.
  rewrite (write_processed_manifest_again cfg _ doc) by (apply Hcalls || exact Hmanifest).
  rewrite append_ops_advance, !advance_advance. reflexivity.
Qed.

Lemma log_info_advance msg w : log_info msg w = (Ok tt, advance 0 [OpLog "INFO" msg] w).
Proof. reflexivity. Qed.

Lemma since_advance n ops w : since w (advance n ops w) = ops.
Proof. by apply since_app. Qed.

Lemma skip_logs_no_write file_ext_filter objs :
  List.filter is_write (skip_logs file_ext_filter objs) = [].
Proof.
  induction objs as [|obj objs IH]; [done|]. unfold skip_logs in *. cbn [omap list_omap].
  destruct (ext_filtered_out file_ext_filter (Key obj)); [exact IH|].
  cbn [List.filter is_write]. exact IH.
Qed.

Lemma skipped_pass_no_write cfg store prefix_s3 file_ext_filter :
  List.filter is_write (skipped_pass cfg store prefix_s3 file_ext_filter) = [].
Proof.
  unfold skipped_pass.
  destruct (split1 "/" (replace "s3://" "" prefix_s3)) as [|bucket [|prefix [|? ?]]]; try done.
  rewrite List.filter_app, skip_logs_no_write. done.
Qed.

Lemma table_skip_logs_no_write creds tables :
  List.filter is_write (table_skip_logs creds tables) = [].
Proof. induction tables; [done|]. simpl. done. Qed.

(** C1.  A run of [run_full_ingest] over sources all of whose items are
    in the stored manifest, none of its calls failing: the items of the
    three prefixes, the sheet and the tables are each skipped with their
    log line, nothing is downloaded, fetched or extracted, and the store
    with the manifest in it and the scratch directory are as they were.
    The run is not free of writes, though: with a table configured the
    last flow writes the manifest again, as it was, so the calls that
    write are [makedirs] on the scratch directory and one write of the
    manifest; only with no table configured is [makedirs] the only one. *)
Theorem second_run_writes_the_manifest_again
    (cfg : Config) rc rj md5 (w : World) (doc creds : json)
    (Hcalls : forall n, faults w n = None)
    (Hmanifest : s3 w !! s3fs_split (PROCESSED_MANIFEST cfg) = Some (Json doc))
    (Hcreds : ssm w !! POSTGRES_SSM_PARAM cfg = Some (Json creds))
    (Hcustomers : prefix_done (s3 w) doc (CUSTOMERS_S3_PREFIX cfg) (Some ["csv"]) = true)
    (Hcall_logs : prefix_done (s3 w) doc (CALL_LOGS_PREFIX cfg) (Some ["csv"]) = true)
    (Hsocial : prefix_done (s3 w) doc (SOCIAL_PREFIX cfg) (Some ["json"]) = true)
    (Hsheet : holds doc (sheet_identifier (GOOGLE_SHEET_ID cfg) (GOOGLE_SHEET_RANGE cfg)) = true)
    (Htables : tables_done creds doc (parse_table_names (POSTGRES_TABLES cfg)) = true) :
  exists w',
    run_full_ingest cfg rc rj md5 w = (Ok tt, w') /\
    s3 w' = s3 w /\
    scratch w' = scratch w /\
    since w w' =
      [OpMakedirs (LOCAL_TMP cfg)]
      ++ skipped_pass cfg (s3 w) (CUSTOMERS_S3_PREFIX cfg) (Some ["csv"])
      ++ skipped_pass cfg (s3 w) (CALL_LOGS_PREFIX cfg) (Some ["csv"])
      ++ skipped_pass cfg (s3 w) (SOCIAL_PREFIX cfg) (Some ["json"])
      ++ [OpFsExists (PROCESSED_MANIFEST cfg); OpFsRead (PROCESSED_MANIFEST cfg);
          OpLog "INFO" ("Skipping already processed google sheet "
                        +:+ sheet_identifier (GOOGLE_SHEET_ID cfg) (GOOGLE_SHEET_RANGE cfg))]
      ++ match parse_table_names (POSTGRES_TABLES cfg) with
         | [] => [OpLog "INFO" "No Postgres tables configured (set POSTGRES_TABLES env var)"]
         | tables =>
             [OpFsExists (PROCESSED_MANIFEST cfg); OpFsRead (PROCESSED_MANIFEST cfg);
              OpSsmGet (POSTGRES_SSM_PARAM cfg)]
             ++ table_skip_logs creds tables
             ++ [OpFsWrite (PROCESSED_MANIFEST cfg);
                 OpLog "INFO" ("Wrote processed manifest to " +:+ PROCESSED_MANIFEST cfg)]
         end /\
    List.filter is_write (since w w') =
      OpMakedirs (LOCAL_TMP cfg)
      :: match parse_table_names (POSTGRES_TABLES cfg) with
         | [] => []
         | _ => [OpFsWrite (PROCESSED_MANIFEST cfg)]
         end.
Proof.
  set (m := PROCESSED_MANIFEST cfg) in *.
  set (p1 := skipped_pass cfg (s3 w) (CUSTOMERS_S3_PREFIX cfg) (Some ["csv"])).
  set (p2 := skipped_pass cfg (s3 w) (CALL_LOGS_PREFIX cfg) (Some ["csv"])).
  set (p3 := skipped_pass cfg (s3 w) (SOCIAL_PREFIX cfg) (Some ["json"])).
  set (sheet := [OpFsExists m; OpFsRead m;
                 OpLog "INFO" ("Skipping already processed google sheet "
                               +:+ sheet_identifier (GOOGLE_SHEET_ID cfg)
                                     (GOOGLE_SHEET_RANGE cfg))]).
  set (w1 := advance 1 [OpMakedirs (LOCAL_TMP cfg)] w).
  set (w2 := advance 3 p1 w1).
  set (w3 := advance 3 p2 w2).
  set (w4 := advance 3 p3 w3).
  set (w5 := advance 2 sheet w4).
  assert (H1 : ensure_local_tmp cfg w = (Ok tt, w1)).
  { unfold ensure_local_tmp, call. by rewrite Hcalls. }
  assert (H2 : process_s3_prefix cfg rc rj md5 (CUSTOMERS_S3_PREFIX cfg) "customers"
                 (Some ["csv"]) w1 = (Ok tt, w2))
    by (by apply (skipped_prefix cfg rc rj md5 _ _ _ w1 doc)).
  assert (H3 : process_s3_prefix cfg rc rj md5 (CALL_LOGS_PREFIX cfg) "call_center_logs"
                 (Some ["csv"]) w2 = (Ok tt, w3))
    by (by apply (skipped_prefix cfg rc rj md5 _ _ _ w2 doc)).
  assert (H4 : process_s3_prefix cfg rc rj md5 (SOCIAL_PREFIX cfg) "social_media"
                 (Some ["json"]) w3 = (Ok tt, w4))
    by (by apply (skipped_prefix cfg rc rj md5 _ _ _ w3 doc)).
  assert (H5 : process_google_sheet cfg md5 (GOOGLE_SHEET_ID cfg) (GOOGLE_SHEET_RANGE cfg)
                 "agents" (GOOGLE_SERVICE_ACCOUNT cfg) w4 = (Ok tt, w5))
    by (by apply (skipped_sheet cfg md5 _ _ _ _ w4 doc)).
  assert (Hrun : run_full_ingest cfg rc rj md5 w =
                 match parse_table_names (POSTGRES_TABLES cfg) with
                 | [] => log_info "No Postgres tables configured (set POSTGRES_TABLES env var)" w5
                 | t :: ts => process_postgres_tables cfg md5 (t :: ts) (POSTGRES_SSM_PARAM cfg)
                                "web_forms" w5
                 end).
  { unfold run_full_ingest. unfold bind at 1. rewrite H1. unfold bind at 1. rewrite H2.
    unfold bind at 1. rewrite H3. unfold bind at 1. rewrite H4. unfold bind at 1. rewrite H5.
    by destruct (parse_table_names (POSTGRES_TABLES cfg)). }
  rewrite Hrun. clear Hrun.
  assert (Hwrites : List.filter is_write ([OpMakedirs (LOCAL_TMP cfg)] ++ p1 ++ p2 ++ p3 ++ sheet)
                    = [OpMakedirs (LOCAL_TMP cfg)]).
  { rewrite !List.filter_app. subst p1 p2 p3. by rewrite !skipped_pass_no_write. }
  destruct (parse_table_names (POSTGRES_TABLES cfg)) as [|t ts] eqn:Hnames.
  - rewrite log_info_advance. subst w5 w4 w3 w2 w1. rewrite !advance_advance.
    eexists. split; [reflexivity|]. split; [reflexivity|]. split; [reflexivity|].
    rewrite since_advance, <- ?app_assoc. split; [reflexivity|].
    rewrite !app_assoc, List.filter_app, <- !app_assoc, Hwrites. reflexivity.
  - rewrite (skipped_tables cfg md5 (t :: ts) _ "web_forms" w5 doc creds); try done.
    subst w5 w4 w3 w2 w1. rewrite !advance_advance.
    eexists. split; [reflexivity|]. split; [reflexivity|]. split; [reflexivity|].
    rewrite since_advance, <- ?app_assoc. split; [reflexivity|].
    set (tables := t :: ts).
    transitivity (List.filter is_write
                    (([OpMakedirs (LOCAL_TMP cfg)] ++ p1 ++ p2 ++ p3 ++ sheet)
                     ++ [OpFsExists m; OpFsRead m; OpSsmGet (POSTGRES_SSM_PARAM cfg)]
                     ++ table_skip_logs creds tables
                     ++ [OpFsWrite m;
                         OpLog "INFO" ("Wrote processed manifest to " +:+ m)])).
    { f_equal. by rewrite <- !app_assoc. }
    rewrite List.filter_app, Hwrites, !List.filter_app, table_skip_logs_no_write. reflexivity.
Qed.

Lemma second_run_writes_the_manifest_again_witness :
  exists w',
    run_full_ingest Demo.config Demo.read_csv Demo.read_json Demo.md5 Cases.after_full_run
      = (Ok tt, w') /\
    s3 w' = s3 Cases.after_full_run /\
    List.filter is_write (since Cases.after_full_run w') =
      [OpMakedirs "/tmp/data_ingest_tmp"; OpFsWrite "raw/_metadata/processed_files.json"].
Proof.
  destruct (second_run_writes_the_manifest_again Demo.config Demo.read_csv Demo.read_json
              Demo.md5 Cases.after_full_run Cases.full_run_manifest Demo.credentials)
    as (w' & Hrun & Hstore & _ & _ & Hwrites).
  - intros n. reflexivity.
  - vm_compute; reflexivity.
  - vm_compute; reflexivity.
  - vm_compute; reflexivity.
  - vm_compute; reflexivity.
  - vm_compute; reflexivity.
  - vm_compute; reflexivity.
  - vm_compute; reflexivity.
  - exists w'. split; [exact Hrun|]. split; [exact Hstore|]. exact Hwrites.
Defined.
